(** * MarkdownPreview: the conversion pipeline of [markdown_preview.py]

    A shallow embedding of the compiler classes of [markdown_preview.py]
    ([Compiler], [OnlineCompiler], [GithubCompiler], [GitlabCompiler],
    [ExternalMarkdownCompiler], [MarkdownCompiler]) and the properties of the
    pipeline that the specification states about them.

    Conventions.
    - Python [str] values are [string]s; a character outside ASCII stands for
      its UTF-8 code units, which no function below splits.
    - Python values of dynamic type (settings, JSON, YAML, meta data) are
      [pyval]s.
    - A method that can raise is a computation in the monad [M]: it threads the
      mutable attributes of the compiler object and the messages sent to the
      editor, and ends in [Ret] or [Raise].
    - Libraries and the outside world (PyYAML, json, pymdownx, urllib,
      subprocess, the file system) are the fields of one record, [host]; every
      theorem holds for every host. *)

From Stdlib Require Import ZArith List Ascii String Bool Lia DecimalString.
From stdpp Require Import base option list strings gmap.

Open Scope string_scope.
Open Scope Z_scope.

(** ** Characters and strings *)

Definition LF : ascii := "010"%char.
Definition CR : ascii := "013"%char.
Definition DQ : ascii := "034"%char.

Definition nl : string := String LF EmptyString.
Definition dq : string := String DQ EmptyString.

(** [s.startswith(p)] *)
Fixpoint startswith (p s : string) : bool :=
  match p, s with
  | EmptyString, _ => true
  | String a p', String b s' => if Ascii.eqb a b then startswith p' s' else false
  | String _ _, EmptyString => false
  end.

(** [s[n:]] *)
Fixpoint drop_str (n : nat) (s : string) : string :=
  match n, s with
  | O, _ => s
  | S n', String _ s' => drop_str n' s'
  | S _, EmptyString => EmptyString
  end.

(** [s[:n]] *)
Fixpoint take_str (n : nat) (s : string) : string :=
  match n, s with
  | O, _ => EmptyString
  | S n', String c s' => String c (take_str n' s')
  | S _, EmptyString => EmptyString
  end.

(** [s[:-1]] *)
Definition drop_last (s : string) : string :=
  take_str (String.length s - 1) s.

(** The characters [str.strip()] removes, within ASCII: TAB, LF, VT, FF, CR,
    the separators FS, GS, RS, US, and the space. *)
Definition is_space (c : ascii) : bool :=
  let n := nat_of_ascii c in
  ((9 <=? n)%nat && (n <=? 13)%nat) || ((28 <=? n)%nat && (n <=? 32)%nat).

(** [s.strip() != ''], which is all the source asks of a stripped string. *)
Fixpoint has_nonspace (s : string) : bool :=
  match s with
  | String c s' => if is_space c then has_nonspace s' else true
  | EmptyString => false
  end.

(** [s.lower()] on ASCII letters. *)
Definition lower_ascii (c : ascii) : ascii :=
  let n := nat_of_ascii c in
  if ((65 <=? n)%nat && (n <=? 90)%nat) then ascii_of_nat (n + 32) else c.

Fixpoint lower (s : string) : string :=
  match s with
  | String c s' => String (lower_ascii c) (lower s')
  | EmptyString => EmptyString
  end.

(** [s.split('\n')] *)
Fixpoint split_lines_aux (cur : string) (s : string) : list string :=
  match s with
  | EmptyString => [cur]
  | String c s' =>
      if Ascii.eqb c LF then cur :: split_lines_aux EmptyString s'
      else split_lines_aux (cur ++ String c EmptyString) s'
  end.

Definition split_lines (s : string) : list string :=
  split_lines_aux EmptyString s.

(** [sep.join(l)] *)
Fixpoint join (sep : string) (l : list string) : string :=
  match l with
  | [] => EmptyString
  | [x] => x
  | x :: rest => x ++ sep ++ join sep rest
  end.

(** ["%d" % z] *)
Definition fmt_d (z : Z) : string :=
  NilZero.string_of_int (Z.to_int z).

(** ** Dynamically typed values *)

#[warnings="-register-all"]
Inductive pyval : Type :=
| PNone
| PBool (b : bool)
| PInt (z : Z)
| PStr (s : string)
| PList (l : list pyval)
| PDict (d : list (string * pyval)).

(** Python truthiness: [bool(v)]. *)
Definition truthy (v : pyval) : bool :=
  match v with
  | PNone => false
  | PBool b => b
  | PInt z => negb (z =? 0)
  | PStr s => negb (String.eqb s EmptyString)
  | PList l => match l with [] => false | _ => true end
  | PDict d => match d with [] => false | _ => true end
  end.

(** [v == s] for a string literal [s]: only a [str] equals a [str]. *)
Definition is_str (s : string) (v : pyval) : bool :=
  match v with
  | PStr t => String.eqb t s
  | _ => false
  end.

(** [d.get(k)] on the items of a dict, kept in insertion order. *)
Fixpoint assoc (k : string) (d : list (string * pyval)) : option pyval :=
  match d with
  | [] => None
  | (k', v) :: d' => if String.eqb k' k then Some v else assoc k d'
  end.

(** ** Results and exceptions *)

(** A [bytes] value either is the UTF-8 encoding of a text or does not decode. *)
Inductive bytes : Type :=
| Utf8 (s : string)
| NotUtf8.

(** The exception classes the source names or provokes.  [HTTPError] carries
    what the handlers read from it: [e.code] and [e.read()]. *)
Inductive exn : Type :=
| HTTPError (code : Z) (body : bytes)
| URLError
| CalledProcessError
| FileNotFoundError
| KeyError (k : string)
| IndexError
| TypeError
| ValueError
| AttributeError
| AssertionError
| UnicodeDecodeError.

Inductive res (A : Type) : Type :=
| Ret (a : A)
| Raise (e : exn).
Arguments Ret {A} a.
Arguments Raise {A} e.

(** [b.decode('utf-8')] and [s.encode('utf-8')] *)
Definition decode (b : bytes) : res string :=
  match b with
  | Utf8 s => Ret s
  | NotUtf8 => Raise UnicodeDecodeError
  end.

Definition encode (s : string) : bytes := Utf8 s.

(** ** Regular expressions

    The fragment of Python's [re] the source uses, as a backtracking matcher:
    the first alternative, the longest greedy and the shortest lazy repetition
    are tried first, as [re] does.  Repetition is over character classes only,
    which is all the patterns of the source need. *)

Inductive regex : Type :=
| Lit (s : string)                 (* literal text *)
| Seq (a b : regex)                (* [ab] *)
| Alt (a b : regex)                (* [a|b] *)
| Opt (a : regex)                  (* [a?] *)
| StarG (p : ascii -> bool)        (* [[p]*] *)
| StarL (p : ascii -> bool)        (* [[p]*?] *)
| Cls (p : ascii -> bool)          (* [[p]] *)
| Grp (name : string) (a : regex)  (* [(?P<name>a)], also for numbered groups *)
| Ref (name : string)              (* backreference *)
| NotAhead (a : regex)             (* [(?!a)] *)
| Behind (c : ascii).              (* [(?<=c)] *)

(** A position of the matcher: the character before it, the text from it on,
    and the groups captured so far. *)
Record mstate : Type := MState {
  prev : option ascii;
  rest : string;
  caps : list (string * string)
}.

Fixpoint cap (name : string) (cs : list (string * string)) : option string :=
  match cs with
  | [] => None
  | (n, v) :: cs' => if String.eqb n name then Some v else cap name cs'
  end.

(** Advance over the literal [lit]. *)
Fixpoint eat (lit : string) (p : option ascii) (s : string) : option (option ascii * string) :=
  match lit, s with
  | EmptyString, _ => Some (p, s)
  | String a lit', String b s' => if Ascii.eqb a b then eat lit' (Some b) s' else None
  | String _ _, EmptyString => None
  end.

Fixpoint star_greedy (p : ascii -> bool) (cs : list (string * string))
    (k : mstate -> option mstate) (pr : option ascii) (s : string) : option mstate :=
  match s with
  | String c s' =>
      if p c then
        match star_greedy p cs k (Some c) s' with
        | Some r => Some r
        | None => k (MState pr s cs)
        end
      else k (MState pr s cs)
  | EmptyString => k (MState pr s cs)
  end.

Fixpoint star_lazy (p : ascii -> bool) (cs : list (string * string))
    (k : mstate -> option mstate) (pr : option ascii) (s : string) : option mstate :=
  match k (MState pr s cs) with
  | Some r => Some r
  | None =>
      match s with
      | String c s' => if p c then star_lazy p cs k (Some c) s' else None
      | EmptyString => None
      end
  end.

(** [re_run r st k]: match [r] at [st], then continue with [k]; [None] makes the
    matcher backtrack. *)
Fixpoint re_run (r : regex) (st : mstate) (k : mstate -> option mstate) : option mstate :=
  match r with
  | Lit s =>
      match eat s (prev st) (rest st) with
      | Some (p, s') => k (MState p s' (caps st))
      | None => None
      end
  | Seq a b => re_run a st (fun st' => re_run b st' k)
  | Alt a b =>
      match re_run a st k with
      | Some res => Some res
      | None => re_run b st k
      end
  | Opt a =>
      match re_run a st k with
      | Some res => Some res
      | None => k st
      end
  | StarG p => star_greedy p (caps st) k (prev st) (rest st)
  | StarL p => star_lazy p (caps st) k (prev st) (rest st)
  | Cls p =>
      match rest st with
      | String c s' => if p c then k (MState (Some c) s' (caps st)) else None
      | EmptyString => None
      end
  | Grp name a =>
      re_run a st (fun st' =>
        let n := (String.length (rest st) - String.length (rest st'))%nat in
        k (MState (prev st') (rest st') ((name, take_str n (rest st)) :: caps st')))
  | Ref name =>
      match cap name (caps st) with
      | Some s =>
          match eat s (prev st) (rest st) with
          | Some (p, s') => k (MState p s' (caps st))
          | None => None
          end
      | None => None
      end
  | NotAhead a =>
      match re_run a st Some with
      | Some _ => None
      | None => k st
      end
  | Behind c =>
      match prev st with
      | Some c' => if Ascii.eqb c c' then k st else None
      | None => None
      end
  end.

(** A match object: [m.group(0)], the named groups, and the text after the
    match ([m.end()] characters into the subject). *)
Record rmatch : Type := RMatch {
  whole : string;
  groups : list (string * string);
  after : string
}.

(** [m.group(name)]; every group the source asks for takes part in its match. *)
Definition group (name : string) (m : rmatch) : string :=
  match cap name (groups m) with
  | Some s => s
  | None => EmptyString
  end.

(** [m.end()], given the subject. *)
Definition match_end (subject : string) (m : rmatch) : nat :=
  (String.length subject - String.length (after m))%nat.

(** Match [r] at the position whose previous character is [p]. *)
Definition match_at (r : regex) (p : option ascii) (s : string) : option rmatch :=
  match re_run r (MState p s []) Some with
  | Some st =>
      Some (RMatch (take_str (String.length s - String.length (rest st)) s)
                   (caps st) (rest st))
  | None => None
  end.

(** [re.search] of a pattern anchored by [^], without [re.MULTILINE]: it can
    only match at the start of the subject. *)
Definition search_anchored (r : regex) (s : string) : option rmatch :=
  match_at r None s.

(** The subject as [re.sub] walks it: the characters outside every match, and
    the successive non-overlapping matches, leftmost first. *)
Inductive token : Type :=
| TChar (c : ascii)
| TMatch (m : rmatch).

Fixpoint scan_from (r : regex) (p : option ascii) (s : string) (skip : nat) : list token :=
  match s with
  | EmptyString => []
  | String c s' =>
      match skip with
      | S n => scan_from r (Some c) s' n
      | O =>
          match match_at r p s with
          | Some m =>
              match String.length (whole m) with
              | O => TMatch m :: TChar c :: scan_from r (Some c) s' O
              | S n => TMatch m :: scan_from r (Some c) s' n
              end
          | None => TChar c :: scan_from r (Some c) s' O
          end
      end
  end.

Definition scan (r : regex) (s : string) : list token :=
  scan_from r None s O.

(** [r.sub(repl, s)] for a callback [repl] that keeps a state of type [St]
    between its calls, as a closure over a dict does. *)
Fixpoint sub_tokens {St : Type} (repl : St -> rmatch -> St * string)
    (st : St) (ts : list token) : St * string :=
  match ts with
  | [] => (st, EmptyString)
  | TChar c :: ts' =>
      let '(st', out) := sub_tokens repl st ts' in (st', String c out)
  | TMatch m :: ts' =>
      let '(st1, piece) := repl st m in
      let '(st2, out) := sub_tokens repl st1 ts' in
      (st2, piece ++ out)
  end.

Definition re_sub_st {St : Type} (r : regex) (repl : St -> rmatch -> St * string)
    (st : St) (s : string) : St * string :=
  sub_tokens repl st (scan r s).

Definition re_sub (r : regex) (repl : rmatch -> string) (s : string) : string :=
  snd (re_sub_st r (fun (u : unit) m => (u, repl m)) tt s).

Definition any_char (c : ascii) : bool := true.
Definition not_gt (c : ascii) : bool := negb (Ascii.eqb c ">"%char).
Definition digit_1_6 (c : ascii) : bool :=
  let n := nat_of_ascii c in ((49 <=? n)%nat && (n <=? 54)%nat).

(** The patterns of the source, group for group.  In these comments [\x22]
    stands for the double quote the source writes. *)

(** [^(-{3}\r?\n(?!\r?\n)(.*?)(?<=\n)(?:-{3}|\.{3})\r?\n)] with [re.DOTALL];
    the anchor is in [search_anchored]. *)
Definition RE_FRONTMATTER : regex :=
  Grp "1"
    (Seq (Lit "---") (Seq (Opt (Lit (String CR EmptyString))) (Seq (Lit nl)
    (Seq (NotAhead (Seq (Opt (Lit (String CR EmptyString))) (Lit nl)))
    (Seq (Grp "2" (StarL any_char))
    (Seq (Behind LF)
    (Seq (Alt (Lit "---") (Lit "..."))
    (Seq (Opt (Lit (String CR EmptyString))) (Lit nl))))))))).

(** [(?P<open><h([1-6])>)(?P<text>.*?)(?P<close></h\2>)] with [re.DOTALL] *)
Definition RE_HEADER : regex :=
  Seq (Grp "open" (Seq (Lit "<h") (Seq (Grp "2" (Cls digit_1_6)) (Lit ">"))))
  (Seq (Grp "text" (StarL any_char))
       (Grp "close" (Seq (Lit "</h") (Seq (Ref "2") (Lit ">"))))).

(** [(?P<open><a)(?P<text1>.*?)(?P<id>id=\x22user-content-)(?P<text2>.*?)(?P<close>>)]
    with [re.DOTALL] *)
Definition RE_USER_CONTENT : regex :=
  Seq (Grp "open" (Lit "<a"))
  (Seq (Grp "text1" (StarL any_char))
  (Seq (Grp "id" (Lit ("id=" ++ dq ++ "user-content-")))
  (Seq (Grp "text2" (StarL any_char))
       (Grp "close" (Lit ">"))))).

(** [(?P<open><img)(?P<text1>[^>]*?)(?P<src>src=\x22[^>]*\x22)(?P<text2>[^>]*?)]
    [(?P<data_src>data-src=\x22[^>]*\x22)(?P<text3>[^>]*?)(?P<close>>)] *)
Definition RE_IMAGE : regex :=
  Seq (Grp "open" (Lit "<img"))
  (Seq (Grp "text1" (StarL not_gt))
  (Seq (Grp "src" (Seq (Lit ("src=" ++ dq)) (Seq (StarG not_gt) (Lit dq))))
  (Seq (Grp "text2" (StarL not_gt))
  (Seq (Grp "data_src" (Seq (Lit ("data-src=" ++ dq)) (Seq (StarG not_gt) (Lit dq))))
  (Seq (Grp "text3" (StarL not_gt))
       (Grp "close" (Lit ">"))))))).

(** ** The compiler object and the editor *)

(** What the plugin sends out: [sublime.status_message], [sublime.error_message],
    [log] and [traceback.print_exc] on the console, and each call of
    [subprocess.Popen] with its argument vector ([hidden] is the Windows
    [startupinfo] that hides the window). *)
Inductive event : Type :=
| StatusMessage (msg : string)
| ErrorMessage (msg : string)
| Log (msg : string)
| LogException (e : exn)
| LogTraceback
| Popen (args : list string) (hidden : bool).

(** A [sublime.View]: its text, its selection regions, its display name and
    the file it shows. *)
Record view : Type := View {
  view_text : string;
  view_sel : list (nat * nat);
  view_name : string;
  view_file_name : option string
}.

(** [view.substr(region)] *)
Definition substr (v : view) (r : nat * nat) : string :=
  let b := Nat.min (fst r) (snd r) in
  let e := Nat.max (fst r) (snd r) in
  take_str (e - b) (drop_str b (view_text v)).

(** [view.size()] *)
Definition view_size (v : view) : nat := String.length (view_text v).

(** The two remote APIs and the compiler classes. *)
Inductive online : Type := Github | Gitlab.

Inductive compiler_class : Type :=
| OnlineCompiler (api : online)
| ExternalMarkdownCompiler (parser : string)
| MarkdownCompiler.

(** The mutable attributes of a compiler object: [self.settings],
    [self.meta_title] ([None] before [get_meta] has assigned it),
    [self.pygments_style], and the events sent so far, latest last. *)
Record compiler : Type := Compiler {
  settings : gmap string pyval;
  meta_title : option (option string);
  pygments_style : option string;
  console : list event
}.

(** The configuration of [PathConverterPostprocessor]. *)
Record pathconv_config : Type := PathConv {
  base_path : pyval;
  relative_path : pyval;
  absolute : bool;
  tags : string
}.

(** An HTTP request: [request_url(url, data, headers)]. *)
Record request : Type := Request {
  req_url : string;
  req_data : bytes;
  req_headers : list (string * string)
}.

(** The libraries and the world outside the plugin. *)
Record host : Type := Host {
  (* PyYAML, json, str() of a value that is not a str, cgi.escape *)
  yaml_load : string -> res pyval;
  json_loads : string -> res pyval;
  json_dumps : pyval -> string;
  py_repr : pyval -> string;
  cgi_escape : string -> bool -> string;
  (* pymdownx *)
  uslugify : string -> string -> string;
  pathconverter_run : pathconv_config -> string -> string;
  b64_run : pyval -> string -> string;
  striphtml_run : string -> string;
  critic_run : string -> list string -> list string;
  (* Python Markdown with its extensions, and Pygments *)
  markdown_convert : gmap string pyval -> string -> res (string * pyval);
  pygments_css : pyval -> pyval -> res string;
  (* urllib and subprocess *)
  urlopen_read : request -> res bytes;
  popen_communicate : list string -> list bytes -> res (bytes * Z);
  (* the file system and os.path *)
  os_path_exists : string -> bool;
  os_path_abspath : string -> string;
  os_path_expanduser : string -> string;
  os_path_dirname : string -> string;
  os_path_basename : string -> string;
  os_path_splitext : string -> string;
  load_utf8 : string -> res string;
  get_temp_preview_path : view -> string;
  (* sublime *)
  sublime_settings : gmap string pyval;
  sublime_platform : string;
  (* the CSS and JavaScript a compiler class loads for a view *)
  get_stylesheet : compiler_class -> gmap string pyval -> view -> res string;
  get_javascript : compiler_class -> gmap string pyval -> res string;
  (* markdown_settings.Settings *)
  new_settings : option string -> gmap string pyval;
  apply_frontmatter : list (string * pyval) -> gmap string pyval -> gmap string pyval;
  add_meta : pyval -> gmap string pyval -> gmap string pyval
}.

(** ** The monad of methods *)

Definition M (A : Type) : Type := compiler -> res A * compiler.

Definition ret {A : Type} (a : A) : M A := fun s => (Ret a, s).

Definition raise {A : Type} (e : exn) : M A := fun s => (Raise e, s).

Definition bind {A B : Type} (m : M A) (k : A -> M B) : M B :=
  fun s =>
    match m s with
    | (Ret a, s') => k a s'
    | (Raise e, s') => (Raise e, s')
    end.

Notation "'let*' x ':=' m 'in' k" := (bind m (fun x => k))
  (at level 10, x pattern, m at level 100, k at level 200).

(** A library call that returns or raises. *)
Definition lift {A : Type} (r : res A) : M A := fun s => (r, s).

(** [try: body / except Exception as e: handler e] *)
Definition try_except {A : Type} (body : M A) (handler : exn -> M A) : M A :=
  fun s =>
    match body s with
    | (Ret a, s') => (Ret a, s')
    | (Raise e, s') => handler e s'
    end.

(** [try: body / except ... as e: handler e / else: orelse]; the [else] suite
    runs outside the handlers. *)
Definition try_except_else {A B : Type} (body : M A) (handler : exn -> M B)
    (orelse : A -> M B) : M B :=
  fun s =>
    match body s with
    | (Ret a, s') => orelse a s'
    | (Raise e, s') => handler e s'
    end.

Definition emit (ev : event) : M unit :=
  fun s => (Ret tt, Compiler (settings s) (meta_title s) (pygments_style s)
                             (console s ++ [ev])).

Definition status_message (msg : string) : M unit := emit (StatusMessage msg).
Definition error_message (msg : string) : M unit := emit (ErrorMessage msg).
Definition log (msg : string) : M unit := emit (Log msg).

(** Modelled from the spec: [Settings.get(key, default)] of
    [markdown_settings.py], which is not among the sources: the resolved
    configuration is a mapping from keys to values, and a key that is not
    configured reads as the default. *)
Definition sget (st : gmap string pyval) (key : string) (default : pyval) : pyval :=
  match st !! key with
  | Some v => v
  | None => default
  end.

Definition settings_get (key : string) (default : pyval) : M pyval :=
  fun s => (Ret (sget (settings s) key default), s).

Definition set_settings (f : gmap string pyval -> gmap string pyval) : M unit :=
  fun s => (Ret tt, Compiler (f (settings s)) (meta_title s) (pygments_style s)
                             (console s)).

Definition set_meta_title (t : option string) : M unit :=
  fun s => (Ret tt, Compiler (settings s) (Some t) (pygments_style s) (console s)).

Definition set_pygments_style (t : option string) : M unit :=
  fun s => (Ret tt, Compiler (settings s) (meta_title s) t (console s)).

(** [str(v)] *)
Definition py_str (h : host) (v : pyval) : string :=
  match v with
  | PStr s => s
  | _ => py_repr h v
  end.

(** [d.get(k, default)] on a value that should be a dict. *)
Definition dict_get (d : pyval) (k : string) (default : pyval) : res pyval :=
  match d with
  | PDict items =>
      match assoc k items with
      | Some v => Ret v
      | None => Ret default
      end
  | _ => Raise AttributeError
  end.

(** [d[k]] on a value that should be a dict. *)
Definition dict_item (d : pyval) (k : string) : res pyval :=
  match d with
  | PDict items =>
      match assoc k items with
      | Some v => Ret v
      | None => Raise (KeyError k)
      end
  | _ => Raise TypeError
  end.

(** [a + b] on values read from JSON: texts and lists concatenate, numbers
    (and booleans, which are numbers) add, anything else is a [TypeError]. *)
Definition as_int (v : pyval) : option Z :=
  match v with
  | PInt z => Some z
  | PBool b => Some (if b then 1 else 0)
  | _ => None
  end.

Definition py_add (a b : pyval) : res pyval :=
  match a, b with
  | PStr x, PStr y => Ret (PStr (x ++ y))
  | PList x, PList y => Ret (PList (x ++ y))
  | _, _ =>
      match as_int a, as_int b with
      | Some x, Some y => Ret (PInt (x + y))
      | _, _ => Raise TypeError
      end
  end.

(** A library function of one [str] argument, given a value: anything but a
    [str] is a [TypeError] (as [re.sub] and the pymdownx postprocessors raise). *)
Definition expect_str (v : pyval) : res string :=
  match v with
  | PStr s => Ret s
  | _ => Raise TypeError
  end.

(** [s.replace(old, new, 1)] for a non-empty [old]. *)
Fixpoint replace1 (old new s : string) : string :=
  if startswith old s then new ++ drop_str (String.length old) s
  else match s with
       | String c s' => String c (replace1 old new s')
       | EmptyString => EmptyString
       end.

Fixpoint spaces (n : nat) : string :=
  match n with
  | O => EmptyString
  | S n' => String " "%char (spaces n')
  end.

(** ** The compilers *)

Definition _CANNOT_CONVERT : string := "cannot convert markdown".

Definition compiler_name (cls : compiler_class) : string :=
  match cls with
  | OnlineCompiler Github => "github"
  | OnlineCompiler Gitlab => "gitlab"
  | ExternalMarkdownCompiler parser => parser
  | MarkdownCompiler => "markdown"
  end.

Section Compilers.

Variable h : host.

(** [get_references(file_name)].  A file that does not exist reaches
    [log("...%s!", file_name)], a call of the one-parameter [log] with two
    arguments, which raises [TypeError]. *)
Definition get_references (file_name : pyval) : M string :=
  match file_name with
  | PNone => ret EmptyString
  | PStr f =>
      if os_path_exists h f then
        match load_utf8 h f with
        | Ret text => ret text
        | Raise _ => let* _ := emit LogTraceback in ret EmptyString
        end
      else raise TypeError
  | _ => raise TypeError
  end.

(** *** [Compiler]: the text preprocessors *)

(** [Compiler.preprocessor_yaml_frontmatter]: the front matter and the text
    left.  The [try] block is [attempt]; [yaml_okay] is whether it returned. *)
Definition preprocessor_yaml_frontmatter (text : string)
    : list (string * pyval) * string :=
  if startswith "---" text then
    match search_anchored RE_FRONTMATTER text with
    | Some m =>
        let attempt : res (list (string * pyval)) :=
          match yaml_load h (group "2" m) with
          | Ret PNone => Ret []
          | Ret (PDict d) => Ret d
          | Ret _ => Raise AssertionError
          | Raise e => Raise e
          end in
        match attempt with
        | Ret frontmatter => (frontmatter, drop_str (match_end text m) text)
        | Raise _ => ([], text)
        end
    | None => ([], text)
    end
  else ([], text).

(** [Compiler.preprocessor_criticmarkup] *)
Definition preprocessor_criticmarkup (source : string) (accept : bool) : string :=
  let mode := if accept then "accept" else "reject" in
  join nl (critic_run h mode (split_lines source)).

(** [Compiler.parser_specific_preprocess], which no class overrides. *)
Definition parser_specific_preprocess (text : string) : M string := ret text.

(** [for ref in references: contents += get_references(ref)] *)
Fixpoint append_references (contents : string) (refs : list pyval) : M string :=
  match refs with
  | [] => ret contents
  | ref :: refs' =>
      let* text := get_references ref in
      append_references (contents ++ text) refs'
  end.

(** What a [for] loop over a value visits. *)
Definition py_iter (v : pyval) : res (list pyval) :=
  match v with
  | PList l => Ret l
  | PDict d => Ret (map (fun kv => PStr (fst kv)) d)
  | PStr s => Ret (map (fun c => PStr (String c EmptyString)) (list_ascii_of_string s))
  | _ => Raise TypeError
  end.

Section OneView.

Variable vw : view.
Variable preview : bool.

(** [Compiler.get_contents] *)
Definition get_contents (wholefile : bool) : M string :=
  let contents := substr vw (O, view_size vw) in
  let* contents :=
    (if negb wholefile then
       match view_sel vw with
       | first :: _ =>
           let selection := substr vw first in
           ret (if has_nonspace selection then selection else contents)
       | [] => raise IndexError
       end
     else ret contents) in
  let* strip := settings_get "strip_yaml_front_matter" PNone in
  let* contents :=
    (if truthy strip then
       let '(frontmatter, contents') := preprocessor_yaml_frontmatter contents in
       let* _ := set_settings (apply_frontmatter h frontmatter) in
       ret contents'
     else ret contents) in
  let* builtin := settings_get "builtin" PNone in
  let* references := lift (dict_get builtin "references" (PList [])) in
  let* refs := lift (py_iter references) in
  let* contents := append_references contents refs in
  let* critic := settings_get "strip_critic_marks" (PStr "accept") in
  let* contents :=
    (if is_str "accept" critic || is_str "reject" critic then
       ret (preprocessor_criticmarkup contents (is_str "accept" critic))
     else ret contents) in
  parser_specific_preprocess contents.

(** *** [OnlineCompiler], [GithubCompiler], [GitlabCompiler] *)

Definition content_type (api : online) : string := "application/json".

Definition url (api : online) : string :=
  match api with
  | Github => "https://api.github.com/markdown"
  | Gitlab => "https://gitlab.com/api/v4/markdown"
  end.

Definition authentication_settings_key (api : online) : string :=
  match api with
  | Github => "github_oauth_token"
  | Gitlab => "gitlab_personal_token"
  end.

Definition authentication_api_key (api : online) : string :=
  match api with
  | Github => "Authorization"
  | Gitlab => "Private-Token"
  end.

Definition authentication_api_type (api : online) : string :=
  match api with
  | Github => "token"
  | Gitlab => EmptyString
  end.

(** [get_server_exception_message(body)] *)
Definition get_server_exception_message (api : online) (body : pyval) : res pyval :=
  match api with
  | Github => dict_item body "message"
  | Gitlab =>
      match dict_get body "message" (PStr EmptyString) with
      | Ret a =>
          match dict_get body "error" (PStr EmptyString) with
          | Ret b => py_add a b
          | Raise e => Raise e
          end
      | Raise e => Raise e
      end
  end.

(** [get_response_from_exception(e)]: only an [HTTPError] has [read]. *)
Definition get_response_from_exception (api : online) (e : exn) : M string :=
  match e with
  | HTTPError code payload =>
      let* text := lift (decode payload) in
      let* body := lift (json_loads h text) in
      let* msg := lift (get_server_exception_message api body) in
      ret (compiler_name (OnlineCompiler api) ++ "'s original response: (HTTP Status Code "
           ++ fmt_d code ++ ") " ++ dq ++ py_str h msg ++ dq)
  | _ => raise AttributeError
  end.

(** [pack_data(markdown_text, mode)] *)
Definition pack_data (api : online) (markdown_text : string) (mode : pyval) : pyval :=
  match api with
  | Github => PDict [("text", PStr markdown_text); ("mode", mode)]
  | Gitlab => PDict [("text", PStr markdown_text); ("gfm", PBool (is_str "gfm" mode))]
  end.

(** [unpack_data(raw_data)] *)
Definition unpack_data (api : online) (raw_data : bytes) : res pyval :=
  match api with
  | Github =>
      match decode raw_data with
      | Ret s => Ret (PStr s)
      | Raise e => Raise e
      end
  | Gitlab =>
      match decode raw_data with
      | Ret s =>
          match json_loads h s with
          | Ret v => dict_item v "html"
          | Raise e => Raise e
          end
      | Raise e => Raise e
      end
  end.

(** [subprocess.Popen(args, ...)] followed by the writes to its input and
    [communicate()]: the process's output and exit status. *)
Definition popen (args : list string) (hidden : bool) (writes : list bytes)
    : M (bytes * Z) :=
  let* _ := emit (Popen args hidden) in
  lift (popen_communicate h args writes).

Definition curl_failed_message (api : online) : string :=
  "Cannot use " ++ compiler_name (OnlineCompiler api)
  ++ " API to convert markdown. SSL is not included in your Python installation. "
  ++ spaces 20 ++ "And using curl didn't work either" ++ nl.

(** [OnlineCompiler.curl_convert(data)] *)
Definition curl_convert (api : online) (data : bytes) : M pyval :=
  try_except
    (let* shell_safe_json := lift (decode data) in
     let curl_args :=
       ["curl"; "-H"; "Content-Type: " ++ content_type api; "-d"; shell_safe_json;
        url api] in
     let token :=
       if String.eqb (authentication_api_type api) EmptyString then []
       else [authentication_api_type api] in
     let* token_value := settings_get (authentication_settings_key api) PNone in
     let* curl_args :=
       (if truthy token_value then
          let* tv := lift (expect_str token_value) in
          ret ("curl" :: "-H"
                 :: (authentication_api_key api ++ ": " ++ join " " (token ++ [tv]))
                 :: tl curl_args)
        else ret curl_args) in
     let* out := popen curl_args false [] in
     lift (unpack_data api (fst out)))
    (fun e =>
       match e with
       | CalledProcessError =>
           let* _ := error_message (curl_failed_message api) in
           ret PNone
       | _ => raise e
       end).

Definition auth_failed_message (api : online) : string :=
  let name := compiler_name (OnlineCompiler api) in
  name ++ " API authentication failed. Please check your " ++ name ++ "'s token."
  ++ nl ++ nl.

Definition rate_limit_message (api : online) : string :=
  let key := authentication_settings_key api in
  "It seems like you have exceeded " ++ key ++ "'s API rate limit." ++ nl ++ nl
  ++ "To continue using " ++ key ++ "'s markdown format with this package, log in to "
  ++ spaces 24 ++ key ++ ", then generate a new token, "
  ++ spaces 24
  ++ "copy the token's value, and paste it in this package's user settings under the key "
  ++ spaces 24 ++ "'" ++ key ++ "'. Example:" ++ nl ++ nl
  ++ "{" ++ nl
  ++ "    " ++ dq ++ key ++ dq ++ ": " ++ dq ++ "xxxx...." ++ dq ++ nl
  ++ "}" ++ nl ++ nl.

Definition unfriendly_message (api : online) : string :=
  compiler_name (OnlineCompiler api) ++ " API responded in an unfriendly way!"
  ++ nl ++ nl.

Definition check_settings_message (api : online) : string :=
  "Cannot use " ++ compiler_name (OnlineCompiler api)
  ++ "'s API to convert Markdown. Please check your settings." ++ nl ++ nl.

(** [OnlineCompiler.parser_specific_convert(markdown_text)] *)
Definition OnlineCompiler_parser_specific_convert (api : online) (markdown_text : string) : M pyval :=
  let markdown_html := PStr _CANNOT_CONVERT in
  let* token := settings_get (authentication_settings_key api) PNone in
  let* _ := status_message ("converting markdown with "
                            ++ compiler_name (OnlineCompiler api) ++ " API...") in
  let* mode := settings_get (compiler_name (OnlineCompiler api) ++ "_mode")
                            (PStr "gfm") in
  let data := encode (json_dumps h (pack_data api markdown_text mode)) in
  try_except_else
    (let headers :=
       ("Content-Type", content_type api)
       :: (if truthy token then
             [(authentication_api_key api,
               authentication_api_type api ++ " " ++ py_str h token)]
           else []) in
     let request := Request (url api) data headers in
     let* raw := lift (urlopen_read h request) in
     lift (unpack_data api raw))
    (fun e =>
       match e with
       | HTTPError code _ =>
           if code =? 401 then
             let* response := get_response_from_exception api e in
             let* _ := error_message (auth_failed_message api ++ response) in
             ret markdown_html
           else if code =? 403 then
             let* response := get_response_from_exception api e in
             let* _ := error_message (rate_limit_message api ++ response) in
             ret markdown_html
           else
             let* response := get_response_from_exception api e in
             let* _ := error_message (unfriendly_message api ++ response) in
             ret markdown_html
       | URLError => curl_convert api data
       | _ =>
           let* _ := emit (LogException e) in
           let* _ := emit LogTraceback in
           let* response := get_response_from_exception api e in
           let* _ := error_message (check_settings_message api ++ response) in
           ret markdown_html
       end)
    (fun html =>
       let* _ := status_message "converted markdown with github API successfully" in
       ret html).

(** *** [ExternalMarkdownCompiler] *)

(** [len(v)] *)
Definition py_len (v : pyval) : res nat :=
  match v with
  | PList l => Ret (List.length l)
  | PStr s => Ret (String.length s)
  | PDict d => Ret (List.length d)
  | _ => Raise TypeError
  end.

(** [v[0]] *)
Definition py_first (v : pyval) : res pyval :=
  match v with
  | PList (x :: _) => Ret x
  | PList [] => Raise IndexError
  | PStr (String c _) => Ret (PStr (String c EmptyString))
  | PStr EmptyString => Raise IndexError
  | PDict _ => Raise (KeyError "0")
  | _ => Raise TypeError
  end.

(** The argument vector [Popen] makes of [cmd]: a list of texts, or one text. *)
Fixpoint str_list (l : list pyval) : res (list string) :=
  match l with
  | [] => Ret []
  | PStr s :: l' =>
      match str_list l' with
      | Ret r => Ret (s :: r)
      | Raise e => Raise e
      end
  | _ :: _ => Raise TypeError
  end.

Definition cmd_args (cmd : pyval) : res (list string) :=
  match cmd with
  | PList l => str_list l
  | PStr s => Ret [s]
  | _ => Raise TypeError
  end.

(** [ExternalMarkdownCompiler.parser_specific_convert(markdown_text)] *)
Definition ExternalMarkdownCompiler_parser_specific_convert (parser : string) (markdown_text : string) : M pyval :=
  let* binary :=
    lift (dict_item (sget (sublime_settings h) "markdown_binary_map" (PDict [])) parser) in
  let* n := lift (py_len binary) in
  let* found :=
    (if (0 <? n)%nat then
       let* first := lift (py_first binary) in
       let* path := lift (expect_str first) in
       ret (os_path_exists h path)
     else ret false) in
  if found then
    let cmd := binary in
    let* _ := status_message ("converting markdown with " ++ parser ++ "...") in
    let* args := lift (cmd_args cmd) in
    let* out :=
      popen args (String.eqb (sublime_platform h) "windows")
            (map (fun line => encode (line ++ nl)) (split_lines markdown_text)) in
    let* markdown_html := lift (decode (fst out)) in
    if negb (snd out =? 0) then
      let* _ := error_message "Could not convert file! See console for more info." in
      let* _ := log markdown_html in
      ret (PStr _CANNOT_CONVERT)
    else ret (PStr markdown_html)
  else
    let* _ := error_message ("Cannot find " ++ py_str h binary ++ " binary!") in
    ret (PStr _CANNOT_CONVERT).

(** *** [MarkdownCompiler] *)

(** [MarkdownCompiler.parser_specific_convert(markdown_text)]; the extension
    table of [process_extensions] is read by [markdown_convert] from the
    settings, the style sheet of [set_highlight] is [pygments_css]. *)
Definition MarkdownCompiler_parser_specific_convert (markdown_text : string) : M pyval :=
  let* _ := status_message "converting markdown with Python markdown..." in
  let* _ := set_pygments_style None in
  let* style := settings_get "pygments_style" (PStr "github") in
  let* inject := settings_get "pygments_inject_css" (PBool true) in
  let* _ :=
    (if truthy inject && truthy style then
       let* css_class := settings_get "pygments_css_class" (PStr "codehilite") in
       let* css := lift (pygments_css h style css_class) in
       set_pygments_style (Some ("<style>" ++ css ++ "</style>"))
     else ret tt) in
  let* st := (fun s => (Ret (settings s), s)) in
  let* out := lift (markdown_convert h st markdown_text) in
  let* _ := set_settings (add_meta h (snd out)) in
  ret (PStr (fst out)).

(** [parser_specific_convert], by class. *)
Definition parser_specific_convert (cls : compiler_class) (markdown_text : string)
    : M pyval :=
  match cls with
  | OnlineCompiler api => OnlineCompiler_parser_specific_convert api markdown_text
  | ExternalMarkdownCompiler parser => ExternalMarkdownCompiler_parser_specific_convert parser markdown_text
  | MarkdownCompiler => MarkdownCompiler_parser_specific_convert markdown_text
  end.

(** *** The postprocessors *)

(** The callback [inject_id] of [postprocess_inject_header_id]; [unique] is the
    dict it closes over. *)
Definition inject_id (unique : gmap string Z) (m : rmatch) : gmap string Z * string :=
  let header_id := uslugify h (group "text" m) "-" in
  if String.eqb header_id EmptyString then (unique, whole m)
  else
    let '(unique', header_id') :=
      match unique !! header_id with
      | None => (<[header_id := 1]> unique, header_id)
      | Some value => (<[header_id := value + 1]> unique, header_id ++ "-" ++ fmt_d value)
      end in
    (unique',
     drop_last (group "open" m) ++ (" id=" ++ dq ++ header_id' ++ dq ++ ">")
     ++ group "text" m ++ group "close" m).

(** [GithubCompiler.postprocess_inject_header_id(html)] *)
Definition postprocess_inject_header_id (html : string) : string :=
  snd (re_sub_st RE_HEADER inject_id ∅ html).

(** [GitlabCompiler.fix_ids(html)] *)
Definition fix_ids (html : string) : string :=
  re_sub RE_USER_CONTENT
    (fun m => group "open" m ++ group "text1" m ++ ("id=" ++ dq) ++ group "text2" m
              ++ group "close" m)
    html.

(** [GitlabCompiler.fix_images_src(html)] *)
Definition fix_images_src (html : string) : string :=
  re_sub RE_IMAGE
    (fun m => group "open" m ++ group "text1" m ++ drop_str 5 (group "data_src" m)
              ++ group "text2" m ++ group "text3" m ++ group "close" m)
    html.

Definition highlight_theme_script (theme : pyval) : string :=
  "<script>const HIGHLIGHT_THEME = " ++ dq ++ py_str h theme ++ dq ++ ";</script>".

(** [parser_specific_postprocess], by class: [GithubCompiler] and
    [GitlabCompiler] override the method of [Compiler]. *)
Definition parser_specific_postprocess (cls : compiler_class) (html : pyval) : M pyval :=
  match cls with
  | OnlineCompiler Github =>
      let* inject := settings_get "github_inject_header_ids" (PBool false) in
      if truthy inject then
        let* s := lift (expect_str html) in
        ret (PStr (postprocess_inject_header_id s))
      else ret html
  | OnlineCompiler Gitlab =>
      let* mode := settings_get "gitlab_mode" (PStr "gfm") in
      let* html :=
        (if is_str "gfm" mode then
           let* s := lift (expect_str html) in ret (PStr (fix_ids s))
         else ret html) in
      let* simple := settings_get "html_simple" (PBool false) in
      let* html :=
        (if negb (truthy simple) then
           let* theme := settings_get "gitlab_highlight_theme" (PStr "white") in
           let* s := lift (expect_str html) in
           ret (PStr (s ++ highlight_theme_script theme))
         else ret html) in
      let* s := lift (expect_str html) in
      ret (PStr (fix_images_src s))
  | _ => ret html
  end.

(** [Compiler.postprocessor_pathconverter(source, image_convert, file_convert,
    absolute)] *)
Definition postprocessor_pathconverter (source : pyval)
    (image_convert file_convert absolute : bool) : M pyval :=
  let* builtin := settings_get "builtin" PNone in
  let* relative_path :=
    (if negb absolute then
       let* relative_path :=
         (if preview then ret (PStr (get_temp_preview_path h vw))
          else
            let* destination := lift (dict_get builtin "destination" PNone) in
            if negb (truthy destination) then
              match view_file_name vw with
              | Some mdfile =>
                  if os_path_exists h mdfile
                  then ret (PStr (os_path_splitext h mdfile ++ ".html"))
                  else ret destination
              | None => ret destination
              end
            else ret destination) in
       if truthy relative_path then
         let* p := lift (expect_str relative_path) in
         ret (PStr (os_path_dirname h p))
       else ret relative_path
     else ret (PStr EmptyString)) in
  let tags :=
    ((if file_convert then ["script"; "a"; "link"] else [])
     ++ (if image_convert then ["img"] else []))%list in
  let* basepath := lift (dict_get builtin "basepath" PNone) in
  let config := PathConv basepath relative_path absolute (join " " tags) in
  let* s := lift (expect_str source) in
  ret (PStr (pathconverter_run h config s)).

(** [Compiler.postprocessor_base64(source)] *)
Definition postprocessor_base64 (source : pyval) : M pyval :=
  let* builtin := settings_get "builtin" PNone in
  let* basepath := lift (dict_get builtin "basepath" PNone) in
  let* s := lift (expect_str source) in
  ret (PStr (b64_run h basepath s)).

(** [Compiler.postprocessor_simple(source)] *)
Definition postprocessor_simple (source : pyval) : M pyval :=
  let* s := lift (expect_str source) in
  ret (PStr (striphtml_run h s)).

(** [Compiler.convert_markdown(markdown_text)] *)
Definition convert_markdown (cls : compiler_class) (markdown_text : string) : M pyval :=
  let* markdown_html := parser_specific_convert cls markdown_text in
  let* image_convert := settings_get "image_path_conversion" (PStr "absolute") in
  let* file_convert := settings_get "file_path_conversions" (PStr "absolute") in
  let* markdown_html := parser_specific_postprocess cls markdown_html in
  let* markdown_html :=
    (if is_str "absolute" image_convert || is_str "absolute" file_convert then
       postprocessor_pathconverter markdown_html
         (is_str "absolute" image_convert) (is_str "absolute" file_convert) true
     else ret markdown_html) in
  let* markdown_html :=
    (if is_str "relative" image_convert || is_str "relative" file_convert then
       postprocessor_pathconverter markdown_html
         (is_str "relative" image_convert) (is_str "relative" file_convert) false
     else ret markdown_html) in
  let* markdown_html :=
    (if is_str "base64" image_convert then postprocessor_base64 markdown_html
     else ret markdown_html) in
  let* simple := settings_get "html_simple" (PBool false) in
  if truthy simple then postprocessor_simple markdown_html
  else ret markdown_html.

(** *** The document head and [run] *)

(** The body of the loop of [get_meta] over the items of the meta dict; [meta]
    is the list of tags built so far. *)
Fixpoint get_meta_loop (items : list (string * pyval)) (meta : list string)
    : M (list string) :=
  match items with
  | [] => ret meta
  | (k, v) :: items' =>
      if String.eqb (lower k) "title" then
        let v :=
          match v with
          | PList [] => PStr EmptyString
          | PList (x :: _) => x
          | _ => v
          end in
        let* _ := set_meta_title (Some (py_str h v)) in
        get_meta_loop items' meta
      else
        let* v :=
          (match v with
           | PList l => let* ss := lift (str_list l) in ret (PStr (join "," ss))
           | _ => ret v
           end) in
        match v with
        | PNone => get_meta_loop items' meta
        | PStr s =>
            get_meta_loop items'
              (meta ++ ["<meta name=" ++ dq ++ cgi_escape h k true ++ dq
                        ++ " content=" ++ dq ++ cgi_escape h s true ++ dq ++ ">"])
        | _ => raise AttributeError
        end
  end.

(** [Compiler.get_meta] *)
Definition get_meta : M string :=
  let* _ := set_meta_title None in
  let* meta := settings_get "meta" (PDict []) in
  match meta with
  | PDict items =>
      let* tags := get_meta_loop items [] in
      ret (join nl tags)
  | _ => raise AttributeError
  end.

(** [Compiler.get_title] *)
Definition get_title : M string :=
  let* attr := (fun s => (Ret (meta_title s), s)) in
  match attr with
  | None => raise AttributeError
  | Some meta_title =>
      let title :=
        match meta_title with
        | Some t => t
        | None => view_name vw
        end in
      let title :=
        if String.eqb title EmptyString then
          match view_file_name vw with
          | None => "untitled"
          | Some fn =>
              if String.eqb fn EmptyString then "untitled"
              else os_path_splitext h (os_path_basename h fn)
          end
        else title in
      ret ("<title>" ++ cgi_escape h title false ++ "</title>")
  end.

(** [get_highlight], by class: [MarkdownCompiler] overrides [Compiler]. *)
Definition get_highlight (cls : compiler_class) : M string :=
  match cls with
  | MarkdownCompiler =>
      let* style := (fun s => (Ret (pygments_style s), s)) in
      match style with
      | Some css => ret css
      | None => ret EmptyString
      end
  | _ => ret EmptyString
  end.

(** The five parts of the head, in the order both branches of [run] add them. *)
Definition head_parts (cls : compiler_class) : M string :=
  let* meta := get_meta in
  let* st := (fun s => (Ret (settings s), s)) in
  let* css := lift (get_stylesheet h cls st vw) in
  let* js := lift (get_javascript h cls st) in
  let* highlight := get_highlight cls in
  let* title := get_title in
  ret (meta ++ css ++ js ++ highlight ++ title).

(** The second half of [Compiler.run], from the reading of [html_template]
    on: the full HTML around the body, and the body. *)
Definition assemble (cls : compiler_class) (body : pyval) : M (pyval * pyval) :=
  let* html_template := settings_get "html_template" PNone in
  let* html_template :=
    (if truthy html_template then
       let* t := lift (expect_str html_template) in
       ret (PStr (os_path_abspath h (os_path_expanduser h t)))
     else ret html_template) in
  let* simple := settings_get "html_simple" (PBool false) in
  if truthy simple then ret (body, body)
  else
    let* usable :=
      (if truthy html_template then
         let* t := lift (expect_str html_template) in ret (os_path_exists h t)
       else ret false) in
    if usable then
      let* head := head_parts cls in
      let* t := lift (expect_str html_template) in
      let* html := lift (load_utf8 h t) in
      let html := replace1 "{{ HEAD }}" head html in
      let* b := lift (expect_str body) in
      let html := replace1 "{{ BODY }}" b html in
      ret (PStr html, body)
    else
      let html := "<!DOCTYPE html>" in
      let html := html ++ "<html><head><meta charset=" ++ dq ++ "utf-8" ++ dq ++ ">" in
      let html := html ++ "<meta name=" ++ dq ++ "viewport" ++ dq ++ " content=" ++ dq
                  ++ "width=device-width, initial-scale=1" ++ dq ++ ">" in
      let* head := head_parts cls in
      let html := html ++ head in
      let html := html ++ "</head><body>" in
      let html := html ++ "<article class=" ++ dq ++ "markdown-body" ++ dq ++ ">" in
      let* b := lift (expect_str body) in
      let html := html ++ b in
      let html := html ++ "</article>" in
      let html := html ++ "</body>" in
      let html := html ++ "</html>" in
      ret (PStr html, body).

(** [Compiler.run(view, wholefile, preview)]: the full HTML and the body. *)
Definition run (cls : compiler_class) (wholefile : bool) : M (pyval * pyval) :=
  let* _ := set_settings (fun _ => new_settings h (view_file_name vw)) in
  let* contents := get_contents wholefile in
  let* body := convert_markdown cls contents in
  assemble cls body.

End OneView.
End Compilers.

(** ** A sample host

    A small, fully defined host on which the pipeline can be run: its parsers
    know a handful of documents, its postprocessors tag the text they are
    given, and its network, processes and files are given by the caller. *)

(** [cgi.escape(s, quote)] *)
Fixpoint sample_escape (s : string) (quote : bool) : string :=
  match s with
  | EmptyString => EmptyString
  | String c s' =>
      (if Ascii.eqb c "&"%char then "&amp;"
       else if Ascii.eqb c "<"%char then "&lt;"
       else if Ascii.eqb c ">"%char then "&gt;"
       else if Ascii.eqb c DQ && quote then "&quot;"
       else String c EmptyString) ++ sample_escape s' quote
  end.

Definition sample_yaml (s : string) : res pyval :=
  if String.eqb s EmptyString then Ret PNone
  else if String.eqb s ("title: Foo" ++ nl) then Ret (PDict [("title", PStr "Foo")])
  else if String.eqb s ("- item" ++ nl) then Ret (PList [PStr "item"])
  else Raise ValueError.

Definition sample_json (s : string) : res pyval :=
  if String.eqb s "{message: Bad credentials}"
  then Ret (PDict [("message", PStr "Bad credentials")])
  else if String.eqb s "{html: <p>hi</p>}"
  then Ret (PDict [("html", PStr "<p>hi</p>")])
  else Raise ValueError.

Definition sample_host
    (net : request -> res bytes)
    (proc : list string -> list bytes -> res (bytes * Z))
    (files : string -> bool)
    (editor : gmap string pyval)
    (conf : gmap string pyval) : host :=
  {| yaml_load := sample_yaml;
     json_loads := sample_json;
     json_dumps := fun _ => "{}";
     py_repr := fun _ => "<value>";
     cgi_escape := sample_escape;
     uslugify := fun text sep => lower text;
     pathconverter_run := fun cfg s =>
       "[" ++ (if absolute cfg then "absolute" else "relative") ++ ":" ++ tags cfg ++ "]" ++ s;
     b64_run := fun _ s => "[base64]" ++ s;
     striphtml_run := fun s => "[simple]" ++ s;
     critic_run := fun _ lines => lines;
     markdown_convert := fun _ s => Ret ("<p>" ++ s ++ "</p>", PDict []);
     pygments_css := fun _ _ => Ret ".codehilite {}";
     urlopen_read := net;
     popen_communicate := proc;
     os_path_exists := files;
     os_path_abspath := fun p => p;
     os_path_expanduser := fun p => p;
     os_path_dirname := fun p => p;
     os_path_basename := fun p => p;
     os_path_splitext := fun p => p;
     load_utf8 := fun _ => Raise FileNotFoundError;
     get_temp_preview_path := fun _ => "/tmp/1.html";
     sublime_settings := editor;
     sublime_platform := "linux";
     get_stylesheet := fun _ _ _ => Ret "<style></style>";
     get_javascript := fun _ _ => Ret EmptyString;
     new_settings := fun _ => conf;
     apply_frontmatter := fun _ st => st;
     add_meta := fun _ st => st |}.

Definition no_network : request -> res bytes := fun _ => Raise URLError.
Definition no_process : list string -> list bytes -> res (bytes * Z) :=
  fun _ _ => Raise FileNotFoundError.
Definition no_files : string -> bool := fun _ => false.

(** A compiler object before its first call. *)
Definition fresh (conf : gmap string pyval) : compiler :=
  Compiler conf None None [].

(** Settings with the [builtin] overrides every [Settings] object carries. *)
Definition base_conf : gmap string pyval :=
  {[ "builtin" := PDict [("references", PList []); ("basepath", PStr "/doc")] ]}.

(** * Definitions for the properties *)

(** ** What the claims speak of *)

(** [pat in s] *)
Fixpoint contains (pat s : string) : bool :=
  startswith pat s
  || match s with
     | String _ s' => contains pat s'
     | EmptyString => false
     end.

(** The claim's reading of a block that is not front matter: the parse fails,
    or its value is not a mapping, the value [None] included. *)
Definition not_a_mapping (r : res pyval) : Prop :=
  match r with
  | Ret (PDict _) => False
  | _ => True
  end.

(** What the code rejects: a parse that fails, or a value that is neither a
    mapping nor [None]. *)
Definition rejected (r : res pyval) : bool :=
  match r with
  | Ret (PDict _) | Ret PNone => false
  | _ => true
  end.

(** The view [vw] showing [text] instead of its own text. *)
Definition with_text (vw : view) (text : string) : view :=
  View text (view_sel vw) (view_name vw) (view_file_name vw).

(** The value [get_meta] stores for an item whose key is [title]. *)
Definition title_value (h : host) (v : pyval) : string :=
  match v with
  | PList [] => EmptyString
  | PList (x :: _) => py_str h x
  | _ => py_str h v
  end.

(** The explicit title of the meta data: that of the last item whose key is
    [title] in any letter case; [cur] if there is none. *)
Fixpoint explicit_title_from (h : host) (cur : option string)
    (items : list (string * pyval)) : option string :=
  match items with
  | [] => cur
  | (k, v) :: items' =>
      if String.eqb (lower k) "title"
      then explicit_title_from h (Some (title_value h v)) items'
      else explicit_title_from h cur items'
  end.

Definition explicit_title (h : host) (items : list (string * pyval)) : option string :=
  explicit_title_from h None items.

(** Meta data [get_meta] can render: every value that is not a title is
    [None], a text, or a list of texts. *)
Definition is_text (v : pyval) : bool :=
  match v with PStr _ => true | _ => false end.

Definition meta_value_ok (v : pyval) : bool :=
  match v with
  | PNone | PStr _ => true
  | PList l => forallb is_text l
  | _ => false
  end.

Fixpoint meta_ok (items : list (string * pyval)) : bool :=
  match items with
  | [] => true
  | (k, v) :: items' =>
      (String.eqb (lower k) "title" || meta_value_ok v) && meta_ok items'
  end.

(** The name a view falls back on: the stem of its file name, or [untitled]. *)
Definition file_title (h : host) (vw : view) : string :=
  match view_file_name vw with
  | None => "untitled"
  | Some fn =>
      if String.eqb fn EmptyString then "untitled"
      else os_path_splitext h (os_path_basename h fn)
  end.

(** The chain of the claim: the explicit title, otherwise the display name,
    otherwise the file name's stem, otherwise [untitled]. *)
Definition claimed_title (h : host) (vw : view) (explicit : option string) : string :=
  match explicit with
  | Some t => t
  | None =>
      if String.eqb (view_name vw) EmptyString then file_title h vw
      else view_name vw
  end.

(** The chain of the code: an explicit title that is empty falls through to
    the file name, past the display name. *)
Definition resolved_title (h : host) (vw : view) (explicit : option string) : string :=
  match explicit with
  | Some t => if String.eqb t EmptyString then file_title h vw else t
  | None =>
      if String.eqb (view_name vw) EmptyString then file_title h vw
      else view_name vw
  end.

Definition with_meta_title (st : compiler) (t : option string) : compiler :=
  Compiler (settings st) (Some t) (pygments_style st) (console st).

(** A computation that only reads the compiler object. *)
Definition reads_only {A : Type} (m : M A) : Prop :=
  forall st, snd (m st) = st.

(** The stages of a chain, applied first to last. *)
Fixpoint apply_chain (stages : list (pyval -> M pyval)) (html : pyval) : M pyval :=
  match stages with
  | [] => ret html
  | stage :: stages' =>
      let* html' := stage html in
      apply_chain stages' html'
  end.

(** The postprocessors in the order of the specification, each with its
    condition: the hook of the class; the path conversion to absolute paths,
    for the resource classes whose mode is [absolute]; the path conversion to
    relative paths, for those whose mode is [relative]; the base64 embedding;
    the stripping of attributes. *)
Definition postprocess_chain (h : host) (vw : view) (preview : bool)
    (cls : compiler_class) (image_convert file_convert simple : pyval)
    : list (pyval -> M pyval) :=
  ([parser_specific_postprocess h cls]
   ++ (if is_str "absolute" image_convert || is_str "absolute" file_convert
       then [fun html =>
               postprocessor_pathconverter h vw preview html
                 (is_str "absolute" image_convert)
                 (is_str "absolute" file_convert) true]
       else [])
   ++ (if is_str "relative" image_convert || is_str "relative" file_convert
       then [fun html =>
               postprocessor_pathconverter h vw preview html
                 (is_str "relative" image_convert)
                 (is_str "relative" file_convert) false]
       else [])
   ++ (if is_str "base64" image_convert then [postprocessor_base64 h] else [])
   ++ (if truthy simple then [postprocessor_simple h] else []))%list.

(** The compiler object once [run] has built its settings. *)
Definition prepared (h : host) (vw : view) (st : compiler) : compiler :=
  Compiler (new_settings h (view_file_name vw)) (meta_title st) (pygments_style st)
           (console st).

(** The [html_template] setting is unset or a path. *)
Definition template_typed (template : pyval) : bool :=
  match template with
  | PStr _ => true
  | _ => negb (truthy template)
  end.

(** There is no usable custom template: none is configured, or the configured
    file does not exist. *)
Definition template_unusable (h : host) (template : pyval) : bool :=
  match template with
  | PStr t =>
      String.eqb t EmptyString
      || negb (os_path_exists h (os_path_abspath h (os_path_expanduser h t)))
  | _ => negb (truthy template)
  end.

(** The document shell of the specification around a head and a body. *)
Definition default_shell (head body : string) : string :=
  "<!DOCTYPE html><html><head><meta charset=" ++ dq ++ "utf-8" ++ dq ++ ">"
  ++ "<meta name=" ++ dq ++ "viewport" ++ dq ++ " content=" ++ dq
  ++ "width=device-width, initial-scale=1" ++ dq ++ ">"
  ++ head
  ++ "</head><body><article class=" ++ dq ++ "markdown-body" ++ dq ++ ">"
  ++ body
  ++ "</article></body></html>".

Definition with_console (st : compiler) (evs : list event) : compiler :=
  Compiler (settings st) (meta_title st) (pygments_style st) (console st ++ evs).

(** No [subprocess.Popen] among the events. *)
Definition no_popen (evs : list event) : bool :=
  forallb (fun ev => match ev with Popen _ _ => false | _ => true end) evs.

(** Header ids: the slug of a heading, and what [re.sub] has done after a
    part of the tokens. *)

Section HeaderIdDefinitions.

Variable h : host.

Definition slug_of (m : rmatch) : string := uslugify h (group "text" m) "-".

(** The headings among [ts] whose slug is [slug]. *)
Fixpoint slug_count (slug : string) (ts : list token) : nat :=
  match ts with
  | [] => O
  | TChar _ :: ts' => slug_count slug ts'
  | TMatch m :: ts' =>
      if String.eqb (slug_of m) slug then S (slug_count slug ts')
      else slug_count slug ts'
  end.

(** The heading [m] with the attribute [id] in its opening tag. *)
Definition with_id (m : rmatch) (id : string) : string :=
  drop_last (group "open" m) ++ (" id=" ++ dq ++ id ++ dq ++ ">")
  ++ group "text" m ++ group "close" m.

(** The dict and the text [re.sub] is left with after the tokens [ts]. *)
Definition unique_after (unique : gmap string Z) (ts : list token) : gmap string Z :=
  fst (sub_tokens (inject_id h) unique ts).

Definition rendered (unique : gmap string Z) (ts : list token) : string :=
  snd (sub_tokens (inject_id h) unique ts).

(** The counter of [slug] in the dict: how many headings had it so far. *)
Definition seen (unique : gmap string Z) (slug : string) : Z :=
  match unique !! slug with
  | Some value => value
  | None => 0
  end.

End HeaderIdDefinitions.

(** ** Sample inputs *)

Definition sample_list_block : string :=
  "---" ++ nl ++ "- item" ++ nl ++ "---" ++ nl ++ "# Body".

Definition sample_empty_block : string :=
  "---" ++ nl ++ "---" ++ nl ++ "body".

Definition sample_blank_selection : view :=
  View "  # Doc" [(0, 2)%nat] "Draft" None.

Definition sample_selection : view :=
  View "intro # Doc" [(6, 11)%nat; (0, 2)%nat] "Draft" None.

Definition sample_titled : compiler :=
  fresh (<["meta" := PDict [("author", PList [PStr "A"; PStr "B"]);
                            ("Title", PList [PStr "Notes <1>"])]]> base_conf).

Definition sample_empty_title : compiler :=
  fresh (<["meta" := PDict [("title", PList [])]]> base_conf).

Definition sample_headings : string :=
  "<h1>Intro</h1><p>x</p><h2>Intro</h2>".

Definition sample_heading_1 : rmatch :=
  RMatch "<h1>Intro</h1>"
         [("close", "</h1>"); ("text", "Intro"); ("open", "<h1>"); ("2", "1")]
         "<p>x</p><h2>Intro</h2>".

Definition sample_heading_2 : rmatch :=
  RMatch "<h2>Intro</h2>"
         [("close", "</h2>"); ("text", "Intro"); ("open", "<h2>"); ("2", "2")]
         EmptyString.

Definition sample_modes : gmap string pyval :=
  <["image_path_conversion" := PStr "base64"]>
    (<["file_path_conversions" := PStr "relative"]>
       (<["html_simple" := PBool true]> base_conf)).

Definition sample_simple_conf : gmap string pyval :=
  <["html_simple" := PBool true]> base_conf.

Definition sample_anchor : string :=
  "<h1><a id=" ++ dq ++ "user-content-intro" ++ dq ++ "></a>Intro</h1>".

Definition sample_dark : gmap string pyval :=
  <["gitlab_highlight_theme" := PStr "dark"]> base_conf.

(** Three hosts on which a conversion by the GitHub API fails. *)
Definition curl_exits_7 : list string -> list bytes -> res (bytes * Z) :=
  fun _ _ => Ret (Utf8 EmptyString, 7).

Definition curl_raises : list string -> list bytes -> res (bytes * Z) :=
  fun _ _ => Raise CalledProcessError.

Definition undecodable_response : request -> res bytes :=
  fun _ => Ret NotUtf8.

Definition sample_binary_map : gmap string pyval :=
  {[ "markdown_binary_map" :=
       PDict [("pandoc", PList [PStr "/usr/bin/pandoc"; PStr "--mathjax"])] ]}.

(** ** More of the plugin *)

(** [''.join(l)] *)
Fixpoint str_concat (l : list string) : string :=
  match l with
  | [] => EmptyString
  | x :: l' => x ++ str_concat l'
  end.

(** What a process has read once every write in [writes] has arrived. *)
Fixpoint bytes_concat (writes : list bytes) : bytes :=
  match writes with
  | [] => Utf8 EmptyString
  | w :: writes' =>
      match w, bytes_concat writes' with
      | Utf8 a, Utf8 b => Utf8 (a ++ b)
      | _, _ => NotUtf8
      end
  end.

(** The reference [ref] is a file that exists and reads as [text], or it is
    [None] and [text] is empty. *)
Definition readable (h : host) (ref : pyval) (text : string) : Prop :=
  (ref = PNone /\ text = EmptyString)
  \/ exists f, ref = PStr f /\ os_path_exists h f = true /\ load_utf8 h f = Ret text.

(** A renderer that wraps what it reads in a paragraph, whatever the chunks
    it is written in, and the one executable of the sample binary map. *)
Definition sample_renderer : list string -> list bytes -> res (bytes * Z) :=
  fun _ writes =>
    match bytes_concat writes with
    | Utf8 s => Ret (Utf8 ("<p>" ++ s ++ "</p>"), 0)
    | NotUtf8 => Raise ValueError
    end.

Definition sample_files : string -> bool :=
  fun p => String.eqb p "/usr/bin/pandoc".

(** The value of the authentication header for a token. *)
Definition auth_value (api : online) (tok : string) : string :=
  match api with
  | Github => "token " ++ tok
  | Gitlab => " " ++ tok
  end.

(** The headers of a request, for a token setting that is unset or a text. *)
Definition sent_headers (api : online) (token : pyval) : list (string * string) :=
  match token with
  | PStr (String c tok) =>
      [("Content-Type", "application/json");
       (authentication_api_key api, auth_value api (String c tok))]
  | _ => [("Content-Type", "application/json")]
  end.

(** The request body: the JSON text of the packed data. *)
Definition sent_data (h : host) (api : online) (markdown_text : string)
    (st : compiler) : string :=
  json_dumps h
    (pack_data api markdown_text
       (sget (settings st) (compiler_name (OnlineCompiler api) ++ "_mode") (PStr "gfm"))).

(** The command line of the [curl] fallback for a token setting that is unset
    or a text. *)
Definition curl_command (api : online) (token : pyval) (json : string) : list string :=
  match token with
  | PStr (String c tok) =>
      ["curl"; "-H";
       match api with
       | Github => "Authorization: token " ++ String c tok
       | Gitlab => "Private-Token: " ++ String c tok
       end;
       "-H"; "Content-Type: application/json"; "-d"; json; url api]
  | _ => ["curl"; "-H"; "Content-Type: application/json"; "-d"; json; url api]
  end.

(** The token setting is unset or a text. *)
Definition token_typed (token : pyval) : bool :=
  match token with
  | PNone | PStr _ => true
  | _ => false
  end.

(** The introduction of the report of an HTTP error, by status code. *)
Definition http_error_intro (api : online) (code : Z) : string :=
  if code =? 401 then auth_failed_message api
  else if code =? 403 then rate_limit_message api
  else unfriendly_message api.

(** The server's answer as the report quotes it. *)
Definition quoted_response (h : host) (api : online) (code : Z) (msg : pyval) : string :=
  compiler_name (OnlineCompiler api) ++ "'s original response: (HTTP Status Code "
  ++ fmt_d code ++ ") " ++ dq ++ py_str h msg ++ dq.

Definition sample_token_conf : gmap string pyval :=
  <["gitlab_personal_token" := PStr "s3cr3t"]> base_conf.

Definition sample_gitlab_net : request -> res bytes :=
  fun req =>
    match req_headers req with
    | [_; (_, " s3cr3t")] => Ret (Utf8 "{html: <p>hi</p>}")
    | _ => Raise (HTTPError 401 (Utf8 "{message: Bad credentials}"))
    end.

Definition sample_curl : list string -> list bytes -> res (bytes * Z) :=
  fun args _ =>
    match args with
    | ["curl"; "-H"; "Private-Token: s3cr3t"; "-H"; _; "-d"; _; _] =>
        Ret (Utf8 "{html: <p>hi</p>}", 22)
    | _ => Raise FileNotFoundError
    end.

(** The texts of a list of values, those that are texts. *)
Fixpoint texts_of (l : list pyval) : list string :=
  match l with
  | [] => []
  | PStr s :: l' => s :: texts_of l'
  | _ :: l' => texts_of l'
  end.

(** The [meta] elements of the head, item by item: none for a title and none
    for the value [None]; a list is joined with commas. *)
Fixpoint meta_tags (h : host) (items : list (string * pyval)) : list string :=
  match items with
  | [] => []
  | (k, v) :: items' =>
      let tag content :=
        "<meta name=" ++ dq ++ cgi_escape h k true ++ dq
        ++ " content=" ++ dq ++ cgi_escape h content true ++ dq ++ ">" in
      if String.eqb (lower k) "title" then meta_tags h items'
      else
        match v with
        | PStr s => tag s :: meta_tags h items'
        | PList l => tag (join "," (texts_of l)) :: meta_tags h items'
        | _ => meta_tags h items'
        end
  end.

(** The text [get_contents] starts from. *)
Definition source_text (vw : view) (wholefile : bool) : string :=
  if wholefile then view_text vw
  else
    match view_sel vw with
    | first :: _ =>
        if has_nonspace (substr vw first) then substr vw first else view_text vw
    | [] => view_text vw
    end.

Definition sample_reference_files : string -> bool :=
  fun p => String.eqb p "/doc/links.md".

Definition sample_reference_host : host :=
  {| yaml_load := sample_yaml;
     json_loads := sample_json;
     json_dumps := fun _ => "{}";
     py_repr := fun _ => "<value>";
     cgi_escape := sample_escape;
     uslugify := fun text sep => lower text;
     pathconverter_run := fun cfg s => s;
     b64_run := fun _ s => s;
     striphtml_run := fun s => s;
     critic_run := fun _ lines => lines;
     markdown_convert := fun _ s => Ret ("<p>" ++ s ++ "</p>", PDict []);
     pygments_css := fun _ _ => Ret ".codehilite {}";
     urlopen_read := no_network;
     popen_communicate := no_process;
     os_path_exists := sample_reference_files;
     os_path_abspath := fun p => p;
     os_path_expanduser := fun p => p;
     os_path_dirname := fun p => p;
     os_path_basename := fun p => p;
     os_path_splitext := fun p => p;
     load_utf8 := fun _ => Ret ("[1]: http://example.org" ++ nl);
     get_temp_preview_path := fun _ => "/tmp/1.html";
     sublime_settings := ∅;
     sublime_platform := "linux";
     get_stylesheet := fun _ _ _ => Ret "<style></style>";
     get_javascript := fun _ _ => Ret EmptyString;
     new_settings := fun _ => ∅;
     apply_frontmatter := fun _ st => st;
     add_meta := fun _ st => st |}.

Definition sample_reference_conf (refs : list pyval) : gmap string pyval :=
  <["strip_critic_marks" := PStr "none"]>
    {[ "builtin" := PDict [("references", PList refs)] ]}.

(** The text a list of tokens stands for: every match as it was matched. *)
Fixpoint flatten (ts : list token) : string :=
  match ts with
  | [] => EmptyString
  | TChar c :: ts' => String c (flatten ts')
  | TMatch m :: ts' => whole m ++ flatten ts'
  end.

(** The id of a heading with slug [slug] that comes after [n] headings with
    the same slug. *)
Definition numbered_id (slug : string) (n : nat) : string :=
  match n with
  | O => slug
  | S _ => slug ++ "-" ++ fmt_d (Z.of_nat n)
  end.

(** Every heading among the tokens has an empty slug. *)
Fixpoint all_slugs_empty (h : host) (ts : list token) : bool :=
  match ts with
  | [] => true
  | TChar _ :: ts' => all_slugs_empty h ts'
  | TMatch m :: ts' =>
      String.eqb (slug_of h m) EmptyString && all_slugs_empty h ts'
  end.

Definition sample_meta : compiler :=
  fresh (<["meta" := PDict [("author", PList [PStr "A"; PStr "B"]);
                            ("Title", PStr "Notes");
                            ("draft", PNone);
                            ("keywords", PStr "a<b")]]> base_conf).

Definition sample_three_headings : string :=
  "<h1>Intro</h1><h2>Intro</h2><h3>Intro</h3>".

Definition sample_heading_3 : rmatch :=
  RMatch "<h3>Intro</h3>"
         [("close", "</h3>"); ("text", "Intro"); ("open", "<h3>"); ("2", "3")]
         EmptyString.

(** An occurrence of [old] starts inside [a], in the text [a ++ rest]. *)
Fixpoint occurs_before (old a rest : string) : bool :=
  match a with
  | EmptyString => false
  | String c a' => startswith old (a ++ rest) || occurs_before old a' rest
  end.

(** The template setting names a file: a text, not empty, whose absolute path
    is not empty either. *)
Definition template_path (h : host) (template : pyval) : option string :=
  match template with
  | PStr (String c t) =>
      match os_path_abspath h (os_path_expanduser h (String c t)) with
      | EmptyString => None
      | p => Some p
      end
  | _ => None
  end.

Definition sample_template : string :=
  "<html><head>{{ HEAD }}</head><body class='{{x}}'>{{ BODY }}</body></html>".

Definition sample_template_host : host :=
  {| yaml_load := sample_yaml;
     json_loads := sample_json;
     json_dumps := fun _ => "{}";
     py_repr := fun _ => "<value>";
     cgi_escape := sample_escape;
     uslugify := fun text sep => lower text;
     pathconverter_run := fun cfg s => "[absolute]" ++ s;
     b64_run := fun _ s => s;
     striphtml_run := fun s => s;
     critic_run := fun _ lines => lines;
     markdown_convert := fun _ s => Ret ("<p>" ++ s ++ "</p>", PDict []);
     pygments_css := fun _ _ => Ret ".c {}";
     urlopen_read := no_network;
     popen_communicate := no_process;
     os_path_exists := fun p => String.eqb p "/doc/page.html";
     os_path_abspath := fun p => "/doc/" ++ p;
     os_path_expanduser := fun p => p;
     os_path_dirname := fun p => p;
     os_path_basename := fun p => p;
     os_path_splitext := fun p => p;
     load_utf8 := fun _ => Ret sample_template;
     get_temp_preview_path := fun _ => "/tmp/1.html";
     sublime_settings := ∅;
     sublime_platform := "linux";
     get_stylesheet := fun _ _ _ => Ret EmptyString;
     get_javascript := fun _ _ => Ret EmptyString;
     new_settings := fun _ => <["html_template" := PStr "page.html"]> base_conf;
     apply_frontmatter := fun _ st => st;
     add_meta := fun _ st => st |}.

(** ** The commands *)

(** [x in container] for a text [x]: an element of a list, a key of a dict, a
    part of a text. *)
Definition py_in_str (x : string) (container : pyval) : res bool :=
  match container with
  | PList l => Ret (existsb (is_str x) l)
  | PDict d => Ret (existsb (fun kv => String.eqb (fst kv) x) d)
  | PStr s => Ret (contains x s)
  | _ => Raise TypeError
  end.

(** The default of the [enabled_parsers] setting. *)
Definition default_enabled_parsers : pyval :=
  PList [PStr "markdown"; PStr "github"; PStr "gitlab"].

(** The compiler [MarkdownPreviewCommand.run] and [MarkdownBuildCommand.run]
    construct for a parser name. *)
Definition command_compiler (h : host) (parser : string) : res compiler_class :=
  if String.eqb parser (compiler_name (OnlineCompiler Github))
  then Ret (OnlineCompiler Github)
  else if String.eqb parser (compiler_name (OnlineCompiler Gitlab))
  then Ret (OnlineCompiler Gitlab)
  else if String.eqb parser "markdown" then Ret MarkdownCompiler
  else
    match py_in_str parser
            (sget (sublime_settings h) "enabled_parsers" default_enabled_parsers) with
    | Ret true => Ret (ExternalMarkdownCompiler parser)
    | Ret false => Ret MarkdownCompiler
    | Raise e => Raise e
    end.

(** The default of the [include_head] setting. *)
Definition default_include_head : pyval :=
  PList [PStr "build"; PStr "browser"; PStr "sublime"; PStr "clipboard"; PStr "save"].

(** What [MarkdownPreviewCommand.run] hands to the target: the full HTML or
    the body. *)
Definition command_content (h : host) (target : string) (html body : pyval)
    : res pyval :=
  let temp_target := if String.eqb target "disk" then "browser" else target in
  match py_in_str temp_target
          (sget (sublime_settings h) "include_head" default_include_head) with
  | Ret true => Ret html
  | Ret false => Ret body
  | Raise e => Raise e
  end.

(** The names of the three compilers that are not external. *)
Definition builtin_parser (parser : string) : bool :=
  String.eqb parser "github" || String.eqb parser "gitlab"
  || String.eqb parser "markdown".

Definition sample_enabled : gmap string pyval :=
  <["enabled_parsers" := PList [PStr "markdown"; PStr "multimarkdown"]]>
    (<["include_head" := PList [PStr "disk"; PStr "save"]]> sample_binary_map).

(** The compiler object with its settings replaced. *)
Definition with_settings (st : compiler) (conf : gmap string pyval) : compiler :=
  Compiler conf (meta_title st) (pygments_style st) (console st).

(** A host whose front matter can name reference files. *)
Definition sample_overlay_host : host :=
  {| yaml_load := sample_yaml;
     json_loads := sample_json;
     json_dumps := fun _ => "{}";
     py_repr := fun _ => "<value>";
     cgi_escape := sample_escape;
     uslugify := fun text sep => lower text;
     pathconverter_run := fun cfg s => s;
     b64_run := fun _ s => s;
     striphtml_run := fun s => s;
     critic_run := fun _ lines => lines;
     markdown_convert := fun _ s => Ret ("<p>" ++ s ++ "</p>", PDict []);
     pygments_css := fun _ _ => Ret ".c {}";
     urlopen_read := no_network;
     popen_communicate := no_process;
     os_path_exists := sample_reference_files;
     os_path_abspath := fun p => p;
     os_path_expanduser := fun p => p;
     os_path_dirname := fun p => p;
     os_path_basename := fun p => p;
     os_path_splitext := fun p => p;
     load_utf8 := fun _ => Ret ("[1]: http://example.org" ++ nl);
     get_temp_preview_path := fun _ => "/tmp/1.html";
     sublime_settings := ∅;
     sublime_platform := "linux";
     get_stylesheet := fun _ _ _ => Ret EmptyString;
     get_javascript := fun _ _ => Ret EmptyString;
     new_settings := fun _ => ∅;
     apply_frontmatter := fun fm st =>
       match fm with
       | [] => st
       | _ => <["builtin" := PDict [("references", PList [PStr "/doc/links.md"])]]> st
       end;
     add_meta := fun _ st => st |}.

Definition sample_overlay_conf : gmap string pyval :=
  <["strip_yaml_front_matter" := PBool true]>
    (<["strip_critic_marks" := PStr "none"]>
       {[ "builtin" := PDict [("references", PList [])] ]}).

Definition sample_front_matter_view : view :=
  View ("---" ++ nl ++ "title: Foo" ++ nl ++ "---" ++ nl ++ "# Body" ++ nl)
       [(0, 0)%nat] EmptyString None.

(** ** The extensions of Python Markdown *)

(** [s.replace(old, new)] for an [old] that is not empty: every occurrence,
    from the left, without overlap; [skip] characters of the occurrence just
    replaced are still to be passed. *)
Fixpoint replace_from (old new s : string) (skip : nat) : string :=
  match s with
  | EmptyString => EmptyString
  | String c s' =>
      match skip with
      | S n => replace_from old new s' n
      | O =>
          if startswith old s
          then new ++ replace_from old new s' (String.length old - 1)
          else String c (replace_from old new s' 0)
      end
  end.

Definition replace_all (old new s : string) : string := replace_from old new s 0.

Definition BASE_PATH : string := "${BASE_PATH}".

(** [v.replace(BASE_PATH, base_path)], where [base_path] is whatever the
    settings hold. *)
Definition replace_base_path (base_path : pyval) (v : string) : res pyval :=
  match base_path with
  | PStr b => Ret (PStr (replace_all BASE_PATH b v))
  | _ => Raise TypeError
  end.

(** The loop over [config.items()] of [process_extensions]: a value that is a
    text is replaced in the config, any other value is kept. *)
Fixpoint fill_base_path (base_path : pyval) (items : list (string * pyval))
    : res (list (string * pyval)) :=
  match items with
  | [] => Ret []
  | (k, v) :: rest =>
      match (match v with
             | PStr s => replace_base_path base_path s
             | _ => Ret v
             end) with
      | Raise e => Raise e
      | Ret v' =>
          match fill_base_path base_path rest with
          | Raise e => Raise e
          | Ret rest' => Ret ((k, v') :: rest')
          end
      end
  end.

(** The loop over the extensions of [process_extensions], with the list of
    names and the table of configs built so far. *)
Fixpoint extensions_loop (base_path : pyval) (extensions : list pyval)
    (names : list string) (table : gmap string pyval)
    : res (list string * gmap string pyval) :=
  match extensions with
  | [] => Ret (names, table)
  | e :: rest =>
      match e with
      | PStr ext =>
          extensions_loop base_path rest (names ++ [ext])%list
            (<[ext := PDict []]> table)
      | PDict [] => Raise IndexError
      | PDict ((ext, value) :: _) =>
          match (match value with PNone => PDict [] | _ => value end) with
          | PDict items =>
              match fill_base_path base_path items with
              | Raise x => Raise x
              | Ret items' =>
                  extensions_loop base_path rest (names ++ [ext])%list
                    (<[ext := PDict items']> table)
              end
          | _ => Raise AttributeError
          end
      | _ => extensions_loop base_path rest names table
      end
  end.

(** [MarkdownCompiler.process_extensions]; the style sheet of [set_highlight]
    is [pygments_css], as in [parser_specific_convert]. *)
Definition process_extensions (h : host) (extensions : pyval)
    : M (list string * gmap string pyval) :=
  let* _ := set_pygments_style None in
  let* style := settings_get "pygments_style" (PStr "github") in
  let* inject := settings_get "pygments_inject_css" (PBool true) in
  let* _ :=
    (if truthy inject && truthy style then
       let* css_class := settings_get "pygments_css_class" (PStr "codehilite") in
       let* css := lift (pygments_css h style css_class) in
       set_pygments_style (Some ("<style>" ++ css ++ "</style>"))
     else ret tt) in
  let* builtin := settings_get "builtin" PNone in
  let* base_path := lift (dict_get builtin "basepath" PNone) in
  let base_path := match base_path with PNone => PStr EmptyString | _ => base_path end in
  let* extensions := lift (py_iter extensions) in
  lift (extensions_loop base_path extensions [] ∅).

(** [MarkdownCompiler.get_config_extensions] *)
Definition get_config_extensions (h : host)
    : M (list string * gmap string pyval) :=
  let* ext_config := settings_get "markdown_extensions" PNone in
  process_extensions h ext_config.

(** An entry of the extension list that names an extension, and its name. *)
Definition entry_name (e : pyval) : option string :=
  match e with
  | PStr ext => Some ext
  | PDict ((ext, _) :: _) => Some ext
  | _ => None
  end.

Definition entry_names (extensions : list pyval) : list string :=
  omap entry_name extensions.

(** An entry that is a text or a dict. *)
Definition extension_entry (e : pyval) : bool :=
  match e with
  | PStr _ | PDict _ => true
  | _ => false
  end.

Definition sample_snippets : list (string * pyval) :=
  [("base_path", PStr ("inc:" ++ "${BASE_PATH}" ++ "/inc:" ++ "${BASE_PATH}"));
   ("check_paths", PBool true);
   ("encoding", PStr "utf-8")].

Definition sample_extensions : list pyval :=
  [PStr "markdown.extensions.toc"; PInt 3;
   PDict [("pymdownx.snippets", PDict sample_snippets)];
   PNone;
   PDict [("markdown.extensions.toc", PNone)]].

Definition sample_basepath_conf : gmap string pyval :=
  {[ "builtin" := PDict [("basepath", PStr "/doc")] ]}.

(** ** Style sheets and scripts *)

(** What loading style sheets and scripts asks of the editor and of the file
    system, besides the host: [sublime.packages_path], [sublime.load_resource]
    and more of [os.path]. *)
Record packages : Type := Packages {
  packages_path : string;
  os_path_join : string -> string -> string;
  os_path_normpath : string -> string;
  os_path_isfile : string -> bool;
  os_path_isabs : string -> bool;
  sublime_load_resource : string -> res string
}.

(** The class attributes [default_css] and [default_js]. *)
Definition default_css (cls : compiler_class) : list string :=
  match cls with
  | OnlineCompiler Github => ["res://GyMarkdownPreview/css/github.css"]
  | OnlineCompiler Gitlab =>
      ["res://GyMarkdownPreview/css/gitlab.css";
       "https://cdn.jsdelivr.net/npm/katex@0.10.0-alpha/dist/katex.min.css"]
  | ExternalMarkdownCompiler _ => ["res://GyMarkdownPreview/css/markdown.css"]
  | MarkdownCompiler => ["res://GyMarkdownPreview/css/markdown.css"]
  end.

Definition default_js (cls : compiler_class) : list string :=
  match cls with
  | OnlineCompiler Gitlab =>
      ["https://cdn.jsdelivr.net/npm/katex@0.10.0-alpha/dist/katex.min.js";
       "https://unpkg.com/mermaid@8.0.0-rc.8/dist/mermaid.min.js";
       "res://GyMarkdownPreview/js/gitlab_config.js"]
  | _ => []
  end.

(** [Compiler.isurl] *)
Definition isurl (css_name : string) : bool :=
  startswith "http://" css_name || startswith "https://" css_name.

(** [files[i:i + 1] = defaults], where [i] is the index of the first
    [default]. *)
Fixpoint splice_default (defaults : list string) (files : list pyval) : list pyval :=
  match files with
  | [] => []
  | f :: rest =>
      if is_str "default" f then (map PStr defaults ++ rest)%list
      else f :: splice_default defaults rest
  end.

(** The first lines of [get_default_css] and of [get_javascript], which differ
    in the setting read, in the word [kind] of the warnings and in the
    defaults: the deprecated formats, the entry of the compiler and the place
    of [default]. *)
Definition named_files (kind : string) (cls : compiler_class)
    (defaults : list string) (files : pyval) : M pyval :=
  let* _ :=
    (match files with
     | PList _ =>
         log ("Warning: The list format for " ++ kind
              ++ " is deprecated, please use the dictionary format." ++ nl
              ++ "List support will be removed in the future.")
     | _ => ret tt
     end) in
  let* files :=
    (match files with
     | PStr _ =>
         let* _ :=
           log ("Warning: The string format for " ++ kind
                ++ " is deprecated, please use the dictionary format." ++ nl
                ++ "String support will be removed in the future.") in
         ret (PList [files])
     | _ => ret files
     end) in
  let* files :=
    (match files with
     | PDict _ => lift (dict_get files (compiler_name cls) (PList [PStr "default"]))
     | _ => ret files
     end) in
  let* has_default := lift (py_in_str "default" files) in
  if has_default then
    match files with
    | PList l => ret (PList (splice_default defaults l))
    | PStr _ => raise TypeError
    | _ => raise AttributeError
    end
  else ret files.

Section Loading.

Variable h : host.
Variable pk : packages.

(** The contents of a [res://] file: the file of the packages folder when it
    exists, the packed resource otherwise. *)
Definition load_internal (name : string) : res string :=
  let internal_file :=
    os_path_join pk (packages_path pk) (os_path_normpath pk (drop_str 6 name)) in
  if os_path_exists h internal_file then load_utf8 h internal_file
  else sublime_load_resource pk ("Packages/" ++ drop_str 6 name).

(** The element of one name of [get_default_css], if it gives one. *)
Definition css_element (css_name : string) : res (option string) :=
  if startswith "res://" css_name then
    match load_internal css_name with
    | Ret text => Ret (Some ("<style>" ++ text ++ "</style>"))
    | Raise e => Raise e
    end
  else if isurl css_name then
    Ret (Some ("<link href='" ++ css_name ++ "' rel='stylesheet' type='text/css'>"))
  else if os_path_isfile pk (os_path_expanduser h css_name) then
    match load_utf8 h (os_path_expanduser h css_name) with
    | Ret text => Ret (Some ("<style>" ++ text ++ "</style>"))
    | Raise e => Raise e
    end
  else Ret None.

Fixpoint css_loop (css_files : list pyval) (css_text : list string)
    : res (list string) :=
  match css_files with
  | [] => Ret css_text
  | PStr css_name :: rest =>
      match css_element css_name with
      | Ret (Some element) => css_loop rest (css_text ++ [element])%list
      | Ret None => css_loop rest css_text
      | Raise e => Raise e
      end
  | _ :: _ => Raise AttributeError
  end.

(** [Compiler.get_default_css] *)
Definition get_default_css (cls : compiler_class) : M string :=
  let* css_files := settings_get "css" (PDict []) in
  let* css_files := named_files "CSS" cls (default_css cls) css_files in
  let* css_files := lift (py_iter css_files) in
  let* css_text := lift (css_loop css_files []) in
  ret (join nl css_text).

(** [s.endswith(suffix)] *)
Definition endswith (suffix s : string) : bool :=
  (String.length suffix <=? String.length s)%nat
  && String.eqb (drop_str (String.length s - String.length suffix) s) suffix.

(** The text before the last occurrence of [sep] in [s], if there is one. *)
Fixpoint before_last (sep s : string) : option string :=
  match s with
  | EmptyString => if startswith sep s then Some EmptyString else None
  | String c s' =>
      match before_last sep s' with
      | Some before => Some (String c before)
      | None => if startswith sep s then Some EmptyString else None
      end
  end.

(** [s.rpartition(sep)[0]]: empty when [sep] does not occur; an empty [sep]
    is a [ValueError]. *)
Definition rpartition_0 (sep s : string) : res string :=
  if String.eqb sep EmptyString then Raise ValueError
  else match before_last sep s with
       | Some before => Ret before
       | None => Ret EmptyString
       end.

(** The loop of [get_override_css] over the file types; [None] when it ends
    without a [return]. *)
Fixpoint override_loop (filename : string) (filetypes : list pyval)
    : res (option string) :=
  match filetypes with
  | [] => Ret None
  | PStr filetype :: rest =>
      if endswith filetype filename then
        match rpartition_0 filetype filename with
        | Raise e => Raise e
        | Ret stem =>
            let css_filename := stem ++ ".css" in
            if os_path_isfile pk css_filename then
              match load_utf8 h css_filename with
              | Ret text => Ret (Some ("<style>" ++ text ++ "</style>"))
              | Raise e => Raise e
              end
            else override_loop filename rest
        end
      else override_loop filename rest
  | _ :: _ => Raise TypeError
  end.

(** [Compiler.get_override_css] *)
Definition get_override_css (vw : view) : M string :=
  let* allow := settings_get "allow_css_overrides" PNone in
  if truthy allow then
    let filename := view_file_name vw in
    let* filetypes := settings_get "markdown_filetypes" PNone in
    match filename with
    | Some name =>
        if negb (String.eqb name EmptyString) && truthy filetypes then
          let* filetypes := lift (py_iter filetypes) in
          let* found := lift (override_loop name filetypes) in
          match found with
          | Some css => ret css
          | None => ret EmptyString
          end
        else ret EmptyString
    | None => ret EmptyString
    end
  else ret EmptyString.

(** [Compiler.get_stylesheet] *)
Definition Compiler_get_stylesheet (cls : compiler_class) (vw : view) : M string :=
  let* default := get_default_css cls in
  let* override := get_override_css vw in
  ret (default ++ override).

(** The element of one name of [get_javascript]. *)
Definition js_element (js_file : string) : res string :=
  if startswith "res://" js_file then
    match load_internal js_file with
    | Ret text => Ret ("<script>" ++ text ++ "</script>")
    | Raise e => Raise e
    end
  else if os_path_isabs pk js_file then
    match load_utf8 h js_file with
    | Ret text => Ret ("<script>" ++ text ++ "</script>")
    | Raise e => Raise e
    end
  else Ret ("<script type='text/javascript' src='" ++ js_file ++ "'></script>").

Fixpoint js_loop (js_files : list pyval) (scripts : string) : res string :=
  match js_files with
  | [] => Ret scripts
  | PStr js_file :: rest =>
      match js_element js_file with
      | Ret element => js_loop rest (scripts ++ element)
      | Raise e => Raise e
      end
  | _ :: _ => Raise AttributeError
  end.

(** [Compiler.get_javascript]; the test [js_files is not None] is passed by
    every value that comes so far. *)
Definition Compiler_get_javascript (cls : compiler_class) : M string :=
  let* js_files := settings_get "js" (PDict []) in
  let* js_files := named_files "JS" cls (default_js cls) js_files in
  let js_files := match js_files with PStr _ => PList [js_files] | _ => js_files end in
  match js_files with
  | PList l => lift (js_loop l EmptyString)
  | _ => ret EmptyString
  end.

End Loading.

(** A packages folder without files, whose resources are the packed ones. *)
Definition sample_packages (isfile : string -> bool) : packages :=
  {| packages_path := "/packages";
     os_path_join := fun a b => a ++ "/" ++ b;
     os_path_normpath := fun p => p;
     os_path_isfile := isfile;
     os_path_isabs := startswith "/";
     sublime_load_resource := fun name => Ret ("/* " ++ name ++ " */") |}.

Definition sample_css_conf : gmap string pyval :=
  {[ "css" := PDict [("markdown",
                      PList [PStr "https://example.org/a.css"; PStr "default";
                             PStr "default"])];
     "js" := PDict [("markdown", PStr "site.js")] ]}.

Definition sample_text_css_conf : gmap string pyval :=
  {[ "css" := PDict [("markdown", PStr "my.css")];
     "js" := PDict [("markdown", PStr "my.js")] ]}.

Definition sample_override_conf : gmap string pyval :=
  {[ "allow_css_overrides" := PBool true;
     "markdown_filetypes" := PList [PStr ".markdown"; PStr ".md"; PStr ".txt"] ]}.

Definition sample_override_host : host :=
  {| yaml_load := sample_yaml;
     json_loads := sample_json;
     json_dumps := fun _ => "{}";
     py_repr := fun _ => "<value>";
     cgi_escape := sample_escape;
     uslugify := fun text sep => lower text;
     pathconverter_run := fun cfg s => s;
     b64_run := fun _ s => s;
     striphtml_run := fun s => s;
     critic_run := fun _ lines => lines;
     markdown_convert := fun _ s => Ret ("<p>" ++ s ++ "</p>", PDict []);
     pygments_css := fun _ _ => Ret ".c {}";
     urlopen_read := no_network;
     popen_communicate := no_process;
     os_path_exists := no_files;
     os_path_abspath := fun p => p;
     os_path_expanduser := fun p => p;
     os_path_dirname := fun p => p;
     os_path_basename := fun p => p;
     os_path_splitext := fun p => p;
     load_utf8 := fun p => Ret ("/* " ++ p ++ " */");
     get_temp_preview_path := fun _ => "/tmp/1.html";
     sublime_settings := ∅;
     sublime_platform := "linux";
     get_stylesheet := fun _ _ _ => Ret EmptyString;
     get_javascript := fun _ _ => Ret EmptyString;
     new_settings := fun _ => ∅;
     apply_frontmatter := fun _ st => st;
     add_meta := fun _ st => st |}.

Definition sample_saved_view : view :=
  View "# Doc" [(0, 0)%nat] EmptyString (Some "/doc/notes.md.md").

(** * Properties *)

(** ** Strings *)

Lemma append_cons (c : ascii) (a b : string) : String c a ++ b = String c (a ++ b).
Proof. reflexivity. Qed.

Lemma append_assoc (a b c : string) : (a ++ b) ++ c = a ++ (b ++ c).
Proof.
  induction a as [|x a IH]; [reflexivity |].
  rewrite !append_cons. now rewrite IH.
Qed.

Lemma length_append (a b : string) :
  String.length (a ++ b) = (String.length a + String.length b)%nat.
Proof.
  induction a as [|x a IH]; [reflexivity |].
  rewrite append_cons. simpl. now rewrite IH.
Qed.

Lemma take_str_all (s : string) : take_str (String.length s) s = s.
Proof. induction s as [|c s IH]; simpl; [reflexivity | now rewrite IH]. Qed.

Lemma substr_whole (vw : view) : substr vw (O, view_size vw) = view_text vw.
Proof.
  unfold substr, view_size. simpl.
  rewrite Nat.sub_0_r. apply take_str_all.
Qed.

(** ** Front matter *)

(** C3.  A text that does not start with three dashes has no front matter:
    [preprocessor_yaml_frontmatter] returns the empty mapping and the text
    itself. *)
Theorem frontmatter_identity_without_fence (h : host) (text : string) :
  startswith "---" text = false ->
  preprocessor_yaml_frontmatter h text = ([], text).
Proof.
  intros Hfence. unfold preprocessor_yaml_frontmatter.
  now rewrite Hfence.
Qed.

Lemma frontmatter_identity_without_fence_witness :
  let h := sample_host no_network no_process no_files ∅ base_conf in
  startswith "---" "# Title" = false
  /\ preprocessor_yaml_frontmatter h "# Title" = ([], "# Title").
Proof.
  split; [reflexivity |].
  apply (frontmatter_identity_without_fence
           (sample_host no_network no_process no_files ∅ base_conf) "# Title").
  reflexivity.
Defined.

(** The leading block does not match at all: nothing is consumed either. *)
Lemma frontmatter_identity_without_block (h : host) (text : string) :
  search_anchored RE_FRONTMATTER text = None ->
  preprocessor_yaml_frontmatter h text = ([], text).
Proof.
  intros Hm. unfold preprocessor_yaml_frontmatter.
  rewrite Hm. now destruct (startswith "---" text).
Qed.

(** C2, as the code has it.  For a text with a leading block, the outcome of
    the YAML parse decides: a mapping is returned and the block consumed; the
    value [None] (an empty document) gives the empty mapping and the block is
    consumed as well; a parse failure or any other value gives the empty
    mapping and the text unchanged. *)
Theorem frontmatter_consumed_iff_mapping_or_none (h : host) (text : string) (m : rmatch) :
  startswith "---" text = true ->
  search_anchored RE_FRONTMATTER text = Some m ->
  preprocessor_yaml_frontmatter h text =
    match yaml_load h (group "2" m) with
    | Ret (PDict d) => (d, drop_str (match_end text m) text)
    | Ret PNone => ([], drop_str (match_end text m) text)
    | _ => ([], text)
    end
  /\ (rejected (yaml_load h (group "2" m)) = true ->
      preprocessor_yaml_frontmatter h text = ([], text)).
Proof.
  intros Hfence Hm. unfold preprocessor_yaml_frontmatter.
  rewrite Hfence, Hm.
  destruct (yaml_load h (group "2" m)) as [[ | | | | | ] | e]; simpl;
    split; try reflexivity; intros Hrej; try reflexivity; discriminate Hrej.
Qed.

Lemma frontmatter_consumed_iff_mapping_or_none_witness :
  let h := sample_host no_network no_process no_files ∅ base_conf in
  exists m,
    search_anchored RE_FRONTMATTER sample_list_block = Some m
    /\ yaml_load h (group "2" m) = Ret (PList [PStr "item"])
    /\ preprocessor_yaml_frontmatter h sample_list_block = ([], sample_list_block).
Proof.
  set (h := sample_host no_network no_process no_files ∅ base_conf).
  destruct (search_anchored RE_FRONTMATTER sample_list_block) as [m|] eqn:Hm;
    [| vm_compute in Hm; discriminate Hm].
  exists m. split; [reflexivity |].
  assert (Hg : yaml_load h (group "2" m) = Ret (PList [PStr "item"])).
  { vm_compute in Hm. injection Hm as <-. reflexivity. }
  split; [exact Hg |].
  apply (frontmatter_consumed_iff_mapping_or_none h sample_list_block m);
    [reflexivity | exact Hm | now rewrite Hg].
Defined.

(** C2 as stated fails: a block that parses to [None] is not a mapping, yet it
    is consumed.  The empty block between two fences is such a block. *)
Lemma frontmatter_none_is_consumed :
  ~ (forall (h : host) (text : string) (m : rmatch),
       search_anchored RE_FRONTMATTER text = Some m ->
       not_a_mapping (yaml_load h (group "2" m)) ->
       preprocessor_yaml_frontmatter h text = ([], text)).
Proof.
  intros claim.
  set (h := sample_host no_network no_process no_files ∅ base_conf).
  destruct (search_anchored RE_FRONTMATTER sample_empty_block) as [m|] eqn:Hm;
    [| vm_compute in Hm; discriminate Hm].
  assert (Hg : yaml_load h (group "2" m) = Ret PNone).
  { vm_compute in Hm. injection Hm as <-. reflexivity. }
  specialize (claim h sample_empty_block m Hm).
  rewrite Hg in claim. specialize (claim I).
  vm_compute in claim. discriminate claim.
Qed.

(** ** The source text *)

(** C9, as the code has it.  When the request does not force whole-document
    mode, the text that goes through the pipeline is the text of the first
    selection region if it has a character that is not white space, and the
    full text of the document otherwise: the outcome is that of whole-document
    mode on a view showing just that text. *)
Theorem get_contents_selection_unless_blank
    (h : host) (vw : view) (first : nat * nat) (others : list (nat * nat))
    (st : compiler) :
  view_sel vw = first :: others ->
  get_contents h vw false st =
    get_contents h
      (with_text vw (if has_nonspace (substr vw first)
                     then substr vw first else view_text vw))
      true st.
Proof.
  intros Hsel. unfold get_contents. simpl negb. cbv iota.
  rewrite Hsel. rewrite !substr_whole. reflexivity.
Qed.

Lemma get_contents_selection_unless_blank_witness :
  let h := sample_host no_network no_process no_files ∅ base_conf in
  view_sel sample_selection = [(6, 11)%nat; (0, 2)%nat]
  /\ fst (get_contents h sample_selection false (fresh base_conf)) = Ret "# Doc"
  /\ fst (get_contents h sample_blank_selection false (fresh base_conf)) = Ret "  # Doc".
Proof.
  set (h := sample_host no_network no_process no_files ∅ base_conf).
  split; [reflexivity |]. split.
  - rewrite (get_contents_selection_unless_blank h sample_selection
               (6, 11)%nat [(0, 2)%nat] (fresh base_conf)); reflexivity.
  - rewrite (get_contents_selection_unless_blank h sample_blank_selection
               (0, 2)%nat [] (fresh base_conf)); reflexivity.
Defined.

(** C9 as stated fails: a selection that is not empty but holds only white
    space is not converted; the full document is. *)
Lemma get_contents_blank_selection_ignored :
  ~ (forall (h : host) (vw : view) (first : nat * nat) (others : list (nat * nat))
            (st : compiler),
       view_sel vw = first :: others ->
       substr vw first <> EmptyString ->
       get_contents h vw false st =
         get_contents h (with_text vw (substr vw first)) true st).
Proof.
  intros claim.
  specialize (claim (sample_host no_network no_process no_files ∅ base_conf)
                    sample_blank_selection (0, 2)%nat [] (fresh base_conf)
                    eq_refl).
  assert (Hne : substr sample_blank_selection (0, 2)%nat <> EmptyString)
    by (vm_compute; discriminate).
  specialize (claim Hne). vm_compute in claim. discriminate claim.
Qed.

(** ** The title *)

Lemma str_list_texts (l : list pyval) :
  forallb is_text l = true -> exists ss, str_list l = Ret ss.
Proof.
  induction l as [|v l IH]; simpl; intros Hok; [now exists [] |].
  apply andb_prop in Hok as [Hv Hl].
  destruct v; try discriminate Hv.
  destruct (IH Hl) as [ss ->]. eauto.
Qed.

(** The loop of [get_meta] returns on renderable meta data, and leaves the
    last title in [meta_title]. *)
Lemma get_meta_loop_title (h : host) (items : list (string * pyval)) :
  meta_ok items = true ->
  forall (meta : list string) (st : compiler) (cur : option string),
    meta_title st = Some cur ->
    exists tags,
      get_meta_loop h items meta st =
        (Ret tags, with_meta_title st (explicit_title_from h cur items)).
Proof.
  induction items as [|[k v] items IH]; intros Hok meta st cur Hcur.
  - exists meta. simpl. unfold ret, with_meta_title.
    destruct st; simpl in *; now rewrite Hcur.
  - simpl in Hok. apply andb_prop in Hok as [Hv Hrest].
    simpl. destruct (String.eqb (lower k) "title") eqn:Hk.
    + unfold bind at 1. unfold set_meta_title at 1.
      destruct (IH Hrest meta
                   (Compiler (settings st) (Some (Some (title_value h v)))
                             (pygments_style st) (console st))
                   (Some (title_value h v)) eq_refl) as [tags Htags].
      exists tags.
      replace (py_str h match v with
                        | PList [] => PStr EmptyString
                        | PList (x :: _) => x
                        | _ => v
                        end) with (title_value h v)
        by (destruct v as [ | | | | [|x l] | ]; reflexivity).
      exact Htags.
    + simpl in Hv.
      destruct v as [ | b | z | s | l | d ]; try discriminate Hv.
      * unfold bind, ret. apply (IH Hrest meta st cur Hcur).
      * unfold bind, ret. apply (IH Hrest _ st cur Hcur).
      * simpl in Hv. destruct (str_list_texts l Hv) as [ss Hss].
        unfold bind, lift, ret. rewrite Hss.
        apply (IH Hrest _ st cur Hcur).
Qed.

(** C6, as the code has it.  After [get_meta], the title [get_title] embeds
    is: the explicit [title] meta value (its first element if it is a list)
    when that is not empty; the display name of the view when there is no
    explicit title and the name is not empty; in every other case, an explicit
    empty title included, the stem of the file name, or [untitled] for a view
    without a file.  It is embedded escaped. *)
Theorem title_resolution
    (h : host) (vw : view) (st : compiler) (items : list (string * pyval)) :
  sget (settings st) "meta" (PDict []) = PDict items ->
  meta_ok items = true ->
  exists tags,
    get_meta h st = (Ret tags, with_meta_title st (explicit_title h items))
    /\ get_title h vw (with_meta_title st (explicit_title h items)) =
         (Ret ("<title>"
               ++ cgi_escape h (resolved_title h vw (explicit_title h items)) false
               ++ "</title>"),
          with_meta_title st (explicit_title h items)).
Proof.
  intros Hmeta Hok.
  destruct (get_meta_loop_title h items Hok [] (with_meta_title st None) None eq_refl)
    as [tags Htags].
  exists (join nl tags). split.
  - unfold get_meta, bind, set_meta_title, settings_get. simpl.
    rewrite Hmeta. fold (with_meta_title st None). rewrite Htags. reflexivity.
  - unfold get_title, bind, ret. simpl.
    unfold resolved_title, file_title.
    destruct (explicit_title h items) as [t|]; reflexivity.
Qed.

Lemma title_resolution_witness :
  let h := sample_host no_network no_process no_files ∅ base_conf in
  fst ((let* _ := get_meta h in get_title h sample_blank_selection) sample_titled)
  = Ret "<title>Notes &lt;1&gt;</title>".
Proof.
  set (h := sample_host no_network no_process no_files ∅ base_conf).
  destruct (title_resolution h sample_blank_selection sample_titled
              [("author", PList [PStr "A"; PStr "B"]);
               ("Title", PList [PStr "Notes <1>"])] eq_refl eq_refl)
    as [tags [Hmeta Htitle]].
  unfold bind. rewrite Hmeta, Htitle. reflexivity.
Defined.

(** C6 as stated fails: with an explicit title that is an empty list, the
    title is neither the empty text the claim prefers nor the display name,
    but the fallback for a view without a file. *)
Lemma empty_title_falls_back_to_file :
  let h := sample_host no_network no_process no_files ∅ base_conf in
  let r := fst ((let* _ := get_meta h in get_title h sample_blank_selection)
                  sample_empty_title) in
  explicit_title h [("title", PList [])] = Some EmptyString
  /\ r = Ret "<title>untitled</title>"
  /\ r <> Ret ("<title>"
               ++ cgi_escape h
                    (claimed_title h sample_blank_selection
                       (explicit_title h [("title", PList [])])) false
               ++ "</title>")
  /\ r <> Ret ("<title>" ++ cgi_escape h (view_name sample_blank_selection) false
               ++ "</title>").
Proof.
  repeat split; vm_compute; discriminate.
Qed.

(** ** Header ids *)

Section HeaderIds.

Variable h : host.

Lemma sub_tokens_app {St : Type} (repl : St -> rmatch -> St * string)
    (st : St) (a b : list token) :
  sub_tokens repl st (a ++ b) =
    (fst (sub_tokens repl (fst (sub_tokens repl st a)) b),
     snd (sub_tokens repl st a) ++ snd (sub_tokens repl (fst (sub_tokens repl st a)) b)).
Proof.
  revert st. induction a as [|t a IH]; intros st; simpl.
  - now destruct (sub_tokens repl st b).
  - destruct t as [c|m].
    + rewrite IH. destruct (sub_tokens repl st a) as [st1 o1]. simpl.
      now destruct (sub_tokens repl st1 b).
    + destruct (repl st m) as [st1 piece].
      rewrite IH. destruct (sub_tokens repl st1 a) as [st2 o2]. simpl.
      destruct (sub_tokens repl st2 b) as [st3 o3]. simpl.
      now rewrite append_assoc.
Qed.

Lemma sub_tokens_match {St : Type} (repl : St -> rmatch -> St * string)
    (st : St) (m : rmatch) (ts : list token) :
  sub_tokens repl st (TMatch m :: ts) =
    (fst (sub_tokens repl (fst (repl st m)) ts),
     snd (repl st m) ++ snd (sub_tokens repl (fst (repl st m)) ts)).
Proof.
  simpl. destruct (repl st m) as [st1 piece]. simpl.
  now destruct (sub_tokens repl st1 ts).
Qed.

Lemma inject_id_other (unique : gmap string Z) (m : rmatch) (slug : string) :
  slug_of h m <> slug ->
  fst (inject_id h unique m) !! slug = unique !! slug.
Proof.
  intros Hne. unfold inject_id. fold (slug_of h m).
  destruct (String.eqb (slug_of h m) EmptyString); [reflexivity |].
  destruct (unique !! slug_of h m); simpl; now rewrite lookup_insert_ne.
Qed.

Lemma inject_id_same (unique : gmap string Z) (m : rmatch) :
  slug_of h m <> EmptyString ->
  inject_id h unique m =
    (<[slug_of h m := seen unique (slug_of h m) + 1]> unique,
     with_id m (match unique !! slug_of h m with
                | None => slug_of h m
                | Some value => slug_of h m ++ "-" ++ fmt_d value
                end)).
Proof.
  intros Hne. unfold inject_id, seen, with_id. fold (slug_of h m).
  apply String.eqb_neq in Hne. rewrite Hne.
  now destruct (unique !! slug_of h m).
Qed.

(** After the tokens [ts], the counter of a non-empty [slug] has grown by the
    number of headings in [ts] that have this slug. *)
Lemma unique_after_count (slug : string) (ts : list token) :
  slug <> EmptyString ->
  forall unique : gmap string Z,
    unique_after h unique ts !! slug =
      match slug_count h slug ts with
      | O => unique !! slug
      | S n => Some (seen unique slug + Z.of_nat (S n))
      end.
Proof.
  intros Hslug. unfold unique_after.
  induction ts as [|t ts IH]; intros unique; [reflexivity |].
  destruct t as [c|m].
  - simpl. specialize (IH unique).
    destruct (sub_tokens (inject_id h) unique ts) as [u o]. exact IH.
  - rewrite sub_tokens_match. cbn [fst slug_count].
    destruct (String.eqb (slug_of h m) slug) eqn:Hm.
    + apply String.eqb_eq in Hm.
      assert (Hne : slug_of h m <> EmptyString) by now rewrite Hm.
      rewrite (inject_id_same unique m Hne). cbn [fst]. rewrite Hm.
      rewrite IH.
      assert (Hnew : seen (<[slug := seen unique slug + 1]> unique) slug
                     = seen unique slug + 1)
        by (unfold seen at 1; now rewrite lookup_insert_eq).
      rewrite Hnew, lookup_insert_eq.
      destruct (slug_count h slug ts) as [|n]; f_equal; lia.
    + apply String.eqb_neq in Hm.
      rewrite IH. unfold seen. rewrite (inject_id_other unique m slug Hm).
      reflexivity.
Qed.

Lemma suffixed_differs (slug suffix : string) : slug ++ "-" ++ suffix <> slug.
Proof.
  intros Heq. apply (f_equal String.length) in Heq.
  rewrite !length_append in Heq. simpl in Heq. lia.
Qed.

(** C7.  Let two headings of the fragment, as [re_header] matches them, have
    the same text, with a slug that is not empty, the first of them being the
    first heading of the fragment with this slug.  Then the first gets the
    plain slug as its id, and the second gets the slug followed by a dash and
    the number of headings with this slug before it, which is [1] when no
    heading between the two shares the slug; the two ids differ. *)
Theorem inject_header_id_suffixes_second
    (html : string) (pre mid post : list token) (m1 m2 : rmatch) :
  scan RE_HEADER html = (pre ++ TMatch m1 :: mid ++ TMatch m2 :: post)%list ->
  group "text" m2 = group "text" m1 ->
  slug_of h m1 <> EmptyString ->
  slug_count h (slug_of h m1) pre = O ->
  let slug := slug_of h m1 in
  let id2 := slug ++ "-" ++ fmt_d (Z.of_nat (S (slug_count h slug mid))) in
  let u1 := <[slug := 1]> (unique_after h ∅ pre) in
  let u2 := <[slug := Z.of_nat (S (S (slug_count h slug mid)))]> (unique_after h u1 mid) in
  postprocess_inject_header_id h html =
    rendered h ∅ pre ++ with_id m1 slug ++ rendered h u1 mid
    ++ with_id m2 id2 ++ rendered h u2 post
  /\ id2 <> slug
  /\ (slug_count h slug mid = O -> id2 = slug ++ "-1").
Proof.
  intros Hscan Htext Hslug Hpre slug id2 u1 u2.
  assert (Hslug2 : slug_of h m2 = slug) by (unfold slug_of; now rewrite Htext).
  split; [| split].
  - assert (Hfresh : unique_after h ∅ pre !! slug = None).
    { rewrite (unique_after_count slug pre Hslug ∅). fold slug in Hpre.
      rewrite Hpre. apply lookup_empty. }
    assert (Hseen : unique_after h u1 mid !! slug
                    = Some (Z.of_nat (S (slug_count h slug mid)))).
    { rewrite (unique_after_count slug mid Hslug u1).
      unfold seen, u1. rewrite lookup_insert_eq.
      destruct (slug_count h slug mid); f_equal; lia. }
    assert (Hne2 : slug_of h m2 <> EmptyString) by now rewrite Hslug2.
    assert (H1 : inject_id h (unique_after h ∅ pre) m1 = (u1, with_id m1 slug)).
    { rewrite (inject_id_same _ m1 Hslug). fold slug.
      unfold seen. rewrite Hfresh. reflexivity. }
    assert (H2 : inject_id h (unique_after h u1 mid) m2 = (u2, with_id m2 id2)).
    { rewrite (inject_id_same _ m2 Hne2). rewrite Hslug2.
      unfold seen. rewrite Hseen. unfold u2, id2. do 2 f_equal. lia. }
    unfold postprocess_inject_header_id, re_sub_st. rewrite Hscan.
    rewrite sub_tokens_app. cbn [snd]. fold (rendered h ∅ pre).
    fold (unique_after h ∅ pre). f_equal.
    rewrite sub_tokens_match, H1. cbn [fst snd]. f_equal.
    rewrite sub_tokens_app. cbn [snd]. fold (rendered h u1 mid).
    fold (unique_after h u1 mid). f_equal.
    rewrite sub_tokens_match, H2. cbn [fst snd]. reflexivity.
  - apply suffixed_differs.
  - intros Hmid. unfold id2. now rewrite Hmid.
Qed.

End HeaderIds.

(** C7 as stated fails in two ways.  A heading whose opening tag carries any
    attribute is not matched, so two such headings without an id get no id at
    all.  And when an earlier heading with another text has the same slug, the
    first of two headings with identical text gets a suffixed id, not the
    plain slug. *)
Lemma header_ids_need_bare_tags_and_fresh_slug :
  let h := sample_host no_network no_process no_files ∅ base_conf in
  let classed :=
    "<h2 class=" ++ dq ++ "x" ++ dq ++ ">Setup</h2>"
    ++ "<h2 class=" ++ dq ++ "x" ++ dq ++ ">Setup</h2>" in
  postprocess_inject_header_id h classed = classed
  /\ contains "id=" (postprocess_inject_header_id h classed) = false
  /\ uslugify h "Intro" "-" = uslugify h "intro" "-"
  /\ "intro-1" <> uslugify h "intro" "-"
  /\ postprocess_inject_header_id h "<h1>Intro</h1><h2>intro</h2><h3>intro</h3>"
     = "<h1 id=" ++ dq ++ "intro" ++ dq ++ ">Intro</h1>"
       ++ "<h2 id=" ++ dq ++ "intro-1" ++ dq ++ ">intro</h2>"
       ++ "<h3 id=" ++ dq ++ "intro-2" ++ dq ++ ">intro</h3>".
Proof.
  repeat split; try (vm_compute; reflexivity). vm_compute. discriminate.
Qed.

Lemma inject_header_id_suffixes_second_witness :
  let h := sample_host no_network no_process no_files ∅ base_conf in
  scan RE_HEADER sample_headings =
    ([] ++ TMatch sample_heading_1
        :: map TChar (list_ascii_of_string "<p>x</p>")
        ++ TMatch sample_heading_2 :: [])%list
  /\ postprocess_inject_header_id h sample_headings =
       "<h1 id=" ++ dq ++ "intro" ++ dq ++ ">Intro</h1><p>x</p>"
       ++ "<h2 id=" ++ dq ++ "intro-1" ++ dq ++ ">Intro</h2>".
Proof.
  set (h := sample_host no_network no_process no_files ∅ base_conf).
  assert (Hscan : scan RE_HEADER sample_headings =
                    ([] ++ TMatch sample_heading_1
                        :: map TChar (list_ascii_of_string "<p>x</p>")
                        ++ TMatch sample_heading_2 :: [])%list)
    by (vm_compute; reflexivity).
  split; [exact Hscan |].
  destruct (inject_header_id_suffixes_second h sample_headings []
              (map TChar (list_ascii_of_string "<p>x</p>")) []
              sample_heading_1 sample_heading_2 Hscan eq_refl)
    as [Hout _].
  - vm_compute. discriminate.
  - reflexivity.
  - rewrite Hout. vm_compute. reflexivity.
Defined.

(** ** The order of the postprocessors *)

Lemma reads_only_ret {A : Type} (a : A) : reads_only (ret a).
Proof. now intros st. Qed.

Lemma reads_only_raise {A : Type} (e : exn) : reads_only (@raise A e).
Proof. now intros st. Qed.

Lemma reads_only_lift {A : Type} (r : res A) : reads_only (lift r).
Proof. now intros st. Qed.

Lemma reads_only_settings_get (key : string) (default : pyval) :
  reads_only (settings_get key default).
Proof. now intros st. Qed.

Lemma reads_only_bind {A B : Type} (m : M A) (k : A -> M B) :
  reads_only m -> (forall a, reads_only (k a)) -> reads_only (bind m k).
Proof.
  intros Hm Hk st. unfold bind. specialize (Hm st).
  destruct (m st) as [[a|e] st']; simpl in *; subst; [apply Hk | reflexivity].
Qed.

Ltac reads_only :=
  repeat first
    [ apply reads_only_ret
    | apply reads_only_raise
    | apply reads_only_lift
    | apply reads_only_settings_get
    | apply reads_only_bind; [| intros ? ]
    | match goal with
      | |- reads_only (if ?b then _ else _) => destruct b
      | |- reads_only (match ?x with _ => _ end) => destruct x
      end ].

Lemma reads_only_postprocess (h : host) (cls : compiler_class) (html : pyval) :
  reads_only (parser_specific_postprocess h cls html).
Proof. unfold parser_specific_postprocess. reads_only. Qed.

Lemma reads_only_pathconverter (h : host) (vw : view) (preview : bool)
    (source : pyval) (image_convert file_convert absolute : bool) :
  reads_only (postprocessor_pathconverter h vw preview source
                image_convert file_convert absolute).
Proof. unfold postprocessor_pathconverter. reads_only. Qed.

Lemma reads_only_base64 (h : host) (source : pyval) :
  reads_only (postprocessor_base64 h source).
Proof. unfold postprocessor_base64. reads_only. Qed.

Lemma reads_only_simple (h : host) (source : pyval) :
  reads_only (postprocessor_simple h source).
Proof. unfold postprocessor_simple. reads_only. Qed.

Lemma bind_ret_r {A : Type} (m : M A) (st : compiler) :
  bind m ret st = m st.
Proof. unfold bind, ret. now destruct (m st) as [[a|e] st']. Qed.

(** A stage that only reads leaves the settings as they were for the next
    one. *)
Lemma bind_reads_only {A B : Type} (m : M A) (k : A -> M B) (st : compiler) :
  reads_only m ->
  bind m k st =
    match fst (m st) with
    | Ret a => k a st
    | Raise e => (Raise e, st)
    end.
Proof.
  intros Hm. unfold bind. specialize (Hm st).
  destruct (m st) as [[a|e] st']; simpl in *; now subst.
Qed.

(** One stage of the chain on both sides: it only reads, so what follows runs
    in the same state; if it raises, both sides have raised. *)
Ltac stage lem :=
  rewrite !bind_reads_only by apply lem;
  match goal with
  | |- context [match fst ?r with _ => _ end] => destruct (fst r); [| reflexivity]
  end.

(** A stage whose condition is off. *)
Ltac no_stage := unfold bind at 1, ret at 1.

(** C5.  [convert_markdown] converts the text, reads the two path modes and
    the simple-output flag from the settings as the conversion left them, and
    applies the postprocessors of [postprocess_chain] in their order; a stage
    that raises ends the chain. *)
Theorem convert_markdown_order
    (h : host) (vw : view) (preview : bool) (cls : compiler_class)
    (markdown_text : string) (st : compiler) :
  convert_markdown h vw preview cls markdown_text st =
    match parser_specific_convert h cls markdown_text st with
    | (Ret html, st1) =>
        apply_chain
          (postprocess_chain h vw preview cls
             (sget (settings st1) "image_path_conversion" (PStr "absolute"))
             (sget (settings st1) "file_path_conversions" (PStr "absolute"))
             (sget (settings st1) "html_simple" (PBool false)))
          html st1
    | (Raise e, st1) => (Raise e, st1)
    end.
Proof.
  unfold convert_markdown. unfold bind at 1.
  destruct (parser_specific_convert h cls markdown_text st) as [[html|e] st1];
    [| reflexivity].
  unfold bind at 1. unfold settings_get at 1.
  unfold bind at 1. unfold settings_get at 1.
  set (image_convert := sget (settings st1) "image_path_conversion" (PStr "absolute")).
  set (file_convert := sget (settings st1) "file_path_conversions" (PStr "absolute")).
  set (simple := sget (settings st1) "html_simple" (PBool false)).
  unfold postprocess_chain. cbn [app apply_chain].
  stage reads_only_postprocess.
  destruct (is_str "absolute" image_convert || is_str "absolute" file_convert);
    cbn [app apply_chain]; [stage reads_only_pathconverter | no_stage];
    (destruct (is_str "relative" image_convert || is_str "relative" file_convert);
     cbn [app apply_chain]; [stage reads_only_pathconverter | no_stage]);
    (destruct (is_str "base64" image_convert);
     cbn [app apply_chain]; [stage reads_only_base64 | no_stage]);
    unfold bind at 1, settings_get at 1; fold simple;
    (destruct (truthy simple); cbn [apply_chain];
     [now rewrite bind_ret_r | reflexivity]).
Qed.

(** On the sample host every postprocessor tags its input, so the tags of the
    result read, from the right, in the order of the chain. *)
Example convert_markdown_order_sample :
  fst (convert_markdown (sample_host no_network no_process no_files ∅ sample_modes)
         sample_blank_selection true MarkdownCompiler "text" (fresh sample_modes))
  = Ret (PStr "[simple][base64][relative:script a link]<p>text</p>").
Proof. vm_compute. reflexivity. Qed.

(** ** The assembled document *)

(** The text [run] builds piece by piece is the shell. *)
Lemma shell_leaf (head b : string) (body : pyval) (st : compiler) :
  (Ret (PStr
     ((((((((("<!DOCTYPE html>"
             ++ "<html><head><meta charset=" ++ dq ++ "utf-8" ++ dq ++ ">")
            ++ "<meta name=" ++ dq ++ "viewport" ++ dq ++ " content=" ++ dq
            ++ "width=device-width, initial-scale=1" ++ dq ++ ">")
           ++ head)
          ++ "</head><body>")
         ++ "<article class=" ++ dq ++ "markdown-body" ++ dq ++ ">")
        ++ b)
       ++ "</article>")
      ++ "</body>")
     ++ "</html>"), body), st)
  = (Ret (PStr (default_shell head b), body), st).
Proof.
  unfold default_shell. repeat rewrite append_assoc. reflexivity.
Qed.

(** C8.  Let the preprocessing and the conversion return the body.  With the
    simple output enabled, [run] returns the body as the full HTML: nothing is
    added, and the head is not even computed.  With it disabled and no usable
    custom template, the full HTML is the default shell, with the body inside
    its [article] element. *)
Theorem run_simple_or_shell
    (h : host) (vw : view) (preview : bool) (cls : compiler_class)
    (wholefile : bool) (st st2 : compiler) (body : pyval) :
  (let* contents := get_contents h vw wholefile in
   convert_markdown h vw preview cls contents) (prepared h vw st) = (Ret body, st2) ->
  template_typed (sget (settings st2) "html_template" PNone) = true ->
  (truthy (sget (settings st2) "html_simple" (PBool false)) = true ->
   run h vw preview cls wholefile st = (Ret (body, body), st2))
  /\ (truthy (sget (settings st2) "html_simple" (PBool false)) = false ->
      template_unusable h (sget (settings st2) "html_template" PNone) = true ->
      forall (head b : string) (st3 : compiler),
        head_parts h vw cls st2 = (Ret head, st3) ->
        body = PStr b ->
        run h vw preview cls wholefile st
        = (Ret (PStr (default_shell head b), PStr b), st3)).
Proof.
  intros Hbody Htyped.
  assert (Hrun : run h vw preview cls wholefile st = assemble h vw cls body st2).
  { unfold run. unfold bind at 1. unfold set_settings at 1.
    fold (prepared h vw st).
    unfold bind at 1 in Hbody. unfold bind at 1.
    destruct (get_contents h vw wholefile (prepared h vw st)) as [[contents|e] st1];
      [| discriminate Hbody].
    unfold bind at 1. now rewrite Hbody. }
  rewrite Hrun. clear Hrun Hbody.
  split.
  - intros Hs. unfold assemble, bind, settings_get, ret, lift.
    destruct (sget (settings st2) "html_template" PNone)
      as [ | [|] | tz | t | [|x tl] | [|x td] ];
      try discriminate Htyped; cbn [truthy negb expect_str]; rewrite ?Hs;
      try reflexivity.
    + simpl in Htyped. apply negb_true_iff in Htyped. now rewrite Htyped, Hs.
    + destruct (negb (String.eqb t EmptyString)); now rewrite Hs.
  - intros Hs Hun head b st3 Hhead ->.
    unfold assemble, bind, settings_get, ret, lift.
    destruct (sget (settings st2) "html_template" PNone)
      as [ | [|] | tz | t | [|x tl] | [|x td] ];
      try discriminate Htyped; cbn [truthy negb expect_str]; rewrite ?Hs;
      try (rewrite Hhead; apply shell_leaf).
    + simpl in Htyped. apply negb_true_iff in Htyped. rewrite Htyped, Hs.
      cbn [truthy]. rewrite Htyped, Hhead. apply shell_leaf.
    + unfold template_unusable in Hun.
      destruct (String.eqb t EmptyString) eqn:Ht; simpl in Hun |- *; rewrite Hs.
      * cbn [truthy]. rewrite Ht. simpl. rewrite Hhead. apply shell_leaf.
      * apply negb_true_iff in Hun. cbn [truthy].
        destruct (negb (String.eqb (os_path_abspath h (os_path_expanduser h t))
                          EmptyString)); simpl;
          [rewrite Hun |]; rewrite Hhead; apply shell_leaf.
Qed.

Lemma run_simple_or_shell_witness :
  fst (run (sample_host no_network no_process no_files ∅ sample_simple_conf)
           sample_blank_selection false MarkdownCompiler true (fresh ∅))
  = Ret (PStr "[simple][absolute:script a link img]<p>  # Doc</p>",
         PStr "[simple][absolute:script a link img]<p>  # Doc</p>")
  /\ fst (run (sample_host no_network no_process no_files ∅ base_conf)
              sample_blank_selection false MarkdownCompiler true (fresh ∅))
     = Ret (PStr (default_shell
                    "<style></style><style>.codehilite {}</style><title>Draft</title>"
                    "[absolute:script a link img]<p>  # Doc</p>"),
            PStr "[absolute:script a link img]<p>  # Doc</p>").
Proof.
  split.
  - edestruct (run_simple_or_shell
                 (sample_host no_network no_process no_files ∅ sample_simple_conf)
                 sample_blank_selection false MarkdownCompiler true (fresh ∅))
      as [Hsimple _].
    + vm_compute. reflexivity.
    + reflexivity.
    + rewrite Hsimple; reflexivity.
  - edestruct (run_simple_or_shell
                 (sample_host no_network no_process no_files ∅ base_conf)
                 sample_blank_selection false MarkdownCompiler true (fresh ∅))
      as [_ Hshell].
    + vm_compute. reflexivity.
    + reflexivity.
    + erewrite Hshell; [reflexivity | reflexivity | reflexivity | | reflexivity].
      vm_compute. reflexivity.
Defined.

(** ** The GitLab postprocess *)

Lemma eat_startswith (lit : string) :
  forall (p : option ascii) (s : string),
    startswith lit s = false -> eat lit p s = None.
Proof.
  induction lit as [|a lit IH]; intros p s Hs; [discriminate Hs |].
  destruct s as [|b s]; [reflexivity |]. simpl in *.
  destruct (Ascii.eqb a b); [now apply IH | reflexivity].
Qed.

Lemma match_at_image_none (p : option ascii) (s : string) :
  startswith "<img" s = false -> match_at RE_IMAGE p s = None.
Proof.
  intros Hs. unfold match_at, RE_IMAGE. cbn [re_run prev rest caps].
  now rewrite (eat_startswith "<img" p s Hs).
Qed.

Lemma scan_image_free (s : string) :
  contains "<img" s = false ->
  forall p, scan_from RE_IMAGE p s O = map TChar (list_ascii_of_string s).
Proof.
  induction s as [|c s IH]; intros Hfree p; [reflexivity |].
  cbn [contains] in Hfree. apply orb_false_elim in Hfree as [Hhere Hrest].
  cbn [scan_from]. rewrite (match_at_image_none p _ Hhere).
  cbn [list_ascii_of_string map]. now rewrite (IH Hrest).
Qed.

Lemma sub_tokens_chars {St : Type} (repl : St -> rmatch -> St * string)
    (st : St) (s : string) :
  sub_tokens repl st (map TChar (list_ascii_of_string s)) = (st, s).
Proof.
  induction s as [|c s IH]; [reflexivity |].
  cbn [list_ascii_of_string map sub_tokens]. now rewrite IH.
Qed.

(** A text without an image tag goes through [fix_images_src] unchanged. *)
Lemma fix_images_src_image_free (html : string) :
  contains "<img" html = false -> fix_images_src html = html.
Proof.
  intros Hfree. unfold fix_images_src, re_sub, re_sub_st, scan.
  rewrite (scan_image_free html Hfree None). now rewrite sub_tokens_chars.
Qed.

(** C10.  On a converted text, the postprocess of the GitLab class first
    renames the anchors (in [gfm] mode).  With simple output disabled it then
    appends the script that sets [HIGHLIGHT_THEME] to the configured theme,
    [white] by default, before the image fix-up runs over the whole text: in a
    text without image tags the result is the converted text followed by the
    script.  With simple output enabled no script is appended. *)
Theorem gitlab_postprocess_theme_script (h : host) (html : string) (st : compiler) :
  let fixed :=
    if is_str "gfm" (sget (settings st) "gitlab_mode" (PStr "gfm"))
    then fix_ids html else html in
  let script :=
    "<script>const HIGHLIGHT_THEME = " ++ dq
    ++ py_str h (sget (settings st) "gitlab_highlight_theme" (PStr "white"))
    ++ dq ++ ";</script>" in
  (truthy (sget (settings st) "html_simple" (PBool false)) = false ->
   parser_specific_postprocess h (OnlineCompiler Gitlab) (PStr html) st
   = (Ret (PStr (fix_images_src (fixed ++ script))), st)
   /\ (contains "<img" (fixed ++ script) = false ->
       parser_specific_postprocess h (OnlineCompiler Gitlab) (PStr html) st
       = (Ret (PStr (fixed ++ script)), st)))
  /\ (truthy (sget (settings st) "html_simple" (PBool false)) = true ->
      parser_specific_postprocess h (OnlineCompiler Gitlab) (PStr html) st
      = (Ret (PStr (fix_images_src fixed)), st)).
Proof.
  intros fixed script.
  assert (Hoff : truthy (sget (settings st) "html_simple" (PBool false)) = false ->
                 parser_specific_postprocess h (OnlineCompiler Gitlab) (PStr html) st
                 = (Ret (PStr (fix_images_src (fixed ++ script))), st)).
  { intros Hs. unfold fixed, script.
    unfold parser_specific_postprocess, highlight_theme_script,
      bind, settings_get, lift, ret.
    destruct (is_str "gfm" (sget (settings st) "gitlab_mode" (PStr "gfm")));
      cbn [expect_str]; now rewrite Hs. }
  split; [intros Hs; split; [now apply Hoff |] |].
  - intros Hfree. rewrite (Hoff Hs). now rewrite (fix_images_src_image_free _ Hfree).
  - intros Hs. unfold fixed.
    unfold parser_specific_postprocess, bind, settings_get, lift, ret.
    destruct (is_str "gfm" (sget (settings st) "gitlab_mode" (PStr "gfm")));
      cbn [expect_str]; now rewrite Hs.
Qed.

Lemma gitlab_postprocess_theme_script_witness :
  let h := sample_host no_network no_process no_files ∅ base_conf in
  fst (parser_specific_postprocess h (OnlineCompiler Gitlab) (PStr sample_anchor)
         (fresh sample_dark))
  = Ret (PStr ("<h1><a id=" ++ dq ++ "intro" ++ dq ++ "></a>Intro</h1>"
               ++ "<script>const HIGHLIGHT_THEME = " ++ dq ++ "dark" ++ dq
               ++ ";</script>"))
  /\ fst (parser_specific_postprocess h (OnlineCompiler Gitlab) (PStr sample_anchor)
            (fresh sample_simple_conf))
     = Ret (PStr ("<h1><a id=" ++ dq ++ "intro" ++ dq ++ "></a>Intro</h1>")).
Proof.
  set (h := sample_host no_network no_process no_files ∅ base_conf).
  split.
  - destruct (gitlab_postprocess_theme_script h sample_anchor (fresh sample_dark))
      as [Hoff _].
    destruct (Hoff eq_refl) as [_ Hfree].
    rewrite Hfree; [vm_compute; reflexivity | vm_compute; reflexivity].
  - destruct (gitlab_postprocess_theme_script h sample_anchor (fresh sample_simple_conf))
      as [_ Hon].
    rewrite (Hon eq_refl). vm_compute. reflexivity.
Defined.

(** ** Failures of the backends *)

(** The external renderer, when the name is configured but its argument
    vector is empty or its executable does not exist: the missing binary is
    reported, the sentinel returned, no process started. *)
Lemma external_missing_binary_reported
    (h : host) (parser markdown_text : string) (st : compiler)
    (d : list (string * pyval)) (l : list pyval) :
  sget (sublime_settings h) "markdown_binary_map" (PDict []) = PDict d ->
  assoc parser d = Some (PList l) ->
  (l = [] \/ exists p others, l = PStr p :: others /\ os_path_exists h p = false) ->
  ExternalMarkdownCompiler_parser_specific_convert h parser markdown_text st
  = (Ret (PStr _CANNOT_CONVERT),
     with_console st [ErrorMessage ("Cannot find " ++ py_repr h (PList l) ++ " binary!")]).
Proof.
  intros Hmap Hname Hmissing.
  unfold ExternalMarkdownCompiler_parser_specific_convert.
  rewrite Hmap. unfold dict_item. rewrite Hname.
  destruct Hmissing as [-> | (p & others & -> & Hp)].
  - reflexivity.
  - unfold bind, lift, ret. simpl. rewrite Hp. reflexivity.
Qed.

(** The external renderer, when the name is not a key of the binary map:
    the subscript raises [KeyError] before anything is reported. *)
Lemma external_absent_name_raises
    (h : host) (parser markdown_text : string) (st : compiler)
    (d : list (string * pyval)) :
  sget (sublime_settings h) "markdown_binary_map" (PDict []) = PDict d ->
  assoc parser d = None ->
  ExternalMarkdownCompiler_parser_specific_convert h parser markdown_text st
  = (Raise (KeyError parser), st).
Proof.
  intros Hmap Hname.
  unfold ExternalMarkdownCompiler_parser_specific_convert.
  rewrite Hmap. unfold dict_item. now rewrite Hname.
Qed.

(** The external renderer, when the process exits with a status that is not
    zero: its output is logged and the sentinel returned. *)
Lemma external_nonzero_exit_sentinel
    (h : host) (parser markdown_text out : string) (status : Z) (st : compiler)
    (d : list (string * pyval)) (p : string) (args : list string) :
  sget (sublime_settings h) "markdown_binary_map" (PDict []) = PDict d ->
  assoc parser d = Some (PList (map PStr (p :: args))) ->
  os_path_exists h p = true ->
  popen_communicate h (p :: args)
    (map (fun line => encode (line ++ nl)) (split_lines markdown_text))
  = Ret (Utf8 out, status) ->
  status <> 0 ->
  fst (ExternalMarkdownCompiler_parser_specific_convert h parser markdown_text st)
  = Ret (PStr _CANNOT_CONVERT).
Proof.
  intros Hmap Hname Hp Hrun Hstatus.
  assert (Hargs : str_list (map PStr (p :: args)) = Ret (p :: args)).
  { generalize (p :: args). intros l.
    induction l as [|x l IH]; simpl; [reflexivity | now rewrite IH]. }
  unfold ExternalMarkdownCompiler_parser_specific_convert.
  rewrite Hmap. unfold dict_item. rewrite Hname.
  unfold bind, lift, ret, status_message, error_message, log, emit, popen, cmd_args.
  cbn [py_len map List.length Nat.ltb Nat.leb py_first expect_str]. rewrite Hp.
  cbn [bind]. change (PStr p :: map PStr args) with (map PStr (p :: args)).
  rewrite Hargs. cbn [settings meta_title pygments_style console fst snd].
  unfold bind, lift. rewrite Hrun. unfold emit. cbn [fst snd decode].
  apply Z.eqb_neq in Hstatus. now rewrite Hstatus.
Qed.

(** An HTTP error whose body is the API's JSON error message: the message is
    reported and the sentinel returned. *)
Lemma online_http_error_sentinel
    (h : host) (api : online) (markdown_text text : string) (st : compiler)
    (code : Z) (body msg : pyval) :
  (forall req, urlopen_read h req = Raise (HTTPError code (Utf8 text))) ->
  json_loads h text = Ret body ->
  get_server_exception_message api body = Ret msg ->
  fst (OnlineCompiler_parser_specific_convert h api markdown_text st)
  = Ret (PStr _CANNOT_CONVERT).
Proof.
  intros Hnet Hjson Hmsg.
  unfold OnlineCompiler_parser_specific_convert, try_except_else,
    bind, settings_get, status_message, emit, lift.
  rewrite Hnet.
  unfold get_response_from_exception, bind, lift, decode, error_message, emit, ret.
  rewrite Hjson, Hmsg.
  destruct (code =? 401); [reflexivity |].
  destruct (code =? 403); reflexivity.
Qed.

(** C1 does not hold of the code.  With no secure transport and a [curl] that
    exits with status 7 and an empty output, the fragment is the empty text;
    were [curl] to raise [CalledProcessError], it is [None]; and a response
    that does not decode, an unexpected exception, makes the handler itself
    raise [AttributeError], because it calls [read] on the exception.  None
    of the three outcomes is the sentinel. *)
Theorem online_failures_without_sentinel :
  let convert net proc :=
    fst (OnlineCompiler_parser_specific_convert
           (sample_host net proc no_files ∅ base_conf) Github "# hi"
           (fresh base_conf)) in
  convert no_network curl_exits_7 = Ret (PStr EmptyString)
  /\ convert no_network curl_raises = Ret PNone
  /\ convert undecodable_response no_process = Raise AttributeError
  /\ convert no_network curl_exits_7 <> Ret (PStr _CANNOT_CONVERT)
  /\ convert no_network curl_raises <> Ret (PStr _CANNOT_CONVERT)
  /\ convert undecodable_response no_process <> Ret (PStr _CANNOT_CONVERT).
Proof.
  repeat split; vm_compute; discriminate.
Qed.

(** C4 does not hold of the code for a name that is absent from the binary
    map: the renderer raises [KeyError] outward, reports nothing and returns no
    fragment.  For a name that is configured with a path that does not exist
    it does what the claim says. *)
Theorem external_absent_name_escapes :
  let h := sample_host no_network no_process no_files sample_binary_map base_conf in
  ExternalMarkdownCompiler_parser_specific_convert h "multimarkdown" "# hi"
    (fresh base_conf)
  = (Raise (KeyError "multimarkdown"), fresh base_conf)
  /\ ExternalMarkdownCompiler_parser_specific_convert h "pandoc" "# hi"
       (fresh base_conf)
     = (Ret (PStr _CANNOT_CONVERT),
        with_console (fresh base_conf)
          [ErrorMessage "Cannot find <value> binary!"])
  /\ no_popen [ErrorMessage "Cannot find <value> binary!"] = true.
Proof.
  set (h := sample_host no_network no_process no_files sample_binary_map base_conf).
  split; [| split].
  - apply (external_absent_name_raises h "multimarkdown" "# hi" (fresh base_conf)
             [("pandoc", PList [PStr "/usr/bin/pandoc"; PStr "--mathjax"])]);
      reflexivity.
  - apply (external_missing_binary_reported h "pandoc" "# hi" (fresh base_conf)
             [("pandoc", PList [PStr "/usr/bin/pandoc"; PStr "--mathjax"])]
             [PStr "/usr/bin/pandoc"; PStr "--mathjax"]);
      [reflexivity | reflexivity |].
    right. exists "/usr/bin/pandoc", [PStr "--mathjax"]. split; reflexivity.
  - reflexivity.
Qed.

(** * Further properties of the code *)

(** ** Lines *)

Lemma append_empty_r (a : string) : a ++ EmptyString = a.
Proof.
  induction a as [|x a IH]; [reflexivity |].
  rewrite append_cons. now rewrite IH.
Qed.

Lemma split_lines_aux_nonempty (s : string) :
  forall cur, split_lines_aux cur s <> [].
Proof.
  induction s as [|c s IH]; intros cur; simpl; [discriminate |].
  destruct (Ascii.eqb c LF); [discriminate | apply IH].
Qed.

Lemma join_cons (sep x : string) (l : list string) :
  l <> [] -> join sep (x :: l) = x ++ sep ++ join sep l.
Proof. destruct l; [congruence | reflexivity]. Qed.

(** ['\n'.join(s.split('\n')) == s], with the line being read in front. *)
Lemma join_split_lines_aux (s : string) :
  forall cur, join nl (split_lines_aux cur s) = cur ++ s.
Proof.
  induction s as [|c s IH]; intros cur.
  - simpl. now rewrite append_empty_r.
  - simpl. destruct (Ascii.eqb c LF) eqn:Hc.
    + apply Ascii.eqb_eq in Hc. subst c.
      rewrite join_cons by apply split_lines_aux_nonempty.
      rewrite IH. reflexivity.
    + rewrite IH. rewrite append_assoc. reflexivity.
Qed.

(** X1.  [preprocessor_criticmarkup] splits the source into lines, hands them
    to the critic preprocessor and joins what comes back: when the critic
    preprocessor returns the lines as they are (a text without critic marks),
    the text comes back exactly, line ends and a final newline included. *)
Theorem criticmarkup_keeps_unmarked_text
    (h : host) (source : string) (accept : bool) :
  critic_run h (if accept then "accept" else "reject") (split_lines source)
  = split_lines source ->
  preprocessor_criticmarkup h source accept = source.
Proof.
  intros Hsame. unfold preprocessor_criticmarkup. rewrite Hsame.
  unfold split_lines. now rewrite join_split_lines_aux.
Qed.

Lemma criticmarkup_keeps_unmarked_text_witness :
  let h := sample_host no_network no_process no_files ∅ base_conf in
  preprocessor_criticmarkup h ("# Title" ++ nl ++ nl ++ "text" ++ nl) true
  = "# Title" ++ nl ++ nl ++ "text" ++ nl.
Proof.
  apply (criticmarkup_keeps_unmarked_text
           (sample_host no_network no_process no_files ∅ base_conf)
           ("# Title" ++ nl ++ nl ++ "text" ++ nl) true).
  reflexivity.
Defined.

Lemma str_concat_lines_aux (s : string) :
  forall cur,
    str_concat (map (fun line => line ++ nl) (split_lines_aux cur s))
    = cur ++ s ++ nl.
Proof.
  induction s as [|c s IH]; intros cur.
  - simpl. now rewrite append_empty_r.
  - simpl. destruct (Ascii.eqb c LF) eqn:Hc.
    + apply Ascii.eqb_eq in Hc. subst c.
      cbn [map str_concat]. rewrite IH. rewrite append_assoc. reflexivity.
    + rewrite IH. rewrite append_assoc. reflexivity.
Qed.

Lemma bytes_concat_encode (l : list string) :
  bytes_concat (map encode l) = encode (str_concat l).
Proof.
  induction l as [|x l IH]; [reflexivity |].
  cbn [map bytes_concat str_concat]. rewrite IH. reflexivity.
Qed.

(** What [ExternalMarkdownCompiler] writes to the process, line by line, is
    the text followed by one newline. *)
Lemma external_writes_text (markdown_text : string) :
  bytes_concat (map (fun line => encode (line ++ nl)) (split_lines markdown_text))
  = encode (markdown_text ++ nl).
Proof.
  rewrite <- (map_map (fun line => line ++ nl) encode).
  rewrite bytes_concat_encode. unfold split_lines.
  now rewrite str_concat_lines_aux.
Qed.

(** ** The external renderer *)

Lemma str_list_texts_map (l : list string) : str_list (map PStr l) = Ret l.
Proof. induction l as [|x l IH]; simpl; [reflexivity | now rewrite IH]. Qed.

(** X2.  A configured external renderer whose executable exists is started
    once, with the configured argument vector, and reads the Markdown text
    followed by one newline, however the writes are cut; when it exits with
    status zero its output is the fragment, and nothing is reported but the
    status line. *)
Theorem external_success_returns_output
    (h : host) (parser markdown_text out : string) (st : compiler)
    (d : list (string * pyval)) (p : string) (args : list string) :
  sget (sublime_settings h) "markdown_binary_map" (PDict []) = PDict d ->
  assoc parser d = Some (PList (map PStr (p :: args))) ->
  os_path_exists h p = true ->
  (forall w1 w2, bytes_concat w1 = bytes_concat w2 ->
                 popen_communicate h (p :: args) w1 = popen_communicate h (p :: args) w2) ->
  popen_communicate h (p :: args) [encode (markdown_text ++ nl)] = Ret (Utf8 out, 0) ->
  ExternalMarkdownCompiler_parser_specific_convert h parser markdown_text st
  = (Ret (PStr out),
     with_console st
       [StatusMessage ("converting markdown with " ++ parser ++ "...");
        Popen (p :: args) (String.eqb (sublime_platform h) "windows")]).
Proof.
  intros Hmap Hname Hp Hstream Hrun.
  assert (Hwrites :
    popen_communicate h (p :: args)
      (map (fun line => encode (line ++ nl)) (split_lines markdown_text))
    = Ret (Utf8 out, 0)).
  { rewrite <- Hrun. apply Hstream. rewrite external_writes_text.
    cbn [bytes_concat encode]. now rewrite append_empty_r. }
  unfold ExternalMarkdownCompiler_parser_specific_convert.
  rewrite Hmap. unfold dict_item. rewrite Hname.
  unfold bind, lift, ret, status_message, popen, emit, cmd_args.
  cbn [py_len map List.length Nat.ltb Nat.leb py_first expect_str]. rewrite Hp.
  change (PStr p :: map PStr args) with (map PStr (p :: args)).
  rewrite str_list_texts_map. rewrite Hwrites.
  unfold bind, lift.
  cbn [fst snd decode Z.eqb negb settings meta_title pygments_style console].
  unfold with_console. rewrite <- app_assoc. reflexivity.
Qed.

Lemma external_success_returns_output_witness :
  let h := sample_host no_network sample_renderer sample_files sample_binary_map
             base_conf in
  fst (ExternalMarkdownCompiler_parser_specific_convert h "pandoc"
         ("# Title" ++ nl ++ "text") (fresh base_conf))
  = Ret (PStr ("<p># Title" ++ nl ++ "text" ++ nl ++ "</p>")).
Proof.
  intros h.
  rewrite (external_success_returns_output h "pandoc" ("# Title" ++ nl ++ "text")
             ("<p># Title" ++ nl ++ "text" ++ nl ++ "</p>") (fresh base_conf)
             [("pandoc", PList [PStr "/usr/bin/pandoc"; PStr "--mathjax"])]
             "/usr/bin/pandoc" ["--mathjax"]).
  - reflexivity.
  - reflexivity.
  - reflexivity.
  - reflexivity.
  - intros w1 w2 Hw. cbn. unfold sample_renderer. now rewrite Hw.
  - reflexivity.
Defined.

(** ** The remote renderers *)

Lemma startswith_append (p a b : string) :
  startswith p a = true -> startswith p (a ++ b) = true.
Proof.
  revert a. induction p as [|x p IH]; intros a Ha; [reflexivity |].
  destruct a as [|y a]; [discriminate Ha |].
  rewrite append_cons. simpl in *.
  destruct (Ascii.eqb x y); [now apply IH | discriminate Ha].
Qed.

Lemma contains_append (p a b : string) :
  contains p a = true -> contains p (a ++ b) = true.
Proof.
  induction a as [|y a IH]; intros Ha.
  - simpl in Ha. rewrite orb_false_r in Ha.
    destruct p; [| discriminate Ha]. now destruct b.
  - rewrite append_cons. cbn [contains] in *.
    apply orb_true_iff in Ha as [Ha | Ha].
    + rewrite <- append_cons. rewrite (startswith_append _ _ _ Ha). reflexivity.
    + rewrite (IH Ha). apply orb_true_r.
Qed.

Lemma headers_of_token (h : host) (api : online) (token : pyval) :
  token_typed token = true ->
  ("Content-Type", content_type api)
  :: (if truthy token
      then [(authentication_api_key api,
             authentication_api_type api ++ " " ++ py_str h token)]
      else [])
  = sent_headers api token.
Proof.
  destruct token as [ | | | [|c tok] | | ]; try discriminate; intros _;
    try reflexivity.
  now destruct api.
Qed.

(** X3.  When the API answers, the fragment is what [unpack_data] makes of the
    answer, and two status lines are sent, the second naming GitHub whichever
    API was used.  The request goes to the API's URL with the JSON text of the
    packed data; it carries the authentication header exactly when a token is
    configured, as [token <value>] for GitHub and, the type being empty, as a
    space and the value for GitLab. *)
Theorem online_success_returns_unpacked
    (h : host) (api : online) (markdown_text : string) (st : compiler)
    (raw : bytes) (html : pyval) :
  let token := sget (settings st) (authentication_settings_key api) PNone in
  token_typed token = true ->
  urlopen_read h
    (Request (url api) (encode (sent_data h api markdown_text st))
             (sent_headers api token))
  = Ret raw ->
  unpack_data h api raw = Ret html ->
  OnlineCompiler_parser_specific_convert h api markdown_text st
  = (Ret html,
     with_console st
       [StatusMessage ("converting markdown with "
                       ++ compiler_name (OnlineCompiler api) ++ " API...");
        StatusMessage "converted markdown with github API successfully"]).
Proof.
  intros token Htyped Hnet Hunpack.
  unfold OnlineCompiler_parser_specific_convert, try_except_else,
    bind, settings_get, status_message, emit, lift, ret.
  cbn [settings meta_title pygments_style console].
  fold token. rewrite (headers_of_token h api token Htyped).
  unfold sent_data in Hnet. rewrite Hnet, Hunpack.
  cbn [settings meta_title pygments_style console].
  unfold with_console. rewrite <- app_assoc. reflexivity.
Qed.

Lemma online_success_returns_unpacked_witness :
  let h := sample_host sample_gitlab_net no_process no_files ∅ sample_token_conf in
  fst (OnlineCompiler_parser_specific_convert h Gitlab "hi" (fresh sample_token_conf))
  = Ret (PStr "<p>hi</p>").
Proof.
  intros h.
  rewrite (online_success_returns_unpacked h Gitlab "hi" (fresh sample_token_conf)
             (Utf8 "{html: <p>hi</p>}") (PStr "<p>hi</p>"));
    reflexivity.
Defined.

(** X4.  An HTTP error whose body is a JSON error message is reported once,
    after the status line: an introduction chosen by the status code (for 401
    it names the token), followed by the API's name, the status code and the
    server's message in quotes.  The fragment is the sentinel and no process
    is started. *)
Theorem online_http_error_reported
    (h : host) (api : online) (markdown_text text : string) (st : compiler)
    (code : Z) (body msg : pyval) :
  (forall req, urlopen_read h req = Raise (HTTPError code (Utf8 text))) ->
  json_loads h text = Ret body ->
  get_server_exception_message api body = Ret msg ->
  let report := http_error_intro api code ++ quoted_response h api code msg in
  OnlineCompiler_parser_specific_convert h api markdown_text st
  = (Ret (PStr _CANNOT_CONVERT),
     with_console st
       [StatusMessage ("converting markdown with "
                       ++ compiler_name (OnlineCompiler api) ++ " API...");
        ErrorMessage report])
  /\ (code = 401 -> contains "token" report = true).
Proof.
  intros Hnet Hjson Hmsg report. split.
  - unfold OnlineCompiler_parser_specific_convert, try_except_else,
      bind, settings_get, status_message, emit, lift.
    rewrite Hnet.
    unfold get_response_from_exception, bind, lift, decode, error_message, emit, ret.
    rewrite Hjson, Hmsg.
    unfold report, http_error_intro, quoted_response, with_console.
    destruct (code =? 401); [| destruct (code =? 403)];
      cbn [settings meta_title pygments_style console];
      rewrite <- app_assoc; reflexivity.
  - intros ->. unfold report, http_error_intro. cbn [Z.eqb Pos.eqb].
    apply contains_append. now destruct api.
Qed.

Lemma online_http_error_reported_witness :
  let h := sample_host
             (fun _ => Raise (HTTPError 401 (Utf8 "{message: Bad credentials}")))
             no_process no_files ∅ base_conf in
  OnlineCompiler_parser_specific_convert h Gitlab "hi" (fresh base_conf)
  = (Ret (PStr _CANNOT_CONVERT),
     with_console (fresh base_conf)
       [StatusMessage "converting markdown with gitlab API...";
        ErrorMessage
          (auth_failed_message Gitlab
           ++ quoted_response h Gitlab 401 (PStr "Bad credentials"))]).
Proof.
  intros h.
  destruct (online_http_error_reported h Gitlab "hi" "{message: Bad credentials}"
              (fresh base_conf) 401
              (PDict [("message", PStr "Bad credentials")])
              (PStr "Bad credentials")) as [Hout _];
    [intros req; reflexivity | reflexivity | reflexivity | exact Hout].
Defined.

(** X5.  Without secure transport ([URLError]) the conversion falls back on
    [curl], started once with the content type, the authentication header when
    a token is configured, the JSON text as data and the API's URL.  Whatever
    [curl] wrote is unpacked as the API's answer, an exception of the
    unpacking included: the exit status of [curl] is not looked at. *)
Theorem online_curl_fallback
    (h : host) (api : online) (markdown_text : string) (st : compiler)
    (raw : bytes) (status : Z) :
  let token := sget (settings st) (authentication_settings_key api) PNone in
  let command := curl_command api token (sent_data h api markdown_text st) in
  token_typed token = true ->
  (forall req, urlopen_read h req = Raise URLError) ->
  popen_communicate h command [] = Ret (raw, status) ->
  unpack_data h api raw <> Raise CalledProcessError ->
  OnlineCompiler_parser_specific_convert h api markdown_text st
  = (unpack_data h api raw,
     with_console st
       [StatusMessage ("converting markdown with "
                       ++ compiler_name (OnlineCompiler api) ++ " API...");
        Popen command false]).
Proof.
  intros token command Htyped Hnet Hcurl Hunpack.
  unfold OnlineCompiler_parser_specific_convert, try_except_else,
    bind, settings_get, status_message, emit, lift.
  rewrite Hnet.
  unfold curl_convert, try_except, bind, settings_get, lift, ret, popen, emit,
    encode, decode.
  cbn [settings meta_title pygments_style console tl].
  fold token. fold (sent_data h api markdown_text st).
  subst command. revert Hcurl. generalize (sent_data h api markdown_text st).
  clearbody token. intros json Hcurl.
  destruct token as [ | | | [|c tok] | | ]; try discriminate Htyped;
    destruct api; cbn [truthy negb String.eqb expect_str curl_command] in *;
    unfold authentication_api_key, authentication_api_type, content_type;
    cbn [String.eqb Ascii.eqb Bool.eqb app join];
    cbv [String.append] in Hcurl |- *;
    rewrite Hcurl; unfold bind, lift;
    cbn [fst settings meta_title pygments_style console];
    unfold with_console; rewrite <- app_assoc;
    match goal with
    | |- context [unpack_data ?h ?a ?r] => destruct (unpack_data h a r) as [html|[]]
    end; try reflexivity; now elim Hunpack.
Qed.

Lemma online_curl_fallback_witness :
  let h := sample_host no_network sample_curl no_files ∅ sample_token_conf in
  fst (OnlineCompiler_parser_specific_convert h Gitlab "hi" (fresh sample_token_conf))
  = Ret (PStr "<p>hi</p>").
Proof.
  intros h.
  rewrite (online_curl_fallback h Gitlab "hi" (fresh sample_token_conf)
             (Utf8 "{html: <p>hi</p>}") 22);
    [reflexivity | reflexivity | intros req; reflexivity | reflexivity | discriminate].
Defined.

(** ** References *)

Lemma append_references_readable (h : host) (refs : list pyval) (texts : list string) :
  Forall2 (readable h) refs texts ->
  forall (contents : string) (st : compiler),
    append_references h contents refs st = (Ret (contents ++ str_concat texts), st).
Proof.
  induction 1 as [|ref text refs texts [[-> ->] | (f & -> & Hf & Hload)] _ IH];
    intros contents st.
  - simpl. now rewrite append_empty_r.
  - cbn [append_references str_concat]. unfold bind at 1, get_references.
    unfold ret at 1. rewrite IH. now rewrite append_assoc.
  - cbn [append_references str_concat]. unfold bind at 1, get_references.
    rewrite Hf, Hload. unfold ret at 1. rewrite IH. now rewrite append_assoc.
Qed.

Lemma append_references_missing (h : host) (refs : list pyval) (texts : list string)
    (f : string) (others : list pyval) :
  Forall2 (readable h) refs texts ->
  os_path_exists h f = false ->
  forall (contents : string) (st : compiler),
    append_references h contents (refs ++ PStr f :: others) st = (Raise TypeError, st).
Proof.
  intros Hrefs Hf.
  induction Hrefs as [|ref text refs texts [[-> ->] | (g & -> & Hg & Hload)] _ IH];
    intros contents st.
  - cbn [app append_references]. unfold bind, get_references. now rewrite Hf.
  - cbn [app append_references]. unfold bind at 1, get_references.
    unfold ret at 1. apply IH.
  - cbn [app append_references]. unfold bind at 1, get_references.
    rewrite Hg, Hload. unfold ret at 1. apply IH.
Qed.

Lemma get_contents_source (h : host) (vw : view) (wholefile : bool) (st : compiler)
    (k : string -> M string) :
  wholefile = true \/ view_sel vw <> [] ->
  (let* contents :=
     (if negb wholefile then
        match view_sel vw with
        | first :: _ =>
            ret (if has_nonspace (substr vw first) then substr vw first
                 else substr vw (O, view_size vw))
        | [] => raise IndexError
        end
      else ret (substr vw (O, view_size vw))) in
   k contents) st
  = k (source_text vw wholefile) st.
Proof.
  intros Hsel. unfold source_text. rewrite substr_whole.
  destruct wholefile; [reflexivity |]. simpl.
  destruct Hsel as [Hw | Hsel]; [discriminate Hw |].
  destruct (view_sel vw); [congruence | reflexivity].
Qed.

(** X6.  With the stripping of front matter and of critic marks switched
    off, [get_contents] returns the source text (the selection or the whole
    document) followed by the contents of the reference files, in the order
    of the list, with nothing between them; the compiler object is left as it
    was. *)
Theorem get_contents_appends_references
    (h : host) (vw : view) (wholefile : bool) (st : compiler)
    (b : list (string * pyval)) (refs : list pyval) (texts : list string) :
  wholefile = true \/ view_sel vw <> [] ->
  truthy (sget (settings st) "strip_yaml_front_matter" PNone) = false ->
  sget (settings st) "builtin" PNone = PDict b ->
  assoc "references" b = Some (PList refs) ->
  Forall2 (readable h) refs texts ->
  is_str "accept" (sget (settings st) "strip_critic_marks" (PStr "accept")) = false ->
  is_str "reject" (sget (settings st) "strip_critic_marks" (PStr "accept")) = false ->
  get_contents h vw wholefile st
  = (Ret (source_text vw wholefile ++ str_concat texts), st).
Proof.
  intros Hsel Hstrip Hbuiltin Hrefs Hread Hacc Hrej.
  unfold get_contents. rewrite (get_contents_source h vw wholefile st _ Hsel).
  unfold bind at 1, settings_get at 1. rewrite Hstrip.
  unfold bind at 1, ret at 1.
  unfold bind at 1, settings_get at 1. rewrite Hbuiltin.
  unfold bind at 1, lift at 1, dict_get. rewrite Hrefs.
  unfold bind at 1, lift at 1. cbn [py_iter].
  unfold bind at 1. rewrite (append_references_readable h refs texts Hread).
  unfold bind at 1, settings_get at 1. rewrite Hacc, Hrej. reflexivity.
Qed.

Lemma get_contents_appends_references_witness :
  let refs := [PNone; PStr "/doc/links.md"] in
  get_contents sample_reference_host sample_selection false
    (fresh (sample_reference_conf refs))
  = (Ret ("# Doc" ++ "[1]: http://example.org" ++ nl),
     fresh (sample_reference_conf refs)).
Proof.
  intros refs.
  rewrite (get_contents_appends_references sample_reference_host
             sample_selection false (fresh (sample_reference_conf refs))
             [("references", PList refs)] refs
             [EmptyString; "[1]: http://example.org" ++ nl]).
  - reflexivity.
  - right. discriminate.
  - reflexivity.
  - reflexivity.
  - reflexivity.
  - constructor; [left; split; reflexivity |].
    constructor; [| constructor].
    right. exists "/doc/links.md". repeat split; reflexivity.
  - reflexivity.
  - reflexivity.
Defined.

(** X7.  A reference file that does not exist is not skipped: [get_references]
    calls the one-parameter [log] with two arguments, so [get_contents] ends
    in [TypeError], whatever the references after it and even though those
    before it were read; nothing is logged. *)
Theorem get_contents_missing_reference_raises
    (h : host) (vw : view) (wholefile : bool) (st : compiler)
    (b : list (string * pyval)) (refs others : list pyval) (texts : list string)
    (f : string) :
  wholefile = true \/ view_sel vw <> [] ->
  truthy (sget (settings st) "strip_yaml_front_matter" PNone) = false ->
  sget (settings st) "builtin" PNone = PDict b ->
  assoc "references" b = Some (PList (refs ++ PStr f :: others)) ->
  Forall2 (readable h) refs texts ->
  os_path_exists h f = false ->
  get_contents h vw wholefile st = (Raise TypeError, st).
Proof.
  intros Hsel Hstrip Hbuiltin Hrefs Hread Hf.
  unfold get_contents. rewrite (get_contents_source h vw wholefile st _ Hsel).
  unfold bind at 1, settings_get at 1. rewrite Hstrip.
  unfold bind at 1, ret at 1.
  unfold bind at 1, settings_get at 1. rewrite Hbuiltin.
  unfold bind at 1, lift at 1, dict_get. rewrite Hrefs.
  unfold bind at 1, lift at 1. cbn [py_iter].
  unfold bind at 1.
  now rewrite (append_references_missing h refs texts f others Hread Hf).
Qed.

Lemma get_contents_missing_reference_raises_witness :
  let refs := [PStr "/doc/links.md"; PStr "/doc/gone.md"; PStr "/doc/links.md"] in
  get_contents sample_reference_host sample_selection true
    (fresh (sample_reference_conf refs))
  = (Raise TypeError, fresh (sample_reference_conf refs)).
Proof.
  intros refs.
  apply (get_contents_missing_reference_raises sample_reference_host
           sample_selection true (fresh (sample_reference_conf refs))
           [("references", PList refs)] [PStr "/doc/links.md"]
           [PStr "/doc/links.md"] ["[1]: http://example.org" ++ nl] "/doc/gone.md").
  - now left.
  - reflexivity.
  - reflexivity.
  - reflexivity.
  - constructor; [| constructor].
    right. exists "/doc/links.md". repeat split; reflexivity.
  - reflexivity.
Defined.

(** ** The meta elements *)

Lemma str_list_texts_of (l : list pyval) :
  forallb is_text l = true -> str_list l = Ret (texts_of l).
Proof.
  induction l as [|v l IH]; simpl; intros Hok; [reflexivity |].
  apply andb_prop in Hok as [Hv Hl].
  destruct v; try discriminate Hv. now rewrite (IH Hl).
Qed.

Lemma get_meta_loop_tags (h : host) (items : list (string * pyval)) :
  meta_ok items = true ->
  forall (meta : list string) (st : compiler),
    fst (get_meta_loop h items meta st) = Ret (meta ++ meta_tags h items)%list.
Proof.
  induction items as [|[k v] items IH]; intros Hok meta st.
  - simpl. now rewrite app_nil_r.
  - simpl in Hok. apply andb_prop in Hok as [Hv Hrest].
    cbn [get_meta_loop meta_tags].
    destruct (String.eqb (lower k) "title").
    + unfold bind at 1, set_meta_title at 1. apply (IH Hrest).
    + simpl in Hv. destruct v as [ | b | z | s | l | d ]; try discriminate Hv.
      * unfold bind at 1, ret at 1. apply (IH Hrest).
      * unfold bind at 1, ret at 1. rewrite (IH Hrest).
        now rewrite <- app_assoc.
      * unfold bind at 1. unfold bind at 1, lift at 1.
        rewrite (str_list_texts_of l Hv). unfold ret at 1.
        rewrite (IH Hrest). now rewrite <- app_assoc.
Qed.

(** X8.  [get_meta] returns one [meta] element per item of the meta data, in
    the order of the dict and separated by newlines, with the name and the
    content escaped, quotes included; an item whose key is [title] in any
    letter case and an item whose value is [None] give no element, and a list
    of texts is joined with commas. *)
Theorem get_meta_renders_items
    (h : host) (st : compiler) (items : list (string * pyval)) :
  sget (settings st) "meta" (PDict []) = PDict items ->
  meta_ok items = true ->
  fst (get_meta h st) = Ret (join nl (meta_tags h items)).
Proof.
  intros Hmeta Hok. unfold get_meta.
  unfold bind at 1, set_meta_title at 1.
  unfold bind at 1, settings_get at 1. cbn [settings]. rewrite Hmeta.
  unfold bind.
  pose proof (get_meta_loop_tags h items Hok []
                (Compiler (settings st) (Some None) (pygments_style st) (console st)))
    as Hloop.
  destruct (get_meta_loop h items [] _) as [[tags|e] st']; simpl in Hloop;
    [| discriminate Hloop].
  injection Hloop as ->. reflexivity.
Qed.

Lemma get_meta_renders_items_witness :
  let h := sample_host no_network no_process no_files ∅ base_conf in
  fst (get_meta h sample_meta)
  = Ret ("<meta name=" ++ dq ++ "author" ++ dq ++ " content=" ++ dq ++ "A,B" ++ dq ++ ">"
         ++ nl
         ++ "<meta name=" ++ dq ++ "keywords" ++ dq ++ " content=" ++ dq ++ "a&lt;b"
         ++ dq ++ ">").
Proof.
  intros h.
  rewrite (get_meta_renders_items h sample_meta
             [("author", PList [PStr "A"; PStr "B"]); ("Title", PStr "Notes");
              ("draft", PNone); ("keywords", PStr "a<b")]);
    reflexivity.
Defined.

(** ** More on header ids *)

(** X9.  Header-id injection numbers headings by slug: a heading whose slug is
    not empty and which comes after [n] headings with the same slug gets the
    plain slug when [n] is zero and the slug, a dash and [n] otherwise; its
    text and its tags are kept, and what comes before it in the output is
    what the injection makes of the fragment before it. *)
Theorem inject_header_id_numbers_by_slug
    (h : host) (html : string) (pre post : list token) (m : rmatch) :
  scan RE_HEADER html = (pre ++ TMatch m :: post)%list ->
  slug_of h m <> EmptyString ->
  let slug := slug_of h m in
  let n := slug_count h slug pre in
  postprocess_inject_header_id h html =
    rendered h ∅ pre ++ with_id m (numbered_id slug n)
    ++ rendered h (<[slug := Z.of_nat (S n)]> (unique_after h ∅ pre)) post.
Proof.
  intros Hscan Hslug slug n.
  unfold postprocess_inject_header_id, re_sub_st. rewrite Hscan.
  rewrite sub_tokens_app. cbn [snd]. fold (rendered h ∅ pre).
  fold (unique_after h ∅ pre). f_equal.
  rewrite sub_tokens_match. cbn [snd].
  rewrite (inject_id_same h _ m Hslug). cbn [fst snd]. fold slug.
  pose proof (unique_after_count h slug pre Hslug ∅) as Hcount. fold n in Hcount.
  unfold seen, numbered_id. rewrite Hcount.
  destruct n as [|k].
  - rewrite lookup_empty. reflexivity.
  - unfold seen. rewrite lookup_empty.
    replace (0 + Z.of_nat (S k) + 1) with (Z.of_nat (S (S k))) by lia.
    replace (0 + Z.of_nat (S k)) with (Z.of_nat (S k)) by lia.
    reflexivity.
Qed.

Lemma inject_header_id_numbers_by_slug_witness :
  let h := sample_host no_network no_process no_files ∅ base_conf in
  postprocess_inject_header_id h sample_three_headings
  = "<h1 id=" ++ dq ++ "intro" ++ dq ++ ">Intro</h1>"
    ++ "<h2 id=" ++ dq ++ "intro-1" ++ dq ++ ">Intro</h2>"
    ++ "<h3 id=" ++ dq ++ "intro-2" ++ dq ++ ">Intro</h3>".
Proof.
  intros h.
  rewrite (inject_header_id_numbers_by_slug h sample_three_headings
             [TMatch (RMatch "<h1>Intro</h1>"
                        [("close", "</h1>"); ("text", "Intro"); ("open", "<h1>");
                         ("2", "1")]
                        "<h2>Intro</h2><h3>Intro</h3>");
              TMatch (RMatch "<h2>Intro</h2>"
                        [("close", "</h2>"); ("text", "Intro"); ("open", "<h2>");
                         ("2", "2")]
                        "<h3>Intro</h3>")]
             [] sample_heading_3).
  - vm_compute. reflexivity.
  - vm_compute. reflexivity.
  - vm_compute. discriminate.
Defined.

Lemma take_drop_str (n : nat) (s : string) : take_str n s ++ drop_str n s = s.
Proof.
  revert s. induction n as [|n IH]; intros s; [reflexivity |].
  destruct s as [|c s]; [reflexivity |].
  cbn [take_str drop_str]. rewrite append_cons. now rewrite IH.
Qed.

Lemma length_take_str (n : nat) (s : string) :
  (n <= String.length s)%nat -> String.length (take_str n s) = n.
Proof.
  revert s. induction n as [|n IH]; intros s Hn; [reflexivity |].
  destruct s as [|c s]; simpl in *; [lia |]. rewrite IH; lia.
Qed.

(** A match is a prefix of the text it was found in. *)
Lemma match_at_whole (r : regex) (p : option ascii) (s : string) (m : rmatch) :
  match_at r p s = Some m ->
  whole m = take_str (String.length (whole m)) s.
Proof.
  unfold match_at. destruct (re_run r (MState p s []) Some) as [st|]; [| discriminate].
  intros [= <-]. cbn [whole].
  set (n := (String.length s - String.length (rest st))%nat).
  rewrite length_take_str by lia. reflexivity.
Qed.

(** The tokens of a text stand for what is left of it once [skip] characters
    of a match are passed. *)
Lemma flatten_scan_from (r : regex) (s : string) :
  forall (p : option ascii) (skip : nat),
    flatten (scan_from r p s skip) = drop_str skip s.
Proof.
  induction s as [|c s IH]; intros p skip.
  - now destruct skip.
  - cbn [scan_from]. destruct skip as [|n].
    + destruct (match_at r p (String c s)) as [m|] eqn:Hm.
      * pose proof (match_at_whole r p _ m Hm) as Hwhole.
        destruct (String.length (whole m)) as [|n] eqn:Hlen.
        -- cbn [flatten]. rewrite IH. rewrite Hwhole. reflexivity.
        -- cbn [flatten]. rewrite IH. rewrite Hwhole. cbn [take_str].
           rewrite append_cons. now rewrite take_drop_str.
      * cbn [flatten]. now rewrite IH.
    + rewrite IH. reflexivity.
Qed.

Lemma sub_tokens_empty_slugs (h : host) (ts : list token) :
  all_slugs_empty h ts = true ->
  forall unique, sub_tokens (inject_id h) unique ts = (unique, flatten ts).
Proof.
  induction ts as [|[c|m] ts IH]; intros Hall unique; [reflexivity | |].
  - cbn [sub_tokens flatten]. now rewrite (IH Hall).
  - cbn [all_slugs_empty] in Hall. apply andb_prop in Hall as [Hm Hrest].
    cbn [sub_tokens flatten]. unfold inject_id at 1. fold (slug_of h m).
    rewrite Hm. now rewrite (IH Hrest).
Qed.

(** X10.  A heading whose slug is empty is left as it stands, and where every
    heading of the fragment is such a heading, or there is none, the fragment
    comes back unchanged, character for character. *)
Theorem inject_header_id_keeps_empty_slugs (h : host) (html : string) :
  all_slugs_empty h (scan RE_HEADER html) = true ->
  postprocess_inject_header_id h html = html.
Proof.
  intros Hall. unfold postprocess_inject_header_id, re_sub_st.
  rewrite (sub_tokens_empty_slugs h _ Hall). cbn [snd].
  unfold scan. now rewrite flatten_scan_from.
Qed.

Lemma inject_header_id_keeps_empty_slugs_witness :
  let h := sample_host no_network no_process no_files ∅ base_conf in
  postprocess_inject_header_id h "<p>a</p><h2></h2><p>b</p>"
  = "<p>a</p><h2></h2><p>b</p>".
Proof.
  intros h.
  apply (inject_header_id_keeps_empty_slugs h "<p>a</p><h2></h2><p>b</p>").
  vm_compute. reflexivity.
Defined.

(** ** A fragment that is not a text *)

(** Case analysis on every test a computation makes, until it has ended. *)
Ltac run_out :=
  repeat match goal with
         | |- context [match ?x with _ => _ end] =>
             lazymatch x with
             | context [match _ with _ => _ end] => fail
             | _ => destruct x; cbn [fst snd expect_str]
             end
         end.

Lemma postprocess_non_text (h : host) (cls : compiler_class) (v : pyval)
    (st : compiler) :
  is_text v = false ->
  (exists e, fst (parser_specific_postprocess h cls v st) = Raise e)
  \/ fst (parser_specific_postprocess h cls v st) = Ret v.
Proof.
  intros Hv. unfold parser_specific_postprocess, bind, settings_get, lift, ret.
  destruct v; try discriminate Hv; destruct cls as [[|]| |]; cbn [expect_str];
    run_out; eauto.
Qed.

Lemma pathconverter_non_text (h : host) (vw : view) (preview : bool) (v : pyval)
    (image_convert file_convert absolute : bool) (st : compiler) :
  is_text v = false ->
  exists e, fst (postprocessor_pathconverter h vw preview v
                   image_convert file_convert absolute st) = Raise e.
Proof.
  intros Hv. unfold postprocessor_pathconverter, bind, settings_get, lift, ret.
  destruct v; try discriminate Hv; cbn [expect_str]; run_out; eauto.
Qed.

Lemma base64_non_text (h : host) (v : pyval) (st : compiler) :
  is_text v = false -> exists e, fst (postprocessor_base64 h v st) = Raise e.
Proof.
  intros Hv. unfold postprocessor_base64, bind, settings_get, lift, ret.
  destruct v; try discriminate Hv; cbn [expect_str]; run_out; eauto.
Qed.

Lemma simple_non_text (h : host) (v : pyval) (st : compiler) :
  is_text v = false -> exists e, fst (postprocessor_simple h v st) = Raise e.
Proof.
  intros Hv. unfold postprocessor_simple, bind, lift, ret.
  destruct v; try discriminate Hv; cbn [expect_str]; eauto.
Qed.

(** Through [convert_markdown] a value that is not a text either makes a
    stage raise or comes out as it went in, and then no stage was due. *)
Lemma convert_markdown_non_text
    (h : host) (vw : view) (preview : bool) (cls : compiler_class)
    (markdown_text : string) (st st1 : compiler) (v : pyval) :
  parser_specific_convert h cls markdown_text st = (Ret v, st1) ->
  is_text v = false ->
  match convert_markdown h vw preview cls markdown_text st with
  | (Raise _, s) => s = st1
  | (Ret v', s) =>
      v' = v /\ s = st1
      /\ truthy (sget (settings st1) "html_simple" (PBool false)) = false
  end.
Proof.
  intros Hconv Hv. unfold convert_markdown. unfold bind at 1. rewrite Hconv.
  unfold bind at 1, settings_get at 1. unfold bind at 1, settings_get at 1.
  rewrite bind_reads_only by apply reads_only_postprocess.
  destruct (postprocess_non_text h cls v st1 Hv) as [[e ->] | ->]; [reflexivity |].
  destruct (is_str "absolute" _ || is_str "absolute" _).
  { rewrite bind_reads_only by apply reads_only_pathconverter.
    destruct (pathconverter_non_text h vw preview v
                (is_str "absolute" (sget (settings st1) "image_path_conversion"
                                         (PStr "absolute")))
                (is_str "absolute" (sget (settings st1) "file_path_conversions"
                                         (PStr "absolute")))
                true st1 Hv) as [e ->].
    reflexivity. }
  unfold bind at 1, ret at 1.
  destruct (is_str "relative" _ || is_str "relative" _).
  { rewrite bind_reads_only by apply reads_only_pathconverter.
    destruct (pathconverter_non_text h vw preview v
                (is_str "relative" (sget (settings st1) "image_path_conversion"
                                         (PStr "absolute")))
                (is_str "relative" (sget (settings st1) "file_path_conversions"
                                         (PStr "absolute")))
                false st1 Hv) as [e ->].
    reflexivity. }
  unfold bind at 1, ret at 1.
  destruct (is_str "base64" _).
  { rewrite bind_reads_only by apply reads_only_base64.
    destruct (base64_non_text h v st1 Hv) as [e ->]. reflexivity. }
  unfold bind at 1, ret at 1.
  unfold bind at 1, settings_get at 1.
  destruct (truthy (sget (settings st1) "html_simple" (PBool false))) eqn:Hs.
  - pose proof (reads_only_simple h v st1) as Hst.
    destruct (simple_non_text h v st1 Hv) as [e He].
    destruct (postprocessor_simple h v st1) as [r s']. simpl in *. now subst.
  - unfold ret. now repeat split.
Qed.

Lemma assemble_non_text (h : host) (vw : view) (cls : compiler_class) (v : pyval)
    (st : compiler) :
  is_text v = false ->
  truthy (sget (settings st) "html_simple" (PBool false)) = false ->
  exists e, fst (assemble h vw cls v st) = Raise e.
Proof.
  intros Hv Hs. unfold assemble, bind, settings_get, lift, ret.
  destruct (truthy (sget (settings st) "html_template" PNone));
    [destruct (expect_str _); cbn [fst snd truthy expect_str]; [| eauto] |];
    rewrite Hs;
    destruct v; try discriminate Hv; cbn [expect_str]; run_out; eauto.
Qed.

(** X11.  A fragment that is not a text never becomes a document: when
    [parser_specific_convert] returns [None] (the [curl] fallback) or any
    other value that is not a text (a JSON answer whose [html] is not a text),
    [run] does not return; it ends in an exception of a postprocessor or of
    the assembly. *)
Theorem run_raises_on_non_text
    (h : host) (vw : view) (preview : bool) (cls : compiler_class)
    (wholefile : bool) (st st1 st2 : compiler) (contents : string) (v : pyval) :
  get_contents h vw wholefile (prepared h vw st) = (Ret contents, st1) ->
  parser_specific_convert h cls contents st1 = (Ret v, st2) ->
  is_text v = false ->
  exists e, fst (run h vw preview cls wholefile st) = Raise e.
Proof.
  intros Hcontents Hconv Hv.
  unfold run. unfold bind at 1, set_settings at 1. fold (prepared h vw st).
  unfold bind at 1. rewrite Hcontents. unfold bind at 1.
  pose proof (convert_markdown_non_text h vw preview cls contents st1 st2 v Hconv Hv)
    as Hbody.
  destruct (convert_markdown h vw preview cls contents st1) as [[v'|e] s];
    [| eauto].
  destruct Hbody as (-> & -> & Hs).
  apply (assemble_non_text h vw cls v st2 Hv Hs).
Qed.

Lemma run_raises_on_non_text_witness :
  let h := sample_host no_network curl_raises no_files ∅ base_conf in
  exists e, fst (run h sample_blank_selection true (OnlineCompiler Github) true
                   (fresh ∅)) = Raise e.
Proof.
  intros h.
  eapply (run_raises_on_non_text h sample_blank_selection true (OnlineCompiler Github)
            true (fresh ∅)).
  - vm_compute. reflexivity.
  - vm_compute. reflexivity.
  - reflexivity.
Defined.

(** ** The custom template *)

Lemma startswith_self (old b : string) : startswith old (old ++ b) = true.
Proof.
  induction old as [|c old IH]; [reflexivity |].
  rewrite append_cons. simpl. now rewrite Ascii.eqb_refl.
Qed.

Lemma drop_str_append (a b : string) : drop_str (String.length a) (a ++ b) = b.
Proof. induction a as [|c a IH]; [reflexivity | now rewrite append_cons]. Qed.

Lemma replace1_unfold (old new s : string) :
  replace1 old new s =
    if startswith old s then new ++ drop_str (String.length old) s
    else match s with
         | String c s' => String c (replace1 old new s')
         | EmptyString => EmptyString
         end.
Proof. now destruct s. Qed.

(** [s.replace(old, new, 1)] rewrites the first occurrence of [old], and that
    one only. *)
Lemma replace1_first (old new b : string) (a : string) :
  occurs_before old a (old ++ b) = false ->
  replace1 old new (a ++ old ++ b) = a ++ new ++ b.
Proof.
  induction a as [|c a IH]; intros Hfirst.
  - change (EmptyString ++ old ++ b) with (old ++ b).
    rewrite replace1_unfold, startswith_self, drop_str_append. reflexivity.
  - cbn [occurs_before] in Hfirst. apply orb_false_elim in Hfirst as [Hhere Hrest].
    rewrite replace1_unfold. rewrite Hhere. rewrite !append_cons.
    now rewrite (IH Hrest).
Qed.

(** X12.  With simple output disabled and a custom template that exists,
    [run] reads the template and substitutes the head for the first
    [{{ HEAD }}] and then the body for the first [{{ BODY }}] of the result:
    for a template with one placeholder after the other, and a head that does
    not itself bring a body placeholder before it, the full HTML is the
    template with the two placeholders filled in, the rest being kept as it
    is. *)
Theorem run_fills_template
    (h : host) (vw : view) (preview : bool) (cls : compiler_class)
    (wholefile : bool) (st st2 st3 : compiler) (b head p a m c : string) :
  (let* contents := get_contents h vw wholefile in
   convert_markdown h vw preview cls contents) (prepared h vw st)
  = (Ret (PStr b), st2) ->
  truthy (sget (settings st2) "html_simple" (PBool false)) = false ->
  template_path h (sget (settings st2) "html_template" PNone) = Some p ->
  os_path_exists h p = true ->
  head_parts h vw cls st2 = (Ret head, st3) ->
  load_utf8 h p = Ret (a ++ "{{ HEAD }}" ++ m ++ "{{ BODY }}" ++ c) ->
  occurs_before "{{ HEAD }}" a ("{{ HEAD }}" ++ m ++ "{{ BODY }}" ++ c) = false ->
  occurs_before "{{ BODY }}" (a ++ head ++ m) ("{{ BODY }}" ++ c) = false ->
  run h vw preview cls wholefile st
  = (Ret (PStr (a ++ head ++ m ++ b ++ c), PStr b), st3).
Proof.
  intros Hbody Hs Hpath Hexists Hhead Hload Hfirst_head Hfirst_body.
  assert (Hrun : run h vw preview cls wholefile st = assemble h vw cls (PStr b) st2).
  { unfold run. unfold bind at 1. unfold set_settings at 1.
    fold (prepared h vw st).
    unfold bind at 1 in Hbody. unfold bind at 1.
    destruct (get_contents h vw wholefile (prepared h vw st)) as [[contents|e] st1];
      [| discriminate Hbody].
    unfold bind at 1. now rewrite Hbody. }
  rewrite Hrun. clear Hrun Hbody.
  unfold assemble, bind, settings_get, lift, ret.
  unfold template_path in Hpath.
  destruct (sget (settings st2) "html_template" PNone)
    as [ | | | [|x t] | | ]; try discriminate Hpath.
  cbn [truthy String.eqb negb expect_str]. rewrite Hs.
  destruct (os_path_abspath h (os_path_expanduser h (String x t))) as [|y q];
    [discriminate Hpath |].
  injection Hpath as <-.
  cbn [truthy String.eqb negb expect_str]. rewrite Hexists, Hhead, Hload.
  cbn [expect_str].
  rewrite (replace1_first "{{ HEAD }}" head _ a Hfirst_head).
  replace (a ++ head ++ m ++ "{{ BODY }}" ++ c)
    with ((a ++ head ++ m) ++ "{{ BODY }}" ++ c)
    by (now rewrite !append_assoc).
  rewrite (replace1_first "{{ BODY }}" b c _ Hfirst_body).
  now rewrite !append_assoc.
Qed.

Lemma run_fills_template_witness :
  fst (run sample_template_host sample_blank_selection false MarkdownCompiler true
         (fresh ∅))
  = Ret (PStr ("<html><head>" ++ "<style>.c {}</style><title>Draft</title>"
               ++ "</head><body class='{{x}}'>"
               ++ "[absolute]<p>  # Doc</p>" ++ "</body></html>"),
         PStr "[absolute]<p>  # Doc</p>").
Proof.
  erewrite (run_fills_template sample_template_host sample_blank_selection false
              MarkdownCompiler true (fresh ∅) _ _
              "[absolute]<p>  # Doc</p>"
              "<style>.c {}</style><title>Draft</title>"
              "/doc/page.html" "<html><head>" "</head><body class='{{x}}'>"
              "</body></html>").
  - reflexivity.
  - vm_compute. reflexivity.
  - reflexivity.
  - reflexivity.
  - reflexivity.
  - vm_compute. reflexivity.
  - reflexivity.
  - reflexivity.
  - reflexivity.
Defined.

(** ** The commands *)

(** X13.  The commands choose the compiler by name: [github], [gitlab] and
    [markdown] give their compiler whatever the [enabled_parsers] setting
    holds (so the setting cannot switch them off, and a binary of such a name
    is never used); any other name gives the external compiler of that name
    when the list of enabled parsers has it, and the Python Markdown compiler
    otherwise. *)
Theorem command_compiler_by_name
    (h : host) (parser : string) (enabled : list pyval) :
  sget (sublime_settings h) "enabled_parsers" default_enabled_parsers = PList enabled ->
  command_compiler h parser =
    Ret (if String.eqb parser "github" then OnlineCompiler Github
         else if String.eqb parser "gitlab" then OnlineCompiler Gitlab
         else if String.eqb parser "markdown" then MarkdownCompiler
         else if existsb (is_str parser) enabled then ExternalMarkdownCompiler parser
         else MarkdownCompiler)
  /\ (builtin_parser parser = true ->
      forall h', command_compiler h' parser = command_compiler h parser)
  /\ (forall p, command_compiler h parser = Ret (ExternalMarkdownCompiler p) ->
      p = parser /\ builtin_parser parser = false
      /\ existsb (is_str parser) enabled = true).
Proof.
  intros Henabled.
  assert (Hsel : command_compiler h parser =
    Ret (if String.eqb parser "github" then OnlineCompiler Github
         else if String.eqb parser "gitlab" then OnlineCompiler Gitlab
         else if String.eqb parser "markdown" then MarkdownCompiler
         else if existsb (is_str parser) enabled then ExternalMarkdownCompiler parser
         else MarkdownCompiler)).
  { unfold command_compiler. rewrite Henabled. cbn [compiler_name py_in_str].
    destruct (String.eqb parser "github"); [reflexivity |].
    destruct (String.eqb parser "gitlab"); [reflexivity |].
    destruct (String.eqb parser "markdown"); [reflexivity |].
    now destruct (existsb (is_str parser) enabled). }
  split; [exact Hsel | split].
  - unfold builtin_parser, command_compiler. cbn [compiler_name]. intros Hb h'.
    destruct (String.eqb parser "github"); [reflexivity |].
    destruct (String.eqb parser "gitlab"); [reflexivity |].
    destruct (String.eqb parser "markdown"); [reflexivity | discriminate Hb].
  - intros p. rewrite Hsel. unfold builtin_parser.
    destruct (String.eqb parser "github"); [discriminate |].
    destruct (String.eqb parser "gitlab"); [discriminate |].
    destruct (String.eqb parser "markdown"); [discriminate |].
    destruct (existsb (is_str parser) enabled); [| discriminate].
    intros [= <-]. now repeat split.
Qed.

Lemma command_compiler_by_name_witness :
  let h := sample_host no_network no_process no_files sample_enabled base_conf in
  command_compiler h "multimarkdown" = Ret (ExternalMarkdownCompiler "multimarkdown")
  /\ command_compiler h "pandoc" = Ret MarkdownCompiler
  /\ command_compiler h "gitlab" = Ret (OnlineCompiler Gitlab).
Proof.
  intros h.
  assert (Hen : sget (sublime_settings h) "enabled_parsers" default_enabled_parsers
                = PList [PStr "markdown"; PStr "multimarkdown"]) by reflexivity.
  split; [| split].
  - destruct (command_compiler_by_name h "multimarkdown" _ Hen) as [-> _].
    reflexivity.
  - destruct (command_compiler_by_name h "pandoc" _ Hen) as [-> _]. reflexivity.
  - destruct (command_compiler_by_name h "gitlab" _ Hen) as [-> _]. reflexivity.
Defined.

(** X14.  A parser that is enabled but has no entry in the binary map makes
    the command fail: the external compiler is chosen for it and, once the
    source text has been prepared, [run] ends in [KeyError] for the name
    instead of reporting a missing binary. *)
Theorem command_with_unmapped_parser_raises
    (h : host) (vw : view) (preview wholefile : bool) (parser contents : string)
    (st st1 : compiler) (enabled : list pyval) (d : list (string * pyval)) :
  sget (sublime_settings h) "enabled_parsers" default_enabled_parsers = PList enabled ->
  builtin_parser parser = false ->
  existsb (is_str parser) enabled = true ->
  sget (sublime_settings h) "markdown_binary_map" (PDict []) = PDict d ->
  assoc parser d = None ->
  get_contents h vw wholefile (prepared h vw st) = (Ret contents, st1) ->
  exists cls,
    command_compiler h parser = Ret cls
    /\ run h vw preview cls wholefile st = (Raise (KeyError parser), st1).
Proof.
  intros Henabled Hbuiltin Hlisted Hmap Hname Hcontents.
  exists (ExternalMarkdownCompiler parser). split.
  - unfold command_compiler. rewrite Henabled. cbn [compiler_name py_in_str].
    unfold builtin_parser in Hbuiltin.
    apply orb_false_elim in Hbuiltin as [Hb Hmd].
    apply orb_false_elim in Hb as [Hgh Hgl].
    now rewrite Hgh, Hgl, Hmd, Hlisted.
  - unfold run. unfold bind at 1, set_settings at 1. fold (prepared h vw st).
    unfold bind at 1. rewrite Hcontents.
    unfold bind at 1, convert_markdown. unfold bind at 1.
    cbn [parser_specific_convert].
    now rewrite (external_absent_name_raises h parser contents st1 d Hmap Hname).
Qed.

Lemma command_with_unmapped_parser_raises_witness :
  let h := sample_host no_network no_process no_files sample_enabled base_conf in
  exists cls,
    command_compiler h "multimarkdown" = Ret cls
    /\ run h sample_blank_selection true cls false (fresh ∅)
       = (Raise (KeyError "multimarkdown"), fresh base_conf).
Proof.
  intros h.
  apply (command_with_unmapped_parser_raises h sample_blank_selection true false
           "multimarkdown" "  # Doc" (fresh ∅) (fresh base_conf)
           [PStr "markdown"; PStr "multimarkdown"]
           [("pandoc", PList [PStr "/usr/bin/pandoc"; PStr "--mathjax"])]);
    reflexivity.
Defined.

(** X15.  What a target receives depends on [include_head] under the target's
    name, except for [disk], which is looked up as [browser]: the two targets
    always receive the same content, and listing [disk] in [include_head] has
    no effect. *)
Theorem command_content_disk_as_browser
    (h : host) (html body : pyval) (listed : list pyval) :
  sget (sublime_settings h) "include_head" default_include_head = PList listed ->
  command_content h "disk" html body = command_content h "browser" html body
  /\ command_content h "disk" html body
     = Ret (if existsb (is_str "browser") listed then html else body)
  /\ forall target,
       String.eqb target "disk" = false ->
       command_content h target html body
       = Ret (if existsb (is_str target) listed then html else body).
Proof.
  intros Hlisted. unfold command_content. rewrite Hlisted. cbn [py_in_str].
  repeat split.
  - cbn [String.eqb Ascii.eqb Bool.eqb].
    now destruct (existsb (is_str "browser") listed).
  - intros target ->. now destruct (existsb (is_str target) listed).
Qed.

Lemma command_content_disk_as_browser_witness :
  let h := sample_host no_network no_process no_files sample_enabled base_conf in
  command_content h "disk" (PStr "<html>b</html>") (PStr "b") = Ret (PStr "b")
  /\ command_content h "save" (PStr "<html>b</html>") (PStr "b")
     = Ret (PStr "<html>b</html>").
Proof.
  intros h.
  destruct (command_content_disk_as_browser h (PStr "<html>b</html>") (PStr "b")
              [PStr "disk"; PStr "save"] eq_refl) as (_ & Hdisk & Hother).
  split; [rewrite Hdisk; reflexivity |].
  rewrite (Hother "save" eq_refl). reflexivity.
Defined.

(** ** Front matter and the settings *)

(** X16.  With the stripping of front matter switched on, [get_contents]
    hands the front matter of the source text to the settings, also when it is
    empty, and goes on with the text that is left; the references and the
    critic mode are read from the settings as the front matter has changed
    them.  With critic stripping off, the result is the text left, followed
    by the reference files. *)
Theorem get_contents_applies_front_matter
    (h : host) (vw : view) (wholefile : bool) (st : compiler)
    (fm : list (string * pyval)) (left_text : string)
    (b : list (string * pyval)) (refs : list pyval) (texts : list string) :
  wholefile = true \/ view_sel vw <> [] ->
  truthy (sget (settings st) "strip_yaml_front_matter" PNone) = true ->
  preprocessor_yaml_frontmatter h (source_text vw wholefile) = (fm, left_text) ->
  let conf := apply_frontmatter h fm (settings st) in
  sget conf "builtin" PNone = PDict b ->
  assoc "references" b = Some (PList refs) ->
  Forall2 (readable h) refs texts ->
  is_str "accept" (sget conf "strip_critic_marks" (PStr "accept")) = false ->
  is_str "reject" (sget conf "strip_critic_marks" (PStr "accept")) = false ->
  get_contents h vw wholefile st
  = (Ret (left_text ++ str_concat texts), with_settings st conf).
Proof.
  intros Hsel Hstrip Hfm conf Hbuiltin Hrefs Hread Hacc Hrej.
  unfold get_contents. rewrite (get_contents_source h vw wholefile st _ Hsel).
  unfold bind at 1, settings_get at 1. rewrite Hstrip, Hfm.
  unfold bind at 1. unfold bind at 1, set_settings at 1. unfold ret at 1.
  fold conf. fold (with_settings st conf).
  unfold bind at 1, settings_get at 1. cbn [with_settings settings].
  rewrite Hbuiltin.
  unfold bind at 1, lift at 1, dict_get. rewrite Hrefs.
  unfold bind at 1, lift at 1. cbn [py_iter].
  unfold bind at 1. rewrite (append_references_readable h refs texts Hread).
  unfold bind at 1, settings_get at 1. cbn [with_settings settings].
  rewrite Hacc, Hrej. reflexivity.
Qed.

Lemma get_contents_applies_front_matter_witness :
  fst (get_contents sample_overlay_host sample_front_matter_view false
         (fresh sample_overlay_conf))
  = Ret ("# Body" ++ nl ++ "[1]: http://example.org" ++ nl).
Proof.
  rewrite (get_contents_applies_front_matter sample_overlay_host
             sample_front_matter_view false (fresh sample_overlay_conf)
             [("title", PStr "Foo")] ("# Body" ++ nl)
             [("references", PList [PStr "/doc/links.md"])]
             [PStr "/doc/links.md"] ["[1]: http://example.org" ++ nl]).
  - reflexivity.
  - right. discriminate.
  - reflexivity.
  - vm_compute. reflexivity.
  - reflexivity.
  - reflexivity.
  - constructor; [| constructor].
    right. exists "/doc/links.md". repeat split; reflexivity.
  - reflexivity.
  - reflexivity.
Defined.

(** ** The extensions of Python Markdown *)

Lemma dom_insert_names (table0 : gmap string pyval) (ext : string) (v : pyval)
    (rest : list string) :
  dom (<[ext := v]> table0) ∪ list_to_set rest
  =@{gset string} dom table0 ∪ list_to_set (ext :: rest).
Proof.
  rewrite dom_insert_L. cbn [list_to_set].
  rewrite (union_comm_L {[ext]} (dom table0)).
  now rewrite union_assoc_L.
Qed.

Lemma extensions_loop_names (base_path : pyval) (es : list pyval) :
  forall names0 table0 names table,
    extensions_loop base_path es names0 table0 = Ret (names, table) ->
    names = (names0 ++ entry_names es)%list
    /\ dom table =@{gset string} dom table0 ∪ list_to_set (entry_names es).
Proof.
  induction es as [|e es IH]; intros names0 table0 names table Hloop.
  - injection Hloop as <- <-. cbn [entry_names omap list_omap list_to_set].
    split; [now rewrite app_nil_r | now rewrite union_empty_r_L].
  - cbn [extensions_loop] in Hloop.
    destruct e as [ | b | z | ext | l | [|[ext value] more] ];
      try discriminate Hloop;
      try (apply IH in Hloop as [Hn Hd]; subst names; rewrite Hd;
           split; reflexivity).
    + apply IH in Hloop as [Hn Hd]. subst names. rewrite Hd.
      unfold entry_names. cbn [omap list_omap entry_name].
      split; [now rewrite <- app_assoc | apply dom_insert_names].
    + destruct (match value with PNone => PDict [] | _ => value end)
        as [ | | | | | items]; try discriminate Hloop.
      destruct (fill_base_path base_path items) as [items'|x]; [| discriminate Hloop].
      apply IH in Hloop as [Hn Hd]. subst names. rewrite Hd.
      unfold entry_names. cbn [omap list_omap entry_name].
      split; [now rewrite <- app_assoc | apply dom_insert_names].
Qed.

Lemma extensions_loop_filter (base_path : pyval) (es : list pyval) :
  forall names table,
    extensions_loop base_path (List.filter extension_entry es) names table
    = extensions_loop base_path es names table.
Proof.
  induction es as [|e es IH]; intros names table; [reflexivity |].
  destruct e as [ | b | z | ext | l | [|[ext value] more] ];
    cbn [List.filter extension_entry extensions_loop]; try apply IH;
    try reflexivity.
  - destruct (match value with PNone => PDict [] | _ => value end)
      as [ | | | | | items]; try reflexivity.
    destruct (fill_base_path base_path items) as [items'|x]; [apply IH | reflexivity].
Qed.

(** What [process_extensions] does before its loop ends in the base path, and
    the loop runs on what a [for] visits. *)
Lemma process_extensions_loop (h : host) (extensions : pyval) (st st' : compiler)
    (r : list string * gmap string pyval) :
  process_extensions h extensions st = (Ret r, st') ->
  exists base_path es,
    dict_get (sget (settings st) "builtin" PNone) "basepath" PNone = Ret base_path
    /\ py_iter extensions = Ret es
    /\ extensions_loop
         (match base_path with PNone => PStr EmptyString | _ => base_path end)
         es [] ∅ = Ret r.
Proof.
  unfold process_extensions.
  unfold bind at 1, set_pygments_style at 1.
  unfold bind at 1, settings_get at 1. cbn [settings].
  unfold bind at 1, settings_get at 1. cbn [settings].
  unfold bind at 1.
  match goal with
  | |- context [(if ?c then ?a else ?b) ?s] =>
      set (prepare := if c then a else b)
  end.
  assert (Hprep : forall s, settings s = settings st ->
            match prepare s with
            | (Ret _, s') => settings s' = settings st
            | (Raise _, _) => True
            end).
  { intros s Hs. unfold prepare.
    destruct (truthy _ && truthy _); [| exact Hs].
    unfold bind, settings_get, lift, set_pygments_style.
    destruct (pygments_css h _ _); [exact Hs | exact I]. }
  specialize (Hprep (Compiler (settings st) (meta_title st) None (console st)) eq_refl).
  destruct (prepare _) as [[[]|e] s1]; [| discriminate].
  unfold bind at 1, settings_get at 1. rewrite Hprep.
  unfold bind at 1, lift at 1.
  destruct (dict_get _ "basepath" PNone) as [base_path|e]; [| discriminate].
  unfold bind at 1, lift at 1.
  destruct (py_iter extensions) as [es|e]; [| discriminate].
  unfold lift. intros [= Hloop <-].
  exists base_path, es. now repeat split.
Qed.
Lemma process_extensions_filter (h : host) (es : list pyval) (st : compiler) :
  process_extensions h (PList (List.filter extension_entry es)) st
  = process_extensions h (PList es) st.
Proof.
  unfold process_extensions, bind, settings_get, lift, set_pygments_style, ret.
  cbn [py_iter settings].
  destruct (truthy _ && truthy _).
  - destruct (pygments_css h _ _); [| reflexivity].
    cbn [settings]. destruct (dict_get _ "basepath" PNone); [| reflexivity].
    now rewrite extensions_loop_filter.
  - cbn [settings]. destruct (dict_get _ "basepath" PNone); [| reflexivity].
    now rewrite extensions_loop_filter.
Qed.

(** X17.  When [process_extensions] returns, the names are those of the
    entries that are a text or a dict, in the order of the list and with
    repetitions, and the table of configs has exactly these names as its
    keys.  Entries that are neither a text nor a dict are passed over: with or
    without them the outcome is the same, an exception included. *)
Theorem process_extensions_names_configs
    (h : host) (es : list pyval) (st st' : compiler)
    (names : list string) (table : gmap string pyval) :
  process_extensions h (PList es) st = (Ret (names, table), st') ->
  names = entry_names es
  /\ dom table =@{gset string} list_to_set names
  /\ process_extensions h (PList (List.filter extension_entry es)) st
     = (Ret (names, table), st').
Proof.
  intros Hrun. split; [| split].
  - apply process_extensions_loop in Hrun as (base_path & l & _ & Hiter & Hloop).
    injection Hiter as <-.
    now apply extensions_loop_names in Hloop as [-> _].
  - apply process_extensions_loop in Hrun as (base_path & l & _ & Hiter & Hloop).
    injection Hiter as <-.
    apply extensions_loop_names in Hloop as [-> ->].
    rewrite dom_empty_L. now rewrite union_empty_l_L.
  - now rewrite process_extensions_filter.
Qed.

Lemma process_extensions_names_configs_witness :
  let h := sample_host no_network no_process no_files ∅ base_conf in
  let names := ["markdown.extensions.toc"; "pymdownx.snippets";
                "markdown.extensions.toc"] in
  exists table,
    fst (process_extensions h (PList sample_extensions) (fresh sample_basepath_conf))
    = Ret (names, table)
    /\ dom table =@{gset string} list_to_set names.
Proof.
  intros h names.
  edestruct (process_extensions_names_configs h sample_extensions
               (fresh sample_basepath_conf)) as (Hnames & Hdom & _).
  { vm_compute. reflexivity. }
  eexists. split; [| exact Hdom].
  vm_compute. reflexivity.
Defined.
Lemma extensions_loop_app (base_path : pyval) (pre post : list pyval) :
  forall names0 table0 r,
    extensions_loop base_path (pre ++ post) names0 table0 = Ret r ->
    exists names1 table1,
      extensions_loop base_path pre names0 table0 = Ret (names1, table1)
      /\ extensions_loop base_path post names1 table1 = Ret r.
Proof.
  induction pre as [|e pre IH]; intros names0 table0 r Hloop.
  - exists names0, table0. now split.
  - rewrite <- app_comm_cons in Hloop. cbn [extensions_loop] in Hloop |- *.
    destruct e as [ | b | z | ext | l | [|[ext value] more] ];
      try discriminate Hloop; try (now apply IH).
    destruct (match value with PNone => PDict [] | _ => value end)
      as [ | | | | | items]; try discriminate Hloop.
    destruct (fill_base_path base_path items) as [items'|x];
      [now apply IH | discriminate Hloop].
Qed.

Lemma extensions_loop_lookup (base_path : pyval) (es : list pyval) (ext : string) :
  forall names0 table0 names table,
    extensions_loop base_path es names0 table0 = Ret (names, table) ->
    ext ∉ entry_names es ->
    table !! ext = table0 !! ext.
Proof.
  induction es as [|e es IH]; intros names0 table0 names table Hloop Hext.
  - now injection Hloop as <- <-.
  - cbn [extensions_loop] in Hloop. unfold entry_names in Hext.
    destruct e as [ | b | z | x | l | [|[x value] more] ];
      cbn [omap list_omap entry_name] in Hext;
      try discriminate Hloop; try (now apply (IH _ _ _ _ Hloop)).
    + apply not_elem_of_cons in Hext as [Hne Hext].
      rewrite (IH _ _ _ _ Hloop Hext). now apply lookup_insert_ne.
    + apply not_elem_of_cons in Hext as [Hne Hext].
      destruct (match value with PNone => PDict [] | _ => value end)
        as [ | | | | | items]; try discriminate Hloop.
      destruct (fill_base_path base_path items) as [items'|e];
        [| discriminate Hloop].
      rewrite (IH _ _ _ _ Hloop Hext). now apply lookup_insert_ne.
Qed.

(** With a text as base path the loop over a config does not fail, and it
    changes the values that are texts, each under its key. *)
Lemma fill_base_path_text (base : string) (items : list (string * pyval)) :
  exists items',
    fill_base_path (PStr base) items = Ret items'
    /\ forall k,
         assoc k items'
         = match assoc k items with
           | Some (PStr s) => Some (PStr (replace_all BASE_PATH base s))
           | other => other
           end.
Proof.
  induction items as [|[k v] items (items' & Hfill & Hassoc)].
  - exists []. now split.
  - cbn [fill_base_path]. rewrite Hfill.
    destruct v as [ | b | z | s | l | d ]; cbn [replace_base_path];
      eexists; (split; [reflexivity |]); intros k0; cbn [assoc];
      rewrite Hassoc; now destruct (String.eqb k k0).
Qed.

Lemma replace_from_skip (old new x b : string) :
  replace_from old new (x ++ b) (String.length x) = replace_from old new b 0.
Proof.
  induction x as [|c x IH]; [reflexivity |].
  rewrite append_cons. exact IH.
Qed.

(** [s.replace(old, new)] rewrites the first occurrence of [old] and goes on
    behind it. *)
Lemma replace_all_first (old new b : string) (a : string) :
  old <> EmptyString ->
  occurs_before old a (old ++ b) = false ->
  replace_all old new (a ++ old ++ b) = a ++ new ++ replace_all old new b.
Proof.
  intros Hold. unfold replace_all.
  induction a as [|c a IH]; intros Hfirst.
  - change (EmptyString ++ old ++ b) with (old ++ b).
    destruct old as [|x old]; [congruence |].
    rewrite append_cons. cbn [replace_from].
    rewrite <- append_cons. rewrite startswith_self.
    cbn [String.length]. rewrite Nat.sub_succ, Nat.sub_0_r.
    now rewrite replace_from_skip.
  - cbn [occurs_before] in Hfirst. apply orb_false_elim in Hfirst as [Hhere Hrest].
    rewrite append_cons in *. cbn [replace_from]. rewrite Hhere.
    now rewrite (IH Hrest).
Qed.

(** A text without an occurrence of [old] is not changed. *)
Lemma replace_all_none (old new s : string) :
  contains old s = false -> replace_all old new s = s.
Proof.
  unfold replace_all. induction s as [|c s IH]; intros Hno; [reflexivity |].
  cbn [contains] in Hno. apply orb_false_elim in Hno as [Hhere Hrest].
  cbn [replace_from]. rewrite Hhere. now rewrite (IH Hrest).
Qed.

(** X18.  A config of an extension that is a dict has the placeholder
    [${BASE_PATH}] of its text values replaced by the base path of the
    settings, from the first occurrence on; values that are not texts, nested
    ones included, and texts without the placeholder are kept.  The table
    holds this config under the extension's name unless a later entry has the
    same name; keys of the entry's dict after the first are not looked at. *)
Theorem process_extensions_fills_base_path
    (h : host) (st st' : compiler) (pre post : list pyval)
    (more items b : list (string * pyval)) (ext k base a tail : string)
    (names : list string) (table : gmap string pyval) :
  process_extensions h
    (PList (pre ++ PDict ((ext, PDict items) :: more) :: post)) st
  = (Ret (names, table), st') ->
  ext ∉ entry_names post ->
  sget (settings st) "builtin" PNone = PDict b ->
  assoc "basepath" b = Some (PStr base) ->
  assoc k items = Some (PStr (a ++ BASE_PATH ++ tail)) ->
  occurs_before BASE_PATH a (BASE_PATH ++ tail) = false ->
  exists items',
    table !! ext = Some (PDict items')
    /\ assoc k items' = Some (PStr (a ++ base ++ replace_all BASE_PATH base tail))
    /\ (forall k' v, assoc k' items = Some v -> is_text v = false ->
                     assoc k' items' = Some v)
    /\ (forall k' s, assoc k' items = Some (PStr s) -> contains BASE_PATH s = false ->
                     assoc k' items' = Some (PStr s)).
Proof.
  intros Hrun Hlast Hbuiltin Hbase Hk Hfirst.
  apply process_extensions_loop in Hrun as (base_path & es & Hget & Hiter & Hloop).
  injection Hiter as <-.
  rewrite Hbuiltin in Hget. unfold dict_get in Hget. rewrite Hbase in Hget.
  injection Hget as <-.
  apply extensions_loop_app in Hloop as (names1 & table1 & _ & Hloop).
  cbn [extensions_loop] in Hloop.
  destruct (fill_base_path_text base items) as (items' & Hfill & Hassoc).
  rewrite Hfill in Hloop.
  exists items'. split; [| split; [| split]].
  - rewrite (extensions_loop_lookup _ _ ext _ _ _ _ Hloop Hlast).
    apply lookup_insert_eq.
  - rewrite Hassoc, Hk. now rewrite replace_all_first.
  - intros k' v Hv Htext. rewrite Hassoc, Hv. now destruct v.
  - intros k' s Hs Hno. rewrite Hassoc, Hs. now rewrite replace_all_none.
Qed.

Lemma process_extensions_fills_base_path_witness :
  let h := sample_host no_network no_process no_files ∅ base_conf in
  exists table items',
    fst (process_extensions h (PList sample_extensions) (fresh sample_basepath_conf))
    = Ret (["markdown.extensions.toc"; "pymdownx.snippets";
            "markdown.extensions.toc"], table)
    /\ table !! "pymdownx.snippets" = Some (PDict items')
    /\ assoc "base_path" items' = Some (PStr "inc:/doc/inc:/doc")
    /\ assoc "check_paths" items' = Some (PBool true)
    /\ assoc "encoding" items' = Some (PStr "utf-8").
Proof.
  intros h.
  epose proof (process_extensions_fills_base_path h (fresh sample_basepath_conf) _
                 [PStr "markdown.extensions.toc"; PInt 3]
                 [PNone; PDict [("markdown.extensions.toc", PNone)]]
                 [] sample_snippets [("basepath", PStr "/doc")]
                 "pymdownx.snippets" "base_path" "/doc" "inc:"
                 ("/inc:" ++ "${BASE_PATH}")) as Hfill.
  edestruct Hfill as (items' & Htable & Hpath & Hother & Hplain).
  - vm_compute. reflexivity.
  - cbn. apply not_elem_of_cons. split; [discriminate | apply not_elem_of_nil].
  - reflexivity.
  - reflexivity.
  - reflexivity.
  - reflexivity.
  - eexists _, items'. split; [vm_compute; reflexivity |].
    split; [exact Htable |]. split; [rewrite Hpath; vm_compute; reflexivity |].
    split; [now apply Hother | now apply Hplain].
Defined.

(** ** Style sheets and scripts *)

Lemma splice_default_first (defaults : list string) (pre post : list pyval) :
  existsb (is_str "default") pre = false ->
  splice_default defaults (pre ++ PStr "default" :: post)
  = (pre ++ map PStr defaults ++ post)%list.
Proof.
  induction pre as [|f pre IH]; intros Hpre; [reflexivity |].
  cbn [existsb] in Hpre. apply orb_false_elim in Hpre as [Hf Hpre].
  rewrite <- !app_comm_cons. cbn [splice_default]. rewrite Hf.
  now rewrite (IH Hpre).
Qed.

(** X19.  The style sheets of a compiler are those listed under its name in
    the [css] setting, or the single name [default] when it has no entry; the
    first [default] of the list stands for the style sheets of the class, at
    its place in the list, and no warning is logged.  What comes after it is
    taken as it is, a further [default] included. *)
Theorem default_css_in_place
    (h : host) (pk : packages) (cls : compiler_class) (st : compiler)
    (d : list (string * pyval)) (pre post : list pyval) :
  sget (settings st) "css" (PDict []) = PDict d ->
  dict_get (PDict d) (compiler_name cls) (PList [PStr "default"])
  = Ret (PList (pre ++ PStr "default" :: post)) ->
  existsb (is_str "default") pre = false ->
  get_default_css h pk cls st
  = (match css_loop h pk (pre ++ map PStr (default_css cls) ++ post) [] with
     | Ret css_text => Ret (join nl css_text)
     | Raise e => Raise e
     end, st).
Proof.
  intros Hcss Hentry Hpre.
  unfold get_default_css. unfold bind at 1, settings_get at 1. rewrite Hcss.
  unfold bind at 1. unfold named_files.
  unfold bind at 1, ret at 1. unfold bind at 1, ret at 1.
  unfold bind at 1, lift at 1. rewrite Hentry.
  unfold bind at 1, lift at 1. cbn [py_in_str].
  rewrite existsb_app. rewrite Hpre. cbn [existsb is_str String.eqb Ascii.eqb Bool.eqb orb].
  unfold ret at 1. rewrite (splice_default_first _ _ _ Hpre).
  unfold bind at 1, lift at 1. cbn [py_iter].
  unfold bind, lift, ret.
  now destruct (css_loop h pk _ []).
Qed.

Lemma default_css_in_place_witness :
  let pk := sample_packages no_files in
  get_default_css sample_override_host pk MarkdownCompiler (fresh sample_css_conf)
  = (Ret ("<link href='https://example.org/a.css' rel='stylesheet' type='text/css'>"
          ++ nl ++ "<style>/* Packages/GyMarkdownPreview/css/markdown.css */</style>"),
     fresh sample_css_conf).
Proof.
  intros pk.
  rewrite (default_css_in_place sample_override_host pk MarkdownCompiler
             (fresh sample_css_conf)
             [("markdown",
               PList [PStr "https://example.org/a.css"; PStr "default"; PStr "default"])]
             [PStr "https://example.org/a.css"] [PStr "default"]);
    reflexivity.
Defined.
Lemma startswith_short (sep s : string) :
  (String.length s < String.length sep)%nat -> startswith sep s = false.
Proof.
  revert s. induction sep as [|a sep IH]; intros s Hlen; [simpl in Hlen; lia |].
  destruct s as [|b s]; [reflexivity |].
  simpl in *. destruct (Ascii.eqb a b); [apply IH; lia | reflexivity].
Qed.

Lemma startswith_refl (s : string) : startswith s s = true.
Proof. induction s as [|c s IH]; [reflexivity |]. simpl. now rewrite Ascii.eqb_refl. Qed.

Lemma before_last_short (sep s : string) :
  (String.length s < String.length sep)%nat -> before_last sep s = None.
Proof.
  induction s as [|c s IH]; intros Hlen.
  - cbn [before_last]. now rewrite startswith_short.
  - cbn [before_last]. rewrite IH by (simpl in Hlen; lia).
    now rewrite startswith_short.
Qed.

(** The last occurrence of the suffix of a text is the suffix. *)
Lemma before_last_suffix (sep stem : string) :
  sep <> EmptyString -> before_last sep (stem ++ sep) = Some stem.
Proof.
  intros Hsep. induction stem as [|c stem IH].
  - change (EmptyString ++ sep) with sep.
    destruct sep as [|a sep]; [congruence |].
    cbn [before_last]. rewrite before_last_short by (simpl; lia).
    now rewrite startswith_refl.
  - rewrite append_cons. cbn [before_last]. now rewrite IH.
Qed.

Lemma endswith_suffix (suffix stem : string) : endswith suffix (stem ++ suffix) = true.
Proof.
  unfold endswith. rewrite length_append.
  replace (String.length stem + String.length suffix - String.length suffix)%nat
    with (String.length stem) by lia.
  rewrite drop_str_append, String.eqb_refl.
  rewrite andb_true_r. apply Nat.leb_le. lia.
Qed.

Lemma override_loop_skips (h : host) (pk : packages) (filename : string)
    (skipped : list string) (rest : list pyval) :
  forallb (fun t => negb (endswith t filename)) skipped = true ->
  override_loop h pk filename (map PStr skipped ++ rest)
  = override_loop h pk filename rest.
Proof.
  induction skipped as [|t skipped IH]; intros Hskip; [reflexivity |].
  cbn [forallb] in Hskip. apply andb_prop in Hskip as [Ht Hskip].
  cbn [map]. rewrite <- app_comm_cons. cbn [override_loop].
  apply negb_true_iff in Ht. rewrite Ht. now apply IH.
Qed.

(** X20.  With CSS overrides allowed, the override style sheet of a saved file
    is read from the file of the same name with the file type replaced by
    [.css]: the type is cut off at the end of the name, also where it occurs
    earlier in the name, and the first type of the list that ends the name and
    has such a file decides.  Nothing is logged. *)
Theorem override_css_beside_file
    (h : host) (pk : packages) (vw : view) (st : compiler)
    (stem filetype css : string) (skipped : list string) (rest : list pyval) :
  truthy (sget (settings st) "allow_css_overrides" PNone) = true ->
  sget (settings st) "markdown_filetypes" PNone
  = PList (map PStr skipped ++ PStr filetype :: rest) ->
  view_file_name vw = Some (stem ++ filetype) ->
  filetype <> EmptyString ->
  forallb (fun t => negb (endswith t (stem ++ filetype))) skipped = true ->
  os_path_isfile pk (stem ++ ".css") = true ->
  load_utf8 h (stem ++ ".css") = Ret css ->
  get_override_css h pk vw st = (Ret ("<style>" ++ css ++ "</style>"), st).
Proof.
  intros Hallow Htypes Hname Htype Hskip Hfile Hload.
  assert (Hfilename : String.eqb (stem ++ filetype) EmptyString = false).
  { apply String.eqb_neq. intros Hempty.
    destruct stem; [now apply Htype | discriminate Hempty]. }
  assert (Hlist : truthy (PList (map PStr skipped ++ PStr filetype :: rest)) = true)
    by now destruct skipped.
  unfold get_override_css. unfold bind at 1, settings_get at 1. rewrite Hallow.
  unfold bind at 1, settings_get at 1. rewrite Htypes, Hname, Hfilename, Hlist.
  cbn [negb andb]. unfold bind at 1, lift at 1. cbn [py_iter].
  unfold bind at 1, lift at 1.
  rewrite (override_loop_skips h pk _ skipped _ Hskip).
  cbn [override_loop]. rewrite endswith_suffix.
  unfold rpartition_0. apply String.eqb_neq in Htype. rewrite Htype.
  apply String.eqb_neq in Htype. rewrite (before_last_suffix _ _ Htype).
  now rewrite Hfile, Hload.
Qed.

Lemma override_css_beside_file_witness :
  let pk := sample_packages (fun p => String.eqb p "/doc/notes.md.css") in
  get_override_css sample_override_host pk sample_saved_view
    (fresh sample_override_conf)
  = (Ret "<style>/* /doc/notes.md.css */</style>", fresh sample_override_conf).
Proof.
  intros pk.
  apply (override_css_beside_file sample_override_host pk sample_saved_view
           (fresh sample_override_conf) "/doc/notes.md" ".md"
           "/* /doc/notes.md.css */" [".markdown"] [PStr ".txt"]).
  - reflexivity.
  - reflexivity.
  - reflexivity.
  - discriminate.
  - reflexivity.
  - reflexivity.
  - reflexivity.
Defined.

Lemma css_element_char (h : host) (pk : packages) (c : ascii) :
  os_path_isfile pk (os_path_expanduser h (String c EmptyString)) = false ->
  css_element h pk (String c EmptyString) = Ret None.
Proof.
  intros Hfile. unfold css_element, isurl. cbn [startswith].
  destruct (Ascii.eqb "r" c); destruct (Ascii.eqb "h" c); cbn [orb];
    now rewrite Hfile.
Qed.

Lemma css_loop_chars (h : host) (pk : packages) (l : list ascii) :
  (forall c, os_path_isfile pk (os_path_expanduser h (String c EmptyString)) = false) ->
  forall css_text,
    css_loop h pk (map (fun c => PStr (String c EmptyString)) l) css_text
    = Ret css_text.
Proof.
  intros Hfile. induction l as [|c l IH]; intros css_text; [reflexivity |].
  cbn [map css_loop]. rewrite (css_element_char h pk c (Hfile c)). apply IH.
Qed.

(** X21.  A text in the place of the list under a compiler's name is read in
    two ways.  [get_javascript] takes it as the one script to load.
    [get_default_css] walks through its characters, so that, no file having a
    name of one character, no style sheet is loaded at all; neither logs a
    warning. *)
Theorem text_entry_css_and_js
    (h : host) (pk : packages) (cls : compiler_class) (st : compiler)
    (css js : list (string * pyval)) (css_name js_name : string) :
  sget (settings st) "css" (PDict []) = PDict css ->
  assoc (compiler_name cls) css = Some (PStr css_name) ->
  contains "default" css_name = false ->
  (forall c, os_path_isfile pk (os_path_expanduser h (String c EmptyString)) = false) ->
  sget (settings st) "js" (PDict []) = PDict js ->
  assoc (compiler_name cls) js = Some (PStr js_name) ->
  contains "default" js_name = false ->
  get_default_css h pk cls st = (Ret EmptyString, st)
  /\ Compiler_get_javascript h pk cls st = (js_element h pk js_name, st).
Proof.
  intros Hcss Hcss_name Hcss_default Hfile Hjs Hjs_name Hjs_default. split.
  - unfold get_default_css. unfold bind at 1, settings_get at 1. rewrite Hcss.
    unfold bind at 1. unfold named_files.
    unfold bind at 1, ret at 1. unfold bind at 1, ret at 1.
    unfold bind at 1, lift at 1, dict_get. rewrite Hcss_name.
    unfold bind at 1, lift at 1. cbn [py_in_str]. rewrite Hcss_default.
    unfold ret at 1. unfold bind at 1, lift at 1. cbn [py_iter].
    unfold bind at 1, lift at 1. rewrite (css_loop_chars h pk _ Hfile).
    reflexivity.
  - unfold Compiler_get_javascript. unfold bind at 1, settings_get at 1. rewrite Hjs.
    unfold bind at 1. unfold named_files.
    unfold bind at 1, ret at 1. unfold bind at 1, ret at 1.
    unfold bind at 1, lift at 1, dict_get. rewrite Hjs_name.
    unfold bind at 1, lift at 1. cbn [py_in_str]. rewrite Hjs_default.
    unfold ret at 1. cbn [js_loop]. unfold lift.
    now destruct (js_element h pk js_name).
Qed.

Lemma text_entry_css_and_js_witness :
  let pk := sample_packages no_files in
  let st := fresh sample_text_css_conf in
  get_default_css sample_override_host pk MarkdownCompiler st = (Ret EmptyString, st)
  /\ Compiler_get_javascript sample_override_host pk MarkdownCompiler st
     = (Ret "<script type='text/javascript' src='my.js'></script>", st).
Proof.
  intros pk st.
  apply (text_entry_css_and_js sample_override_host pk MarkdownCompiler st
           [("markdown", PStr "my.css")] [("markdown", PStr "my.js")]
           "my.css" "my.js").
  - reflexivity.
  - reflexivity.
  - reflexivity.
  - intros c. reflexivity.
  - reflexivity.
  - reflexivity.
  - reflexivity.
Defined.
